(** * MemoryManager: ObjectAllocator, Handle and Pointer

    A shallow embedding of the debug build (MEMORYMANAGER_DEBUG) of
    ObjectAllocator.h, MemoryHandle.h / MemoryHandle.cpp and Pointer.h.

    The source converts pointers to [unsigned int] (ObjectAllocator::Free), so
    the embedding fixes the 32-bit target the code is written for: [unsigned],
    [int], [size_t] and pointers are 32-bit words.  An [unsigned] value is a
    [Z] with its wrap-around written out; memory is a map from addresses to
    bytes; linked lists (page list, free list) are threaded through memory as
    in the source. *)

From Stdlib Require Import ZArith List String Ascii Bool Lia DecimalString.
From Stdlib Require Import Permutation FunctionalExtensionality.
Import ListNotations.
Open Scope Z_scope.

(** ** The machine: words, bytes, memory *)

Module Machine.

(** Wrap-around of [unsigned] arithmetic. *)
Definition wrap (x : Z) : Z := x mod 2 ^ 32.

(** Value of an [int] read from a 32-bit word. *)
Definition signed (x : Z) : Z :=
  if wrap x <? 2 ^ 31 then wrap x else wrap x - 2 ^ 32.

(** Byte-addressed memory. *)
Definition mem : Type := Z -> Z.

(** [memset(p, v, n)]. *)
Definition memset (m : mem) (p v n : Z) : mem :=
  fun a => if (p <=? a) && (a <? p + n) then v mod 256 else m a.

(** The [i]-th byte (little endian) of a 32-bit word. *)
Definition byte_of (v i : Z) : Z := (v / 256 ^ i) mod 256.

(** Store of a 32-bit word ([unsigned], [int] or pointer) at [p]. *)
Definition store32 (m : mem) (p v : Z) : mem :=
  fun a => if (p <=? a) && (a <? p + 4) then byte_of v (a - p) else m a.

(** Load of a 32-bit word at [p]. *)
Definition load32 (m : mem) (p : Z) : Z :=
  m p + 256 * m (p + 1) + 65536 * m (p + 2) + 16777216 * m (p + 3).

(** Store of one byte ([bool], [unsigned char]). *)
Definition store8 (m : mem) (p v : Z) : mem :=
  fun a => if a =? p then v mod 256 else m a.

(** [operator<<(unsigned)]: decimal digits. *)
Definition dec (x : Z) : string :=
  NilZero.string_of_uint (N.to_uint (Z.to_N x)).

(** [std::endl]. *)
Definition endl : string := String (ascii_of_nat 10) EmptyString.

End Machine.
Import Machine.

(** ** ObjectAllocator.h *)

Module ObjectAllocator.

(** Size of a [GenericObject] pointer. *)
Definition ptrSize : Z := 4.

(** [struct DebugHeader { bool allocated; char const * filename; unsigned line; }]:
    on the 32-bit target the fields sit at offsets 0, 4 and 8 and
    [sizeof(DebugHeader)] is 12. *)
Definition sizeof_DebugHeader : Z := 12.
Definition off_allocated : Z := 0.
Definition off_filename : Z := 4.
Definition off_line : Z := 8.

Record DebugHeader := {
  allocated : bool;
  filename : Z;
  line : Z
}.

(** Reading a [DebugHeader] through a pointer. *)
Definition read_header (m : mem) (h : Z) : DebugHeader :=
  {| allocated := negb (m (h + off_allocated) =? 0);
     filename := load32 m (h + off_filename);
     line := load32 m (h + off_line) |}.

(** Byte signatures. *)
Definition ALLOCATED : Z := 0xAA.
Definition FREED : Z := 0xBB.
Definition PAD : Z := 0xDD.
Definition ALIGN : Z := 0xEE.
Definition UNALLOCATED : Z := 0xFF.

Record Stats := {
  freeBlocks : Z;
  blocksInUse : Z;
  pagesInUse : Z;
  mostBlocksInUse : Z;
  mostPagesInUse : Z;
  allocations : Z;
  deallocations : Z
}.

Definition Stats_init : Stats :=
  {| freeBlocks := 0; blocksInUse := 0; pagesInUse := 0; mostBlocksInUse := 0;
     mostPagesInUse := 0; allocations := 0; deallocations := 0 |}.

Record ObjectAllocatorSettings := {
  blocksPerPage : Z;
  padBytes : Z;
  alignment : Z
}.

(** Default member initialisers of the debug build. *)
Definition default_settings : ObjectAllocatorSettings :=
  {| blocksPerPage := 1024; padBytes := 2; alignment := 4 |}.

(** The allocator object.  [logStream] is [None] for a null stream pointer and
    otherwise holds the text written to the stream so far.  ([ownsLogStream]
    only matters to the destructor's [delete] and is left out.) *)
Record Pool := {
  headerSize : Z;
  settings : ObjectAllocatorSettings;
  blockSize : Z;
  pageSize : Z;
  leftAlign : Z;
  interAlign : Z;
  leftChunkSize : Z;
  interChunkSize : Z;
  stats : Stats;
  logStream : option string;
  pageList : Z;
  freeList : Z
}.

Definition set_stats (a : Pool) (s : Stats) : Pool :=
  {| headerSize := headerSize a; settings := settings a; blockSize := blockSize a;
     pageSize := pageSize a; leftAlign := leftAlign a; interAlign := interAlign a;
     leftChunkSize := leftChunkSize a; interChunkSize := interChunkSize a;
     stats := s; logStream := logStream a;
     pageList := pageList a; freeList := freeList a |}.

Definition set_logStream (a : Pool) (l : option string) : Pool :=
  {| headerSize := headerSize a; settings := settings a; blockSize := blockSize a;
     pageSize := pageSize a; leftAlign := leftAlign a; interAlign := interAlign a;
     leftChunkSize := leftChunkSize a; interChunkSize := interChunkSize a;
     stats := stats a; logStream := l;
     pageList := pageList a; freeList := freeList a |}.

Definition set_pageList (a : Pool) (p : Z) : Pool :=
  {| headerSize := headerSize a; settings := settings a; blockSize := blockSize a;
     pageSize := pageSize a; leftAlign := leftAlign a; interAlign := interAlign a;
     leftChunkSize := leftChunkSize a; interChunkSize := interChunkSize a;
     stats := stats a; logStream := logStream a;
     pageList := p; freeList := freeList a |}.

Definition set_freeList (a : Pool) (p : Z) : Pool :=
  {| headerSize := headerSize a; settings := settings a; blockSize := blockSize a;
     pageSize := pageSize a; leftAlign := leftAlign a; interAlign := interAlign a;
     leftChunkSize := leftChunkSize a; interChunkSize := interChunkSize a;
     stats := stats a; logStream := logStream a;
     pageList := pageList a; freeList := p |}.

(** [*logStream << s], guarded by [logStream != nullptr]. *)
Definition log (a : Pool) (s : string) : Pool :=
  match logStream a with
  | Some t => set_logStream a (Some (t ++ s)%string)
  | None => a
  end.

(** [Push(stack, obj)]: [obj->next = stack; stack = obj].  Returns the memory
    and the new stack pointer. *)
Definition Push (m : mem) (stack obj : Z) : mem * Z :=
  (store32 m obj stack, obj).

(** [Pop(stack)]: returns the popped object and the new stack pointer. *)
Definition Pop (m : mem) (stack : Z) : Z * Z :=
  if stack =? 0 then (0, stack) else (stack, load32 m stack).

(** [CalculatePageSize]. *)
Definition CalculatePageSize (a : Pool) : Z :=
  wrap (ptrSize + leftAlign a
        + blocksPerPage (settings a)
          * (blockSize a + 2 * padBytes (settings a) + headerSize a + interAlign a)
        - interAlign a).

(** The debug constructor [ObjectAllocator(std::ostream * logStream, settings)]
    for an element type of size [sizeofT]. *)
Definition ObjectAllocator_ctor (sizeofT : Z) (logStream : option string)
    (settings : ObjectAllocatorSettings) : Pool :=
  let headerSize := sizeof_DebugHeader in
  let blockSize := if sizeofT <? ptrSize then ptrSize else sizeofT in
  let pad := padBytes settings in
  let al := alignment settings in
  let leftAlign :=
    if 1 <? al then wrap (al - wrap (ptrSize + headerSize + pad)) mod al else 0 in
  let interAlign :=
    if 1 <? al then wrap (al - wrap (blockSize + headerSize + 2 * pad)) mod al else 0 in
  let leftChunkSize := wrap (ptrSize + leftAlign + headerSize + 2 * pad + blockSize) in
  let interChunkSize := wrap (blockSize + 2 * pad + interAlign + headerSize) in
  let a0 :=
    {| headerSize := headerSize; settings := settings; blockSize := blockSize;
       pageSize := 0; leftAlign := leftAlign; interAlign := interAlign;
       leftChunkSize := leftChunkSize; interChunkSize := interChunkSize;
       stats := Stats_init; logStream := logStream;
       pageList := 0; freeList := 0 |} in
  {| headerSize := headerSize; settings := settings; blockSize := blockSize;
     pageSize := CalculatePageSize a0; leftAlign := leftAlign; interAlign := interAlign;
     leftChunkSize := leftChunkSize; interChunkSize := interChunkSize;
     stats := Stats_init; logStream := logStream;
     pageList := 0; freeList := 0 |}.

(** [GetDebugHeader(mem)]: address of the header of the block at [p]. *)
Definition GetDebugHeader (a : Pool) (p : Z) : Z :=
  p - padBytes (settings a) - headerSize a.

(** One iteration of the loop of [CreatePage] that populates the free list
    "except for last block".  The loop state is the memory, the cursor [p] and
    the free list. *)
Definition CreatePage_step (a : Pool) (st : mem * Z * Z) : mem * Z * Z :=
  let '(m, p, fl) := st in
  let pad := padBytes (settings a) in
  let m := memset m p UNALLOCATED (blockSize a) in
  let '(m, fl) := Push m fl p in
  let p := p + blockSize a in
  let m := memset m p PAD pad in
  let p := p + pad in
  let m := memset m p ALIGN (interAlign a) in
  let p := p + interAlign a in
  let m := memset m p 0 (headerSize a) in
  let p := p + headerSize a in
  let m := memset m p PAD pad in
  let p := p + pad in
  (m, p, fl).

Fixpoint CreatePage_loop (a : Pool) (n : nat) (st : mem * Z * Z) : mem * Z * Z :=
  match n with
  | O => st
  | S k => CreatePage_loop a k (CreatePage_step a st)
  end.

(** [CreatePage].  [newp] is the address returned by [new char[pageSize]]. *)
Definition CreatePage (newp : Z) (a : Pool) (m : mem) : Pool * mem :=
  let pad := padBytes (settings a) in
  let p := newp in
  let '(m, pl) := Push m (pageList a) p in
  let p := p + ptrSize in
  let m := memset m p ALIGN (leftAlign a) in
  let p := p + leftAlign a in
  let m := memset m p 0 (headerSize a) in
  let p := p + headerSize a in
  let m := memset m p PAD pad in
  let p := p + pad in
  let '(m, p, fl) :=
    CreatePage_loop a (Z.to_nat (wrap (blocksPerPage (settings a) - 1)))
      (m, p, freeList a) in
  let m := memset m p UNALLOCATED (blockSize a) in
  let '(m, fl) := Push m fl p in
  let p := p + blockSize a in
  let m := memset m p PAD pad in
  let s := stats a in
  let piu := wrap (pagesInUse s + 1) in
  let s :=
    {| freeBlocks := wrap (freeBlocks s + blocksPerPage (settings a));
       blocksInUse := blocksInUse s;
       pagesInUse := piu;
       mostBlocksInUse := mostBlocksInUse s;
       mostPagesInUse := if mostPagesInUse s <? piu then piu else mostPagesInUse s;
       allocations := allocations s;
       deallocations := deallocations s |} in
  (set_stats (set_freeList (set_pageList a pl) fl) s, m).

(** [Allocate(file, line)].  [newp] is the address [new] returns should a
    page be created.  Returns the block, the allocator and the memory. *)
Definition Allocate (newp : Z) (file line : Z) (a : Pool) (m : mem)
    : Z * Pool * mem :=
  let '(a, m) := if freeList a =? 0 then CreatePage newp a m else (a, m) in
  let s := stats a in
  let biu := wrap (blocksInUse s + 1) in
  let s :=
    {| freeBlocks := wrap (freeBlocks s - 1);
       blocksInUse := biu;
       pagesInUse := pagesInUse s;
       mostBlocksInUse := if mostBlocksInUse s <? biu then biu else mostBlocksInUse s;
       mostPagesInUse := mostPagesInUse s;
       allocations := wrap (allocations s + 1);
       deallocations := deallocations s |} in
  let '(p, fl) := Pop m (freeList a) in
  let m := memset m p ALLOCATED (blockSize a) in
  let dbg := p - headerSize a - padBytes (settings a) in
  let m := store8 m (dbg + off_allocated) 1 in
  let m := store32 m (dbg + off_line) line in
  let m := store32 m (dbg + off_filename) file in
  (p, set_stats (set_freeList a fl) s, m).

(** [MemoryManagerException]: the message given to [std::exception] and the
    [filename] and [line] members. *)
Record MemoryManagerException := {
  what_msg : string;
  exn_filename : string;
  exn_line : Z
}.

(** A call either returns or throws. *)
Inductive result (A : Type) : Type :=
| Returned (x : A)
| Thrown (e : MemoryManagerException).
Arguments Returned {A} x.
Arguments Thrown {A} e.

(** What the validation in [Free] decides for the page that holds the
    address: the checks passed, or a diagnostic with its log line, exception
    message and return code. *)
Inductive verdict : Type :=
| Valid
| Invalid (logline : string) (msg : string) (code : Z).

(** The pad-byte loop of [Free]: [true] when no pad byte was invalidated. *)
Fixpoint pads_intact (m : mem) (n : nat) (pad_left pad_right : Z) : bool :=
  match n with
  | O => true
  | S k =>
    if negb (m pad_left =? PAD) || negb (m pad_right =? PAD) then false
    else pads_intact m k (pad_left - 1) (pad_right + 1)
  end.

Section Build.

(** The text of the C string a [char const *] points to (the [__FILE__]
    literals of the callers). *)
Variable cstr : Z -> string.

(** MEMORYMANAGER_ENABLE_EXCEPTIONS. *)
Variable exceptions : bool.

(** The constructor of [MemoryManagerException]: a null [filename] becomes
    the empty string. *)
Definition mkException (msg : string) (filename line : Z) : MemoryManagerException :=
  {| what_msg := msg;
     exn_filename := if filename =? 0 then EmptyString else cstr filename;
     exn_line := line |}.

(** The checks [Free] makes once the page holding [del] is found
    ([d] is the offset of [del] in that page). *)
Definition Free_validate (a : Pool) (m : mem) (del filename line d : Z) : verdict :=
  let header := read_header m (GetDebugHeader a del) in
  let left_offset := wrap (leftChunkSize a - padBytes (settings a) - blockSize a) in
  if negb (wrap (d - left_offset) mod interChunkSize a =? 0) then
    Invalid ("Invalid alignment on free from #" ++ dec line ++ " in file "
             ++ cstr filename ++ endl)
            "Invalid alignment on free." ALIGN
  else if negb (allocated header) then
    Invalid ("Attempt to free already freed memory from #" ++ dec line
             ++ " in file " ++ cstr filename ++ endl)
            "Attempt to free already freed memory." FREED
  else if negb (pads_intact m (Z.to_nat (padBytes (settings a)))
                  (del - 1) (del + blockSize a)) then
    Invalid ("Pad bytes invalidated for object allocated at #"
             ++ dec (ObjectAllocator.line header) ++ " in file "
             ++ cstr (ObjectAllocator.filename header) ++ endl)
            "Pad bytes invalidated for object." PAD
  else Valid.

(** The [while (pages)] loop of [Free]; [fuel] bounds the number of times the
    loop condition is tested. *)
Fixpoint Free_walk (fuel : nat) (a : Pool) (m : mem) (del filename line pages : Z)
    : option verdict :=
  match fuel with
  | O => None
  | S f =>
    if pages =? 0 then Some Valid
    else
      let d := wrap (wrap del - wrap pages) in
      if d <? pageSize a then
        match Free_validate a m del filename line d with
        | Invalid l e c => Some (Invalid l e c)
        | Valid => Free_walk f a m del filename line 0
        end
      else Free_walk f a m del filename line (load32 m pages)
  end.

(** [Free(mem, filename, line)].  The destructor of the element is taken to
    leave the allocator and its pages alone. *)
Definition Free (fuel : nat) (del filename line : Z) (a : Pool) (m : mem)
    : option (result Z * Pool * mem) :=
  match Free_walk fuel a m del filename line (pageList a) with
  | None => None
  | Some (Invalid l e c) =>
    let a := log a l in
    if exceptions then Some (Thrown (mkException e filename line), a, m)
    else Some (Returned c, a, m)
  | Some Valid =>
    let m := memset m del FREED (blockSize a) in
    let m := memset m (del - headerSize a - padBytes (settings a)) 0 (headerSize a) in
    let '(m, fl) := Push m (freeList a) del in
    let s := stats a in
    let s :=
      {| freeBlocks := wrap (freeBlocks s + 1);
         blocksInUse := wrap (blocksInUse s - 1);
         pagesInUse := pagesInUse s;
         mostBlocksInUse := mostBlocksInUse s;
         mostPagesInUse := mostPagesInUse s;
         allocations := allocations s;
         deallocations := wrap (deallocations s + 1) |} in
    Some (Returned 0, set_stats (set_freeList a fl) s, m)
  end.

(** The [for] loop of [DumpMemoryInUse] over the blocks of one page. *)
Fixpoint Dump_blocks (a : Pool) (m : mem) (n : nat) (p : Z) (out : string) : string :=
  match n with
  | O => out
  | S k =>
    let dbg := read_header m (GetDebugHeader a p) in
    let out :=
      if allocated dbg then
        (out ++ dec (blockSize a) ++ "b allocated at line #"
         ++ dec (ObjectAllocator.line dbg) ++ " in file "
         ++ cstr (ObjectAllocator.filename dbg))%string
      else out in
    Dump_blocks a m k (p + interChunkSize a) out
  end.

(** The [while (pages)] loop of [DumpMemoryInUse]. *)
Fixpoint Dump_pages (fuel : nat) (a : Pool) (m : mem) (pages : Z) (out : string)
    : option string :=
  match fuel with
  | O => None
  | S f =>
    if pages =? 0 then Some out
    else
      let p := pages
               + wrap (ptrSize + leftAlign a + headerSize a + padBytes (settings a)) in
      let out := Dump_blocks a m (Z.to_nat (blocksPerPage (settings a))) p out in
      Dump_pages f a m (load32 m pages) out
  end.

(** [DumpMemoryInUse(outputStream)]: the new contents of the stream. *)
Definition DumpMemoryInUse (fuel : nat) (a : Pool) (m : mem) (outputStream : string)
    : option string :=
  Dump_pages fuel a m (pageList a) outputStream.

(** The [while (pageList)] loop of the destructor: each page is popped off
    the page list and given to [delete[]].  Returns the pages deleted, in
    order, and the page list at the end; [fuel] bounds the number of times
    the loop condition is tested. *)
Fixpoint delete_pages (fuel : nat) (m : mem) (pageList : Z) : option (list Z * Z) :=
  match fuel with
  | O => None
  | S f =>
    if pageList =? 0 then Some ([], pageList)
    else
      let '(page, pageList) := Pop m pageList in
      match delete_pages f m pageList with
      | Some (deleted, pl) => Some (page :: deleted, pl)
      | None => None
      end
  end.

(** [~ObjectAllocator()]: the blocks still in use are dumped to the log
    stream, if there is one, and the pages are deleted.  Returns the
    allocator and the pages given to [delete[]], in order.  (The [delete] of
    an owned log stream at the end is left out, as [ownsLogStream] is.) *)
Definition ObjectAllocator_dtor (fuel : nat) (a : Pool) (m : mem)
    : option (Pool * list Z) :=
  match
    match logStream a with
    | Some out =>
      match DumpMemoryInUse fuel a m out with
      | Some out => Some (set_logStream a (Some out))
      | None => None
      end
    | None => Some a
    end
  with
  | None => None
  | Some a =>
    match delete_pages fuel m (pageList a) with
    | Some (deleted, pl) => Some (set_pageList a pl, deleted)
    | None => None
    end
  end.

End Build.

End ObjectAllocator.

(** ** ObjectAllocator.h without MEMORYMANAGER_DEBUG *)

Module Release.
Import ObjectAllocator.

(** Default member initialisers of the release build. *)
Definition default_settings : ObjectAllocatorSettings :=
  {| blocksPerPage := 1024; padBytes := 0; alignment := 4 |}.

(** [unsigned headerSize = 0]. *)
Definition headerSize : Z := 0.

(** The allocator object of the release build: no chunk sizes, statistics
    or log stream. *)
Record Pool := {
  settings : ObjectAllocatorSettings;
  blockSize : Z;
  pageSize : Z;
  leftAlign : Z;
  interAlign : Z;
  pageList : Z;
  freeList : Z
}.

Definition set_pageList (a : Pool) (p : Z) : Pool :=
  {| settings := settings a; blockSize := blockSize a; pageSize := pageSize a;
     leftAlign := leftAlign a; interAlign := interAlign a;
     pageList := p; freeList := freeList a |}.

Definition set_freeList (a : Pool) (p : Z) : Pool :=
  {| settings := settings a; blockSize := blockSize a; pageSize := pageSize a;
     leftAlign := leftAlign a; interAlign := interAlign a;
     pageList := pageList a; freeList := p |}.

(** [CalculatePageSize]. *)
Definition CalculatePageSize (a : Pool) : Z :=
  wrap (ptrSize + leftAlign a
        + blocksPerPage (settings a)
          * (blockSize a + 2 * padBytes (settings a) + headerSize + interAlign a)
        - interAlign a).

(** The constructor [ObjectAllocator(settings)] for an element type of size
    [sizeofT]. *)
Definition ObjectAllocator_ctor (sizeofT : Z) (settings : ObjectAllocatorSettings)
    : Pool :=
  let blockSize := if sizeofT <? ptrSize then ptrSize else sizeofT in
  let pad := padBytes settings in
  let al := alignment settings in
  let leftAlign :=
    if 1 <? al then wrap (al - wrap (ptrSize + headerSize + pad)) mod al else 0 in
  let interAlign :=
    if 1 <? al then wrap (al - wrap (blockSize + headerSize + 2 * pad)) mod al else 0 in
  let a0 :=
    {| settings := settings; blockSize := blockSize; pageSize := 0;
       leftAlign := leftAlign; interAlign := interAlign;
       pageList := 0; freeList := 0 |} in
  {| settings := settings; blockSize := blockSize; pageSize := CalculatePageSize a0;
     leftAlign := leftAlign; interAlign := interAlign;
     pageList := 0; freeList := 0 |}.

(** One iteration of the loop of [CreatePage]; only the header is written
    to (with no byte at all, as [headerSize] is 0) besides the link. *)
Definition CreatePage_step (a : Pool) (st : mem * Z * Z) : mem * Z * Z :=
  let '(m, p, fl) := st in
  let pad := padBytes (settings a) in
  let '(m, fl) := Push m fl p in
  let p := p + blockSize a in
  let p := p + pad in
  let p := p + interAlign a in
  let m := memset m p 0 headerSize in
  let p := p + headerSize in
  let p := p + pad in
  (m, p, fl).

Fixpoint CreatePage_loop (a : Pool) (n : nat) (st : mem * Z * Z) : mem * Z * Z :=
  match n with
  | O => st
  | S k => CreatePage_loop a k (CreatePage_step a st)
  end.

(** [CreatePage].  [newp] is the address returned by [new char[pageSize]]. *)
Definition CreatePage (newp : Z) (a : Pool) (m : mem) : Pool * mem :=
  let pad := padBytes (settings a) in
  let p := newp in
  let '(m, pl) := Push m (pageList a) p in
  let p := p + ptrSize in
  let p := p + leftAlign a in
  let m := memset m p 0 headerSize in
  let p := p + headerSize in
  let p := p + pad in
  let '(m, p, fl) :=
    CreatePage_loop a (Z.to_nat (wrap (blocksPerPage (settings a) - 1)))
      (m, p, freeList a) in
  let '(m, fl) := Push m fl p in
  (set_freeList (set_pageList a pl) fl, m).

(** [Allocate()]. *)
Definition Allocate (newp : Z) (a : Pool) (m : mem) : Z * Pool * mem :=
  let '(a, m) := if freeList a =? 0 then CreatePage newp a m else (a, m) in
  let '(p, fl) := Pop m (freeList a) in
  (p, set_freeList a fl, m).

(** [Free(mem)].  The destructor of the element is taken to leave the
    allocator and its pages alone. *)
Definition Free (del : Z) (a : Pool) (m : mem) : Pool * mem :=
  if negb (del =? 0) then
    let '(m, fl) := Push m (freeList a) del in
    (set_freeList a fl, m)
  else (a, m).

End Release.

(** ** MemoryHandle.h, MemoryHandle.cpp *)

Module Handle.
Import ObjectAllocator.

(** [class Handle { void * memory; void * allocator; int refCount; }]. *)
Definition sizeof_Handle : Z := 12.
Definition off_memory : Z := 0.
Definition off_allocator : Z := 4.
Definition off_refCount : Z := 8.

(** The program state the handle layer works on: the memory, the static
    [Handle::HandleAllocator], and the [ObjectAllocator<T>] objects of the
    program by address. *)
Record World := {
  heap : mem;
  HandleAllocator : Pool;
  allocators : Z -> option Pool
}.

Definition set_heap (w : World) (m : mem) : World :=
  {| heap := m; HandleAllocator := HandleAllocator w; allocators := allocators w |}.

Definition set_HandleAllocator (w : World) (a : Pool) : World :=
  {| heap := heap w; HandleAllocator := a; allocators := allocators w |}.

Definition set_allocator (w : World) (p : Z) (a : Pool) : World :=
  {| heap := heap w; HandleAllocator := HandleAllocator w;
     allocators := fun q => if q =? p then Some a else allocators w q |}.

(** Computations over the world that return, throw, or give no result (a
    loop bound is exhausted, or a pointer that is no allocator is used as
    one). *)
Definition M (A : Type) : Type := World -> option (result A * World).

Definition ret {A : Type} (x : A) : M A := fun w => Some (Returned x, w).

Definition throw {A : Type} (e : MemoryManagerException) : M A :=
  fun w => Some (Thrown e, w).

Definition bind {A B : Type} (c : M A) (k : A -> M B) : M B :=
  fun w =>
    match c w with
    | None => None
    | Some (Thrown e, w') => Some (Thrown e, w')
    | Some (Returned x, w') => k x w'
    end.

Notation "x <- c ;; k" := (bind c (fun x => k))
  (at level 61, c at next level, right associativity).
Notation "c ;;; k" := (bind c (fun _ => k))
  (at level 61, right associativity).

Definition when (b : bool) (c : M unit) : M unit := if b then c else ret tt.

(** Reads and writes of 32-bit members. *)
Definition get32 (p : Z) : M Z := fun w => Some (Returned (load32 (heap w) p), w).

Definition put32 (p v : Z) : M unit :=
  fun w => Some (Returned tt, set_heap w (store32 (heap w) p v)).

(** [Handle::HandleAllocator.GetLogStream() << s].  The handle allocator is
    constructed with a log file, so its stream is never null. *)
Definition hlog (s : string) : M unit :=
  fun w => Some (Returned tt, set_HandleAllocator w (log (HandleAllocator w) s)).

(** [Handle::HandleAllocator.GetDebugHeader(this)], read. *)
Definition handle_header (this : Z) : M DebugHeader :=
  fun w =>
    Some (Returned (read_header (heap w) (GetDebugHeader (HandleAllocator w) this)), w).

Section Build.

Variable cstr : Z -> string.
Variable exceptions : bool.

(** Address of the static [Handle::Null]. *)
Variable Null : Z.

(** The [__FILE__] literal of MemoryHandle.cpp, used by [MM_FREE] in
    [RemoveRef] (whose [__LINE__] is 88). *)
Variable MemoryHandle_cpp : Z.

(** [Handle::HandleAllocator.Allocate(file, line)]. *)
Definition HandleAllocator_Allocate (newp file line : Z) : M Z :=
  fun w =>
    let '(p, a, m) := Allocate newp file line (HandleAllocator w) (heap w) in
    Some (Returned p, set_heap (set_HandleAllocator w a) m).

(** [Handle::HandleAllocator.Free(mem, file, line)]. *)
Definition HandleAllocator_Free (fuel : nat) (p file line : Z) : M Z :=
  fun w =>
    match Free cstr exceptions fuel p file line (HandleAllocator w) (heap w) with
    | None => None
    | Some (r, a, m) => Some (r, set_heap (set_HandleAllocator w a) m)
    end.

(** [static_cast<ObjectAllocator<T>*>(allocator)->Free(mem, file, line)]. *)
Definition allocator_Free (fuel : nat) (allocator p file line : Z) : M Z :=
  fun w =>
    match allocators w allocator with
    | None => None
    | Some a =>
      match Free cstr exceptions fuel p file line a (heap w) with
      | None => None
      | Some (r, a, m) => Some (r, set_heap (set_allocator w allocator a) m)
      end
    end.

(** The standard constructor [Handle(allocator, memory)], placed at [this]. *)
Definition Handle_ctor (this allocator memory : Z) : M unit :=
  put32 (this + off_memory) memory ;;;
  put32 (this + off_allocator) allocator ;;;
  put32 (this + off_refCount) 0.

(** The constructor of the null handle, [Handle()]. *)
Definition Handle_ctor_null (this : Z) : M unit :=
  put32 (this + off_memory) 0 ;;;
  put32 (this + off_allocator) 0 ;;;
  put32 (this + off_refCount) 1.

(** [CreateHandle(allocator, memory, file, line)]. *)
Definition CreateHandle (newp allocator memory file line : Z) : M Z :=
  this <- HandleAllocator_Allocate newp file line ;;
  Handle_ctor this allocator memory ;;;
  ret this.

(** [GetRefCount]. *)
Definition GetRefCount (this : Z) : M Z :=
  rc <- get32 (this + off_refCount) ;; ret (signed rc).

(** [AddRef]: [++refCount]. *)
Definition AddRef (this : Z) : M unit :=
  rc <- get32 (this + off_refCount) ;;
  put32 (this + off_refCount) (signed (rc + 1)).

(** [RemoveRef(filename, line)]. *)
Definition RemoveRef (fuel : nat) (this filename line : Z) : M unit :=
  rc0 <- get32 (this + off_refCount) ;;
  let refCount := signed (rc0 - 1) in
  put32 (this + off_refCount) refCount ;;;
  when (refCount <? 0)
    (dbg <- handle_header this ;;
     hlog ("[Handle]: Negative RefCount detected from remove at: "
           ++ cstr filename ++ " #" ++ dec line
           ++ "Memory allocated at: "
           ++ cstr (ObjectAllocator.filename dbg) ++ " #"
           ++ dec (ObjectAllocator.line dbg)) ;;;
     when exceptions
       (throw (mkException cstr "Negative RefCount detected." filename line))) ;;;
  when (refCount <=? 0)
    (memory <- get32 (this + off_memory) ;;
     when (exceptions && negb (memory =? 0))
       (throw (mkException cstr
                 "Dangling reference: All references removed before pointer freed."
                 filename line)) ;;;
     HandleAllocator_Free fuel this MemoryHandle_cpp 88 ;;;
     ret tt).

(** [Get<T>()]. *)
Definition Get (this : Z) : M Z :=
  memory <- get32 (this + off_memory) ;;
  when (memory =? 0)
    (dbg <- handle_header this ;;
     hlog ("[Handle]: Attempt to access freed memory. Memory allocated at "
           ++ cstr (ObjectAllocator.filename dbg) ++ " #"
           ++ dec (ObjectAllocator.line dbg)) ;;;
     when exceptions
       (throw (mkException cstr "Attempt to access freed memory."
                 (ObjectAllocator.filename dbg) (ObjectAllocator.line dbg)))) ;;;
  ret memory.

(** [Free<T>(file, line)]. *)
Definition Free (fuel : nat) (this file line : Z) : M unit :=
  memory <- get32 (this + off_memory) ;;
  if memory =? 0 then
    dbg <- handle_header this ;;
    hlog ("[Handle]: Attempt to free freed memory. Free attempt at: "
          ++ cstr file ++ " #" ++ dec line
          ++ "Memory allocated at: "
          ++ cstr (ObjectAllocator.filename dbg) ++ " #"
          ++ dec (ObjectAllocator.line dbg)) ;;;
    when exceptions
      (throw (mkException cstr "Attempt to free freed memory." file line))
  else
    allocator <- get32 (this + off_allocator) ;;
    errorCode <- allocator_Free fuel allocator memory file line ;;
    when (negb (errorCode =? 0))
      (dbg <- handle_header this ;;
       hlog ("[Handle]: Invalid free attempt failed at: "
             ++ cstr file ++ " #" ++ dec line
             ++ "Memory allocated at: "
             ++ cstr (ObjectAllocator.filename dbg) ++ " #"
             ++ dec (ObjectAllocator.line dbg)) ;;;
       when exceptions
         (throw (mkException cstr "Invalid free attempt." file line))) ;;;
    put32 (this + off_memory) 0.

(** [IsNull]. *)
Definition IsNull (this : Z) : M bool :=
  memory <- get32 (this + off_memory) ;; ret (memory =? 0).

(** [GetNumberOfAllocatedHandles]: [blocksInUse] of the handle allocator,
    converted to [int]. *)
Definition GetNumberOfAllocatedHandles : M Z :=
  fun w => Some (Returned (signed (blocksInUse (stats (HandleAllocator w)))), w).

(** [GetAllocator] and [GetRawPointer]. *)
Definition GetAllocator (this : Z) : M Z := get32 (this + off_allocator).

Definition GetRawPointer (this : Z) : M Z := get32 (this + off_memory).

End Build.

End Handle.

(** ** Pointer.h *)

Module Pointer.
Import ObjectAllocator Handle.

Section Build.

Variable cstr : Z -> string.
Variable exceptions : bool.
Variable Null : Z.
Variable MemoryHandle_cpp : Z.

(** A [Pointer<T>] holds one member, [Handle * handle]; the operations below
    return the value of that member after the call. *)

(** [Pointer()] and [Pointer(std::nullptr_t)]. *)
Definition Pointer_null : M Z :=
  AddRef Null ;;; ret Null.

(** [Pointer(Handle & handle)]. *)
Definition Pointer_of_handle (handle : Z) : M Z :=
  AddRef handle ;;; ret handle.

(** The copy constructor, the move constructor and the converting
    constructor: all take [rhs.handle] and add a reference. *)
Definition Pointer_copy (rhs : Z) : M Z :=
  AddRef rhs ;;; ret rhs.

(** [~Pointer()]: [RemoveRef] with its default arguments. *)
Definition Pointer_dtor (fuel : nat) (handle : Z) : M unit :=
  Handle.RemoveRef cstr exceptions MemoryHandle_cpp fuel handle 0 0.

(** [operator=(Pointer const &)] and [operator=(Pointer &&)]; [same] is
    [this == &rhs]. *)
Definition Pointer_assign (fuel : nat) (same : bool) (handle rhs : Z) : M Z :=
  if same then ret handle
  else
    Handle.RemoveRef cstr exceptions MemoryHandle_cpp fuel handle 0 0 ;;;
    AddRef rhs ;;;
    ret rhs.

(** [operator=(std::nullptr_t const &)]. *)
Definition Pointer_assign_null (fuel : nat) (handle : Z) : M Z :=
  Handle.RemoveRef cstr exceptions MemoryHandle_cpp fuel handle 0 0 ;;;
  AddRef Null ;;;
  ret Null.

(** [operator=(Pointer<U> const &)]: no self-assignment test. *)
Definition Pointer_assign_conv (fuel : nat) (handle rhs : Z) : M Z :=
  Handle.RemoveRef cstr exceptions MemoryHandle_cpp fuel handle 0 0 ;;;
  AddRef rhs ;;;
  ret rhs.

(** [Free(file, line)]. *)
Definition Pointer_Free (fuel : nat) (handle file line : Z) : M Z :=
  Handle.Free cstr exceptions fuel handle file line ;;;
  Handle.RemoveRef cstr exceptions MemoryHandle_cpp fuel handle file line ;;;
  AddRef Null ;;;
  ret Null.

(** [PointerAllocate(allocator, memory, file, line)]; the returned temporary
    is constructed in place. *)
Definition PointerAllocate (newp allocator memory file line : Z) : M Z :=
  handle <- CreateHandle newp allocator memory file line ;;
  Pointer_of_handle handle.

(** [operator bool], and [operator!=(std::nullptr_t)]. *)
Definition Pointer_bool (handle : Z) : M bool :=
  b <- IsNull handle ;; ret (negb b).


(** [operator==(Pointer const &)] and [operator!=(Pointer const &)]. *)
Definition Pointer_eq (handle rhs : Z) : bool := handle =? rhs.

Definition Pointer_neq (handle rhs : Z) : bool := negb (handle =? rhs).

(** [operator->]; [operator*] dereferences its result. *)
Definition Pointer_arrow (handle : Z) : M Z := Get cstr exceptions handle.

(** [p_static_cast<U>()]: a pointer constructed from the handle. *)
Definition p_static_cast (handle : Z) : M Z := Pointer_of_handle handle.

End Build.

End Pointer.

(** ** Predicates used to state the properties *)

Module Layout.
Import ObjectAllocator.

(** The sizes an allocator is built with, free of wrap-around: what the
    constructor computes for settings that fit the address space. *)
Record geometry (a : Pool) : Prop := {
  geo_hs : headerSize a = sizeof_DebugHeader;
  geo_pad : 0 <= padBytes (settings a);
  geo_bs : ptrSize <= blockSize a;
  geo_la : 0 <= leftAlign a;
  geo_ia : 0 <= interAlign a;
  geo_bpp : 1 <= blocksPerPage (settings a);
  geo_lcs : leftChunkSize a =
            ptrSize + leftAlign a + headerSize a + 2 * padBytes (settings a)
            + blockSize a;
  geo_ics : interChunkSize a =
            blockSize a + 2 * padBytes (settings a) + interAlign a + headerSize a;
  geo_ps : pageSize a =
           ptrSize + leftAlign a
           + blocksPerPage (settings a) * interChunkSize a - interAlign a;
  geo_fit : pageSize a < 2 ^ 32
}.

(** Offset of the first block in a page. *)
Definition left_offset (a : Pool) : Z :=
  ptrSize + leftAlign a + headerSize a + padBytes (settings a).

(** Address of block [i] of the page at [pg]. *)
Definition block_at (a : Pool) (pg i : Z) : Z :=
  pg + left_offset a + i * interChunkSize a.

(** [del] is one of the blocks of the page at [pg]. *)
Definition is_block (a : Pool) (pg del : Z) : Prop :=
  exists i, 0 <= i < blocksPerPage (settings a) /\ del = block_at a pg i.

(** The linked list that starts at [p] visits exactly the addresses [l]. *)
Fixpoint list_rep (m : mem) (p : Z) (l : list Z) : Prop :=
  match l with
  | [] => p = 0
  | q :: l' => p = q /\ q <> 0 /\ list_rep m (load32 m q) l'
  end.

(** The pages [l] lie in the address space and do not overlap. *)
Fixpoint pages_sep (a : Pool) (l : list Z) : Prop :=
  match l with
  | [] => True
  | p :: l' =>
    0 < p /\ p + pageSize a <= 2 ^ 32
    /\ (forall q, In q l' -> q + pageSize a <= p \/ p + pageSize a <= q)
    /\ pages_sep a l'
  end.

(** The first page of [l], in list order, in which the walk of [Free]
    places [del]. *)
Fixpoint first_page (a : Pool) (del : Z) (l : list Z) : option Z :=
  match l with
  | [] => None
  | p :: l' =>
    if wrap (wrap del - wrap p) <? pageSize a then Some p else first_page a del l'
  end.

(** All [padBytes] pad bytes before [del] and after its block hold [PAD]. *)
Definition pads_ok (a : Pool) (m : mem) (del : Z) : Prop :=
  forall i, 0 <= i < padBytes (settings a) ->
    m (del - 1 - i) = PAD /\ m (del + blockSize a + i) = PAD.

(** Distance between consecutive blocks of a page, as [CreatePage] steps. *)
Definition chunk (a : Pool) : Z :=
  blockSize a + 2 * padBytes (settings a) + interAlign a + headerSize a.

(** The block at [b] as [CreatePage] leaves it: the free-list link [link] in
    its first word, [UNALLOCATED] in the rest, and the pad bytes after it. *)
Definition block_laid (a : Pool) (m : mem) (b link : Z) : Prop :=
  (forall j, 0 <= j < ptrSize -> m (b + j) = byte_of link j)
  /\ (forall x, b + ptrSize <= x < b + blockSize a -> m x = UNALLOCATED)
  /\ (forall x, b + blockSize a <= x < b + blockSize a + padBytes (settings a) ->
       m x = PAD).

(** What lies between the right pad of a block, ending at [e], and the next
    block: alignment filler, the zeroed header and the left pad of the next
    block. *)
Definition gap_laid (a : Pool) (m : mem) (e : Z) : Prop :=
  (forall x, e <= x < e + interAlign a -> m x = ALIGN)
  /\ (forall x, e + interAlign a <= x < e + interAlign a + headerSize a -> m x = 0)
  /\ (forall x, e + interAlign a + headerSize a <= x
                < e + interAlign a + headerSize a + padBytes (settings a) ->
       m x = PAD).

(** The header and left pad in front of the block at [b], as [CreatePage]
    leaves them: a zeroed header, then [PAD]. *)
Definition header_laid (a : Pool) (m : mem) (b : Z) : Prop :=
  (forall x, b - padBytes (settings a) - headerSize a <= x
             < b - padBytes (settings a) -> m x = 0)
  /\ (forall x, b - padBytes (settings a) <= x < b -> m x = PAD).

(** The sizes of an allocator, fixed at construction. *)
Definition dims (a : Pool) : Z * ObjectAllocatorSettings * Z * Z * Z * Z * Z * Z :=
  (headerSize a, settings a, blockSize a, pageSize a, leftAlign a, interAlign a,
   leftChunkSize a, interChunkSize a).

(** The blocks [k-1], ..., [0] of the page at [pg]: the order in which
    [CreatePage] leaves them on the free list. *)
Fixpoint blocks_down (a : Pool) (pg : Z) (k : nat) : list Z :=
  match k with
  | O => []
  | S k' => block_at a pg (Z.of_nat k') :: blocks_down a pg k'
  end.

(** The state of an allocator's pages in memory [m]: [pl] and [fl] head the
    page list and the free list; [pages] are the pages, [free] the blocks on
    the free list, [live] the blocks handed out and not yet freed. *)
Record heap_inv (a : Pool) (m : mem) (pl fl : Z) (pages free live : list Z)
    : Prop := {
  inv_geo : geometry a;
  inv_pages : list_rep m pl pages;
  inv_sep : pages_sep a pages;
  inv_free : list_rep m fl free;
  inv_nodup : NoDup (free ++ live);
  inv_block : forall b, In b free \/ In b live ->
              exists pg, In pg pages /\ is_block a pg b;
  inv_pads : forall b, In b free \/ In b live -> pads_ok a m b;
  inv_live : forall b, In b live ->
             m (b - padBytes (settings a) - headerSize a) <> 0;
  inv_flag : forall b, In b free ->
             m (b - padBytes (settings a) - headerSize a) = 0
}.

Definition pool_inv (a : Pool) (m : mem) (pages free live : list Z) : Prop :=
  heap_inv a m (pageList a) (freeList a) pages free live.

(** The bytes the invariant of an allocator depends on: the link words of
    its pages and of its free blocks, the pad bytes and the [allocated] flag
    of its blocks. *)
Definition footprint (a : Pool) (pages free live : list Z) (x : Z) : Prop :=
  (exists pg, In pg pages /\ pg <= x < pg + ptrSize)
  \/ (exists b, In b free /\ b <= x < b + ptrSize)
  \/ (exists b, (In b free \/ In b live)
                /\ (b - padBytes (settings a) <= x < b
                    \/ b + blockSize a <= x
                       < b + blockSize a + padBytes (settings a)))
  \/ (exists b, (In b free \/ In b live)
                /\ x = b - padBytes (settings a) - headerSize a).

(** Every byte of memory is a byte. *)
Definition bytes_ok (m : mem) : Prop := forall x, 0 <= m x < 256.



(** The text [DumpMemoryInUse] writes for one block in use. *)
Definition dump_entry (cstr : Z -> string) (a : Pool) (h : DebugHeader) : string :=
  dec (blockSize a) ++ "b allocated at line #" ++ dec (line h) ++ " in file "
  ++ cstr (filename h).

(** The entries of the [n] blocks from [p] on: one per header with
    [allocated = true], in address order. *)
Fixpoint page_entries (cstr : Z -> string) (a : Pool) (m : mem) (n : nat) (p : Z)
    : string :=
  match n with
  | O => EmptyString
  | S k =>
    (if allocated (read_header m (GetDebugHeader a p))
     then dump_entry cstr a (read_header m (GetDebugHeader a p))
     else EmptyString)
    ++ page_entries cstr a m k (p + interChunkSize a)
  end.

(** The entries of the pages [l], in list order. *)
Fixpoint pages_entries (cstr : Z -> string) (a : Pool) (m : mem) (l : list Z)
    : string :=
  match l with
  | [] => EmptyString
  | pg :: l' =>
    page_entries cstr a m (Z.to_nat (blocksPerPage (settings a)))
      (pg + wrap (ptrSize + leftAlign a + headerSize a + padBytes (settings a)))
    ++ pages_entries cstr a m l'
  end.

(** What a failed validation in [Free] yields: the return code, or the
    exception when exceptions are enabled. *)
Definition failure (cstr : Z -> string) (exceptions : bool)
    (msg : string) (filename line code : Z) : result Z :=
  if exceptions then Thrown (mkException cstr msg filename line) else Returned code.

End Layout.

Module HandleLayout.
Import ObjectAllocator Handle Pointer Layout.

(** The members of the handle at [h]. *)
Definition refCount_of (w : World) (h : Z) : Z :=
  signed (load32 (heap w) (h + off_refCount)).

Definition storage_of (w : World) (h : Z) : Z := load32 (heap w) (h + off_memory).

Definition allocator_of (w : World) (h : Z) : Z :=
  load32 (heap w) (h + off_allocator).

(** The world once [RemoveRef] has decremented the count of [h]. *)
Definition decremented (w : World) (h : Z) : World :=
  set_heap w
    (store32 (heap w) (h + off_refCount)
       (signed (load32 (heap w) (h + off_refCount) - 1))).

(** The line [RemoveRef] writes for a negative count; it cites the call site
    recorded in the debug header of the handle's own block. *)
Definition negative_line (cstr : Z -> string) (w : World) (h filename line : Z)
    : string :=
  let dbg := read_header (heap w) (GetDebugHeader (HandleAllocator w) h) in
  "[Handle]: Negative RefCount detected from remove at: "
  ++ cstr filename ++ " #" ++ dec line
  ++ "Memory allocated at: "
  ++ cstr (ObjectAllocator.filename dbg) ++ " #" ++ dec (ObjectAllocator.line dbg).

(** The world with a line added to the log of the handle allocator. *)
Definition logged (w : World) (s : string) : World :=
  set_HandleAllocator w (log (HandleAllocator w) s).

(** The bytes [Free(s, ...)] of the allocator [u] may write: the header and
    the block of [s], and the link word. *)
Definition Free_writes (u : Pool) (s x : Z) : Prop :=
  s - headerSize u - padBytes (settings u) <= x
  < s - headerSize u - padBytes (settings u) + headerSize u
  \/ s <= x < s + blockSize u
  \/ s <= x < s + ptrSize.

Section HandleInvariant.

(** Address of [Handle::Null]. *)
Variable Null : Z.

(** The part of the address space the program's own allocators and objects
    use.  [operator new] keeps the pages of the handle allocator, and the
    linker keeps [Handle::Null], outside it. *)
Variable user : Z -> Prop.

(** The owning allocator of the handle at [h] is an allocator of the
    program, and freeing the storage only writes user memory. *)
Definition user_safe (w : World) (h : Z) : Prop :=
  exists u, allocators w (allocator_of w h) = Some u
            /\ forall x, Free_writes u (storage_of w h) x -> user x.

(** The state of the handle layer: the handle allocator is well formed, with
    pages [pages], free blocks [free] and handles [live]; its pages and the
    null handle are no user memory; every handle names an allocator of the
    program, and no block on the free list does. *)
Record hcore (w : World) (pages free live : list Z) : Prop := {
  hc_pool : pool_inv (HandleAllocator w) (heap w) pages free live;
  hc_bs : sizeof_Handle <= blockSize (HandleAllocator w);
  hc_pages : forall pg x, In pg pages ->
             pg <= x < pg + pageSize (HandleAllocator w) ->
             ~ user x /\ ~ (Null <= x < Null + sizeof_Handle);
  hc_null : forall x, Null <= x < Null + sizeof_Handle -> ~ user x;
  hc_null_storage : storage_of w Null = 0;
  hc_live : forall h, In h live -> storage_of w h = 0 \/ user_safe w h;
  hc_free : forall f, In f free -> allocators w (allocator_of w f) = None;
  hc_aligned : forall k, allocators w k <> None -> k mod 4 = 0
}.

(** The bytes [hcore] reads besides the footprint of the handle allocator:
    the storage and allocator members of its blocks and of the null
    handle. *)
Definition hfootprint (w : World) (pages free live : list Z) (x : Z) : Prop :=
  footprint (HandleAllocator w) pages free live x
  \/ (exists h, (In h free \/ In h live) /\ h <= x < h + off_refCount)
  \/ Null <= x < Null + off_refCount.

(** Number of pointers in [ps] that reference [h]. *)
Definition refs (ps : list Z) (h : Z) : Z := Z.of_nat (count_occ Z.eq_dec ps h).

(** The invariant of pointer programs, in every build: the null handle
    counts one reference more than the pointers that reference it, and every
    pointer references the null handle or a block of the handle allocator. *)
Record pinv (w : World) (ps : list Z) (pages free live : list Z) : Prop := {
  pi_core : hcore w pages free live;
  pi_null : refCount_of w Null = 1 + refs ps Null;
  pi_bound : Z.of_nat (List.length ps) + 1 < 2 ^ 31;
  pi_ptrs : forall p, In p ps -> p = Null \/ In p free \/ In p live
}.

(** The invariant of pointer programs when nothing raises: the handles are
    the blocks that pointers reference, and each counts the pointers that
    reference it. *)
Record counted (w : World) (ps : list Z) (live : list Z) : Prop := {
  ct_ptrs : forall p, In p ps -> p = Null \/ In p live;
  ct_live : forall h, In h live -> refCount_of w h = refs ps h /\ 0 < refs ps h
}.

(** The two invariants, for some pages, free blocks and handles. *)
Definition pointer_inv (w : World) (ps : list Z) : Prop :=
  exists pages free live, pinv w ps pages free live.

Definition counted_inv (w : World) (ps : list Z) : Prop :=
  exists pages free live, pinv w ps pages free live /\ counted w ps live.

(** [counted_inv], and [blocksInUse] of the handle allocator is the number
    of handles. *)
Definition in_use_inv (w : World) (ps : list Z) : Prop :=
  exists pages free live,
    pinv w ps pages free live /\ counted w ps live
    /\ blocksInUse (stats (HandleAllocator w)) = wrap (Z.of_nat (List.length live)).

(** How a step from the pointers [ps] to the pointers [ps'] changes the
    handles referenced and [blocksInUse]: both stay, or one handle is no
    longer referenced and the counter goes down, or one more handle is
    referenced and the counter goes up. *)
Definition in_use_step (w : World) (ps : list Z) (w' : World) (ps' : list Z)
    : Prop :=
  ((forall p, p <> Null -> (In p ps' <-> In p ps))
   /\ blocksInUse (stats (HandleAllocator w'))
      = blocksInUse (stats (HandleAllocator w)))
  \/ (exists h, In h ps /\ h <> Null
       /\ (forall p, p <> Null -> (In p ps' <-> In p ps /\ p <> h))
       /\ blocksInUse (stats (HandleAllocator w'))
          = wrap (blocksInUse (stats (HandleAllocator w)) - 1))
  \/ (exists h, ~ In h ps /\ h <> Null
       /\ (forall p, p <> Null -> (In p ps' <-> p = h \/ In p ps))
       /\ blocksInUse (stats (HandleAllocator w'))
          = wrap (blocksInUse (stats (HandleAllocator w)) + 1)).

End HandleInvariant.

(** The world once [AddRef] has incremented the count of [h]. *)
Definition incremented (w : World) (h : Z) : World :=
  set_heap w
    (store32 (heap w) (h + off_refCount)
       (signed (load32 (heap w) (h + off_refCount) + 1))).

(** ** Pointer programs *)

(** The operations on the pointers of a program.  Pointers are numbered by
    their position in the list of live pointers.  [OpNull] is [Pointer()] and
    [Pointer(nullptr)]; [OpCopy] the copy, move and converting constructors;
    [OpAssign] the copy and move assignments, [OpAssignConv] the assignment
    from a pointer of another type (which cannot be the pointer itself). *)
Inductive op : Type :=
| OpAllocate (newp allocator memory file line : Z)
| OpNull
| OpCopy (i : nat)
| OpDtor (i : nat)
| OpAssign (i j : nat)
| OpAssignConv (i j : nat)
| OpAssignNull (i : nat)
| OpFree (i : nat) (file line : Z).

Fixpoint replace_nth (i : nat) (x : Z) (l : list Z) : list Z :=
  match l, i with
  | [], _ => []
  | _ :: l', O => x :: l'
  | y :: l', S i' => y :: replace_nth i' x l'
  end.

Fixpoint remove_nth (i : nat) (l : list Z) : list Z :=
  match l, i with
  | [], _ => []
  | _ :: l', O => l'
  | y :: l', S i' => y :: remove_nth i' l'
  end.

(** No such operation: the pointer does not exist. *)
Definition no_step {A : Type} : M A := fun _ => None.

Section Run.

Variable cstr : Z -> string.
Variable exceptions : bool.
Variable Null : Z.
Variable MemoryHandle_cpp : Z.
Variable user : Z -> Prop.

(** One operation on the live pointers [ps]; returns the live pointers
    after it. *)
Definition exec (fuel : nat) (o : op) (ps : list Z) : M (list Z) :=
  match o with
  | OpAllocate newp allocator memory file line =>
    h <- PointerAllocate newp allocator memory file line ;; ret (h :: ps)
  | OpNull => h <- Pointer_null Null ;; ret (h :: ps)
  | OpCopy i =>
    match nth_error ps i with
    | Some rhs => h <- Pointer_copy rhs ;; ret (h :: ps)
    | None => no_step
    end
  | OpDtor i =>
    match nth_error ps i with
    | Some h =>
      Pointer_dtor cstr exceptions MemoryHandle_cpp fuel h ;;; ret (remove_nth i ps)
    | None => no_step
    end
  | OpAssign i j =>
    match nth_error ps i, nth_error ps j with
    | Some h, Some rhs =>
      h' <- Pointer_assign cstr exceptions MemoryHandle_cpp fuel (Nat.eqb i j) h rhs ;;
      ret (replace_nth i h' ps)
    | _, _ => no_step
    end
  | OpAssignConv i j =>
    match nth_error ps i, nth_error ps j with
    | Some h, Some rhs =>
      if Nat.eqb i j then no_step
      else
        h' <- Pointer_assign_conv cstr exceptions MemoryHandle_cpp fuel h rhs ;;
        ret (replace_nth i h' ps)
    | _, _ => no_step
    end
  | OpAssignNull i =>
    match nth_error ps i with
    | Some h =>
      h' <- Pointer_assign_null cstr exceptions Null MemoryHandle_cpp fuel h ;;
      ret (replace_nth i h' ps)
    | None => no_step
    end
  | OpFree i file line =>
    match nth_error ps i with
    | Some h =>
      h' <- Pointer_Free cstr exceptions Null MemoryHandle_cpp fuel h file line ;;
      ret (replace_nth i h' ps)
    | None => no_step
    end
  end.

(** What the environment guarantees when an operation is run: a page that
    [operator new] returns for the handle allocator lies in the address
    space, apart from its other pages, from the null handle and from user
    memory; [PointerAllocate] is given an allocator of the program and
    storage in user memory; and the pointers fit the address space. *)
Definition admissible (o : op) (w : World) (ps : list Z) : Prop :=
  match o with
  | OpAllocate newp allocator memory file line =>
    (freeList (HandleAllocator w) = 0 ->
     0 < newp /\ newp + pageSize (HandleAllocator w) <= 2 ^ 32
     /\ (forall x, newp <= x < newp + pageSize (HandleAllocator w) ->
           ~ user x /\ ~ (Null <= x < Null + sizeof_Handle))
     /\ (forall pages q,
           list_rep (heap w) (pageList (HandleAllocator w)) pages -> In q pages ->
           q + pageSize (HandleAllocator w) <= newp
           \/ newp + pageSize (HandleAllocator w) <= q))
    /\ (exists u, allocators w allocator = Some u
                  /\ forall x, Free_writes u memory x -> user x)
    /\ 0 <= allocator < 2 ^ 32 /\ 0 <= memory < 2 ^ 32
    /\ Z.of_nat (List.length ps) + 2 < 2 ^ 31
  | OpNull | OpCopy _ => Z.of_nat (List.length ps) + 2 < 2 ^ 31
  | _ => True
  end.

(** The world at program start: [Handle::HandleAllocator] is constructed
    with its log file and the default settings, [Handle::Null] by the
    constructor of the null handle. *)
Definition init_world (m : mem) (al : Z -> option Pool) : World :=
  set_heap
    {| heap := m;
       HandleAllocator :=
         ObjectAllocator_ctor sizeof_Handle (Some EmptyString) default_settings;
       allocators := al |}
    (store32 (store32 (store32 m (Null + off_memory) 0) (Null + off_allocator) 0)
       (Null + off_refCount) 1).

(** The states of a pointer program: the world and the live pointers.  An
    operation that raises leaves the pointers as they were. *)
Inductive reach : World -> list Z -> Prop :=
| reach_init (m : mem) (al : Z -> option Pool) :
    (forall k, al k <> None -> k mod 4 = 0) ->
    (forall x, Null <= x < Null + sizeof_Handle -> ~ user x) ->
    reach (init_world m al) []
| reach_step (w : World) (ps : list Z) (fuel : nat) (o : op)
    (r : result (list Z)) (w' : World) :
    reach w ps -> admissible o w ps ->
    exec fuel o ps w = Some (r, w') ->
    reach w' (match r with Returned ps' => ps' | Thrown _ => ps end).

(** The states reached when no operation raised. *)
Inductive returned : World -> list Z -> Prop :=
| returned_init (m : mem) (al : Z -> option Pool) :
    (forall k, al k <> None -> k mod 4 = 0) ->
    (forall x, Null <= x < Null + sizeof_Handle -> ~ user x) ->
    returned (init_world m al) []
| returned_step (w : World) (ps : list Z) (fuel : nat) (o : op)
    (ps' : list Z) (w' : World) :
    returned w ps -> admissible o w ps ->
    exec fuel o ps w = Some (Returned ps', w') ->
    returned w' ps'.

End Run.


End HandleLayout.

(** ** The page of the release build *)

Module ReleaseLayout.
Import ObjectAllocator.

(** Distance between two blocks of a page of the release build, where
    there is no header. *)
Definition rchunk (a : Release.Pool) : Z :=
  Release.blockSize a + 2 * padBytes (Release.settings a) + Release.interAlign a.

(** Address of block [i] of the page at [pg]. *)
Definition rblock_at (a : Release.Pool) (pg i : Z) : Z :=
  pg + ptrSize + Release.leftAlign a + padBytes (Release.settings a)
  + i * rchunk a.

(** The sizes a release allocator is built with, free of wrap-around. *)
Record rgeometry (a : Release.Pool) : Prop := {
  rgeo_pad : 0 <= padBytes (Release.settings a);
  rgeo_bs : ptrSize <= Release.blockSize a;
  rgeo_la : 0 <= Release.leftAlign a;
  rgeo_ia : 0 <= Release.interAlign a;
  rgeo_bpp : 1 <= blocksPerPage (Release.settings a) < 2 ^ 32;
  rgeo_ps : Release.pageSize a =
            ptrSize + Release.leftAlign a
            + blocksPerPage (Release.settings a) * rchunk a
            - Release.interAlign a
}.

End ReleaseLayout.

(** * Properties *)

Module MachineFacts.

Lemma memset_in (m : mem) (p v n x : Z) :
  p <= x < p + n -> memset m p v n x = v mod 256.
Proof.
  intros H. unfold memset.
  destruct (Z.leb_spec p x); destruct (Z.ltb_spec x (p + n)); simpl; lia.
Qed.

Lemma memset_out (m : mem) (p v n x : Z) :
  x < p \/ p + n <= x -> memset m p v n x = m x.
Proof.
  intros H. unfold memset.
  destruct (Z.leb_spec p x); destruct (Z.ltb_spec x (p + n)); simpl; lia.
Qed.

Lemma store32_in (m : mem) (p v x : Z) :
  p <= x < p + 4 -> store32 m p v x = byte_of v (x - p).
Proof.
  intros H. unfold store32.
  destruct (Z.leb_spec p x); destruct (Z.ltb_spec x (p + 4)); simpl; lia.
Qed.

Lemma store32_out (m : mem) (p v x : Z) :
  x < p \/ p + 4 <= x -> store32 m p v x = m x.
Proof.
  intros H. unfold store32.
  destruct (Z.leb_spec p x); destruct (Z.ltb_spec x (p + 4)); simpl; lia.
Qed.

Lemma store8_in (m : mem) (p v : Z) : store8 m p v p = v mod 256.
Proof. unfold store8. now rewrite Z.eqb_refl. Qed.

Lemma store8_out (m : mem) (p v x : Z) : x <> p -> store8 m p v x = m x.
Proof. intros H. unfold store8. destruct (Z.eqb_spec x p); [lia | reflexivity]. Qed.

Lemma byte_of_range (v i : Z) : 0 <= byte_of v i < 256.
Proof. unfold byte_of. apply Z.mod_pos_bound. lia. Qed.

(** A word is the sum of its four bytes. *)
Lemma word_bytes (v : Z) :
  0 <= v < 2 ^ 32 ->
  byte_of v 0 + 256 * byte_of v 1 + 65536 * byte_of v 2 + 16777216 * byte_of v 3 = v.
Proof.
  intros H. unfold byte_of.
  change (256 ^ 0) with 1. change (256 ^ 1) with 256.
  change (256 ^ 2) with 65536. change (256 ^ 3) with 16777216.
  change (2 ^ 32) with 4294967296 in H.
  rewrite Z.div_1_r.
  assert (E2 : v / 65536 = v / 256 / 256) by (rewrite Z.div_div by lia; reflexivity).
  assert (E3 : v / 16777216 = v / 256 / 256 / 256)
    by (rewrite !Z.div_div by lia; reflexivity).
  rewrite E2, E3.
  pose proof (Z.div_mod v 256 ltac:(lia)).
  pose proof (Z.div_mod (v / 256) 256 ltac:(lia)).
  pose proof (Z.div_mod (v / 256 / 256) 256 ltac:(lia)).
  assert (0 <= v / 256 / 256 / 256 < 256).
  { rewrite <- E3. split; [apply Z.div_pos; lia | apply Z.div_lt_upper_bound; lia]. }
  rewrite (Z.mod_small (v / 256 / 256 / 256) 256) by lia.
  lia.
Qed.

(** The bytes of a word only depend on its value modulo 2^32. *)
Lemma byte_of_wrap (v j : Z) : 0 <= j < 4 -> byte_of (wrap v) j = byte_of v j.
Proof.
  intros Hj. unfold byte_of, wrap. change (2 ^ 32) with 4294967296.
  pose proof (Z.div_mod v 4294967296 ltac:(lia)) as E.
  set (q := v / 4294967296) in *. set (r := v mod 4294967296) in *.
  rewrite E.
  assert (j = 0 \/ j = 1 \/ j = 2 \/ j = 3) as [-> | [-> | [-> | ->]]] by lia.
  - change (256 ^ 0) with 1. rewrite !Z.div_1_r.
    replace (4294967296 * q + r) with (r + (16777216 * q) * 256) by lia.
    now rewrite Z.mod_add by lia.
  - change (256 ^ 1) with 256.
    replace (4294967296 * q + r) with (r + (16777216 * q) * 256) by lia.
    rewrite Z.div_add by lia.
    replace (16777216 * q) with ((65536 * q) * 256) by lia.
    now rewrite Z.mod_add by lia.
  - change (256 ^ 2) with 65536.
    replace (4294967296 * q + r) with (r + (65536 * q) * 65536) by lia.
    rewrite Z.div_add by lia.
    replace (65536 * q) with ((256 * q) * 256) by lia.
    now rewrite Z.mod_add by lia.
  - change (256 ^ 3) with 16777216.
    replace (4294967296 * q + r) with (r + (256 * q) * 16777216) by lia.
    rewrite Z.div_add by lia.
    replace (256 * q) with (q * 256) by lia.
    now rewrite Z.mod_add by lia.
Qed.

Lemma load32_bytes (m : mem) (p v : Z) :
  0 <= v < 2 ^ 32 ->
  (forall j, 0 <= j < 4 -> m (p + j) = byte_of v j) ->
  load32 m p = v.
Proof.
  intros Hv H. unfold load32.
  replace (m p) with (m (p + 0)) by (f_equal; lia).
  rewrite !H by lia. now apply word_bytes.
Qed.

Lemma load32_store32 (m : mem) (p v : Z) :
  0 <= v < 2 ^ 32 -> load32 (store32 m p v) p = v.
Proof.
  intros Hv. apply load32_bytes; [assumption|].
  intros j Hj. rewrite store32_in by lia. f_equal. lia.
Qed.

(** A load only depends on the four bytes it reads. *)
Lemma load32_ext (m m' : mem) (p : Z) :
  (forall x, p <= x < p + 4 -> m' x = m x) -> load32 m' p = load32 m p.
Proof. intros H. unfold load32. rewrite !H by lia. reflexivity. Qed.

Lemma load32_store32_other (m : mem) (p q v : Z) :
  q + 4 <= p \/ p + 4 <= q -> load32 (store32 m q v) p = load32 m p.
Proof. intros H. apply load32_ext. intros x Hx. apply store32_out. lia. Qed.

Lemma load32_range (m : mem) (p : Z) :
  Layout.bytes_ok m -> 0 <= load32 m p < 2 ^ 32.
Proof.
  intros H. unfold load32.
  pose proof (H p). pose proof (H (p + 1)). pose proof (H (p + 2)).
  pose proof (H (p + 3)). change (2 ^ 32) with 4294967296. lia.
Qed.

Lemma wrap_small (x : Z) : 0 <= x < 2 ^ 32 -> wrap x = x.
Proof. intros H. unfold wrap. now apply Z.mod_small. Qed.

Lemma wrap_range (x : Z) : 0 <= wrap x < 2 ^ 32.
Proof. unfold wrap. apply Z.mod_pos_bound. lia. Qed.

Lemma signed_small (x : Z) : - 2 ^ 31 <= x < 2 ^ 31 -> signed x = x.
Proof.
  intros H. unfold signed, wrap. change (2 ^ 31) with 2147483648 in *.
  change (2 ^ 32) with 4294967296.
  destruct (Z_lt_le_dec x 0).
  - replace (x mod 4294967296) with (x + 4294967296).
    + destruct (Z.ltb_spec (x + 4294967296) 2147483648); lia.
    + apply Z.mod_unique with (q := -1); lia.
  - rewrite Z.mod_small by lia.
    destruct (Z.ltb_spec x 2147483648); lia.
Qed.

(** A load after a store of any value yields it modulo 2^32. *)
Lemma load32_store32_wrap (m : mem) (p v : Z) :
  load32 (store32 m p v) p = wrap v.
Proof.
  apply load32_bytes; [apply wrap_range|].
  intros j Hj. rewrite store32_in by lia. replace (p + j - p) with j by lia.
  symmetry. now apply byte_of_wrap.
Qed.

(** An [int] member reads back as it was written. *)
Lemma signed_load32_store32 (m : mem) (p v : Z) :
  - 2 ^ 31 <= v < 2 ^ 31 -> signed (load32 (store32 m p v) p) = v.
Proof.
  intros H. rewrite load32_store32_wrap.
  unfold signed. rewrite (wrap_small (wrap v)) by apply wrap_range.
  fold (signed v). now apply signed_small.
Qed.

End MachineFacts.

(** ** CreatePage *)

Module CreatePageFacts.
Import ObjectAllocator Layout MachineFacts.

Ltac mem_step :=
  first [ rewrite memset_out by lia
        | rewrite store32_out by lia
        | rewrite store8_out by lia
        | rewrite memset_in by lia
        | rewrite store32_in by lia ].

Section WithPool.

Variable a : Pool.
Hypothesis Hpad : 0 <= padBytes (settings a).
Hypothesis Hbs : ptrSize <= blockSize a.
Hypothesis Hia : 0 <= interAlign a.
Hypothesis Hhs : 0 <= headerSize a.

(** One loop iteration lays out one block and the gap after it, and writes
    nowhere else. *)
Lemma CreatePage_step_spec (m : mem) (p fl : Z) :
  exists m',
    CreatePage_step a (m, p, fl) = (m', p + chunk a, p)
    /\ block_laid a m' p fl
    /\ gap_laid a m' (p + blockSize a + padBytes (settings a))
    /\ (forall x, x < p \/ p + chunk a <= x -> m' x = m x).
Proof.
  unfold CreatePage_step, Push, chunk, ptrSize in *.
  eexists. split; [f_equal; f_equal; lia|].
  unfold block_laid, gap_laid, ptrSize, UNALLOCATED, PAD, ALIGN.
  repeat split; intros; repeat mem_step; try reflexivity.
  f_equal; lia.
Qed.

Lemma CreatePage_loop_spec (n : nat) : forall (m : mem) (p fl : Z),
  exists m',
    CreatePage_loop a n (m, p, fl)
    = (m', p + Z.of_nat n * chunk a,
       if Z.of_nat n =? 0 then fl else p + (Z.of_nat n - 1) * chunk a)
    /\ (forall i, 0 <= i < Z.of_nat n ->
          block_laid a m' (p + i * chunk a)
            (if i =? 0 then fl else p + (i - 1) * chunk a)
          /\ gap_laid a m'
               (p + i * chunk a + blockSize a + padBytes (settings a)))
    /\ (forall x, x < p \/ p + Z.of_nat n * chunk a <= x -> m' x = m x).
Proof.
  assert (Hc : 0 <= chunk a) by (unfold chunk, ptrSize in *; lia).
  induction n as [|n IH]; intros m p fl.
  - exists m. simpl. split; [f_equal; f_equal; lia|]. split; [intros; lia | auto].
  - destruct (CreatePage_step_spec m p fl) as (m1 & E1 & B1 & G1 & F1).
    destruct (IH m1 (p + chunk a) p) as (m' & E & L & F).
    exists m'. cbn [CreatePage_loop]. rewrite E1, E.
    assert (Hn : 0 <= Z.of_nat n * chunk a) by (apply Z.mul_nonneg_nonneg; lia).
    split; [|split].
    + f_equal; [f_equal; lia|].
      destruct (Z.eqb_spec (Z.of_nat n) 0); destruct (Z.eqb_spec (Z.of_nat (S n)) 0); lia.
    + intros i Hi. destruct (Z.eq_dec i 0) as [-> | Hne].
      * rewrite Z.mul_0_l, Z.add_0_r. cbn [Z.eqb].
        unfold block_laid, gap_laid, chunk, ptrSize in *.
        destruct B1 as (B1a & B1b & B1c). destruct G1 as (G1a & G1b & G1c).
        repeat split; intros; rewrite F by lia; auto.
      * destruct (L (i - 1) ltac:(lia)) as [Lb Lg].
        replace (p + chunk a + (i - 1) * chunk a) with (p + i * chunk a) in * by lia.
        destruct (Z.eqb_spec i 0); [lia|].
        split; [|exact Lg].
        destruct (Z.eqb_spec (i - 1) 0) as [E0|E0].
        -- replace (p + (i - 1) * chunk a) with p by (rewrite E0; lia). exact Lb.
        -- replace (p + (i - 1) * chunk a) with (p + chunk a + (i - 1 - 1) * chunk a)
             by lia. exact Lb.
    + intros x Hx. rewrite F by lia. apply F1. lia.
Qed.

End WithPool.

(** The number of iterations of the loop of [CreatePage]. *)
Lemma geometry_bpp (a : Pool) :
  geometry a -> blocksPerPage (settings a) < 2 ^ 32.
Proof.
  intros G. destruct G. unfold ptrSize, sizeof_DebugHeader in *.
  assert (blocksPerPage (settings a) * 1 <= blocksPerPage (settings a) * interChunkSize a)
    by (apply Z.mul_le_mono_nonneg_l; lia).
  assert (interAlign a <= interChunkSize a) by lia.
  assert (1 * interChunkSize a <= blocksPerPage (settings a) * interChunkSize a)
    by (apply Z.mul_le_mono_nonneg_r; lia).
  nia.
Qed.

Lemma geometry_chunk (a : Pool) : geometry a -> chunk a = interChunkSize a.
Proof. intros G. unfold chunk. now rewrite (geo_ics a G). Qed.

(** Blocks of a page lie in increasing order, one chunk apart. *)
Lemma block_at_le (a : Pool) (pg i j : Z) :
  geometry a -> i <= j -> block_at a pg i + (j - i) * interChunkSize a = block_at a pg j.
Proof. intros G H. unfold block_at. lia. Qed.

Lemma block_at_mono (a : Pool) (pg i j : Z) :
  geometry a -> i < j -> block_at a pg i + interChunkSize a <= block_at a pg j.
Proof.
  intros G H. unfold block_at.
  assert (0 <= interChunkSize a)
    by (destruct G; unfold ptrSize, sizeof_DebugHeader in *; lia).
  assert ((i + 1) * interChunkSize a <= j * interChunkSize a)
    by (apply Z.mul_le_mono_nonneg_r; lia).
  lia.
Qed.

(** The last block, with its right pad, ends where the page ends. *)
Lemma block_at_last (a : Pool) (pg : Z) :
  geometry a ->
  block_at a pg (blocksPerPage (settings a) - 1) + blockSize a
  + padBytes (settings a) = pg + pageSize a.
Proof.
  intros G. unfold block_at, left_offset. rewrite (geo_ps a G).
  pose proof (geo_ics a G). lia.
Qed.

Lemma CreatePage_spec (newp : Z) (a : Pool) (m : mem) :
  geometry a ->
  exists m',
    CreatePage newp a m
    = (set_stats
         (set_freeList (set_pageList a newp)
            (block_at a newp (blocksPerPage (settings a) - 1)))
         {| freeBlocks := wrap (freeBlocks (stats a) + blocksPerPage (settings a));
            blocksInUse := blocksInUse (stats a);
            pagesInUse := wrap (pagesInUse (stats a) + 1);
            mostBlocksInUse := mostBlocksInUse (stats a);
            mostPagesInUse :=
              if mostPagesInUse (stats a) <? wrap (pagesInUse (stats a) + 1)
              then wrap (pagesInUse (stats a) + 1) else mostPagesInUse (stats a);
            allocations := allocations (stats a);
            deallocations := deallocations (stats a) |}, m')
    /\ (forall j, 0 <= j < ptrSize -> m' (newp + j) = byte_of (pageList a) j)
    /\ (forall x, newp + ptrSize <= x < newp + ptrSize + leftAlign a -> m' x = ALIGN)
    /\ (forall i, 0 <= i < blocksPerPage (settings a) ->
          header_laid a m' (block_at a newp i)
          /\ block_laid a m' (block_at a newp i)
               (if i =? 0 then freeList a else block_at a newp (i - 1))
          /\ (i < blocksPerPage (settings a) - 1 ->
              forall x, block_at a newp i + blockSize a + padBytes (settings a) <= x
                        < block_at a newp i + blockSize a + padBytes (settings a)
                          + interAlign a ->
                        m' x = ALIGN))
    /\ (forall x, x < newp \/ newp + pageSize a <= x -> m' x = m x).
Proof.
  intros G.
  pose proof (geometry_bpp a G) as Hbpp.
  pose proof (geometry_chunk a G) as Hc.
  pose proof (block_at_last a newp G) as Hlast.
  destruct G as [Hhs Hpad Hbs Hla Hia Hb Hlcs Hics Hps Hfit].
  unfold sizeof_DebugHeader in Hhs.
  unfold CreatePage, Push.
  rewrite wrap_small by lia.
  set (m4 := memset _ _ PAD _).
  destruct (CreatePage_loop_spec a Hpad Hbs Hia ltac:(lia)
              (Z.to_nat (blocksPerPage (settings a) - 1)) m4
              (newp + ptrSize + leftAlign a + headerSize a + padBytes (settings a))
              (freeList a)) as (m5 & E & L & F).
  rewrite Z2Nat.id in * by lia. rewrite Hc in *.
  rewrite E. clear E.
  match goal with |- exists _, (_, ?M) = _ /\ _ => set (m8 := M) end.
  exists m8. split.
  { apply f_equal2; [|reflexivity].
    unfold set_stats, set_freeList, set_pageList; simpl. f_equal.
    unfold block_at, left_offset; lia. }
  set (n := blocksPerPage (settings a)) in *.
  set (c := interChunkSize a) in *.
  unfold header_laid, block_laid, gap_laid, block_at, left_offset, ptrSize,
    UNALLOCATED, PAD, ALIGN in *.
  assert (Hn : forall i, 0 <= i < n - 1 -> (i + 1) * c <= (n - 1) * c)
    by (intros; apply Z.mul_le_mono_nonneg_r; lia).
  assert (Hge : forall i, 0 <= i -> 0 <= i * c)
    by (intros; apply Z.mul_nonneg_nonneg; lia).
  pose proof (Hge (n - 1) ltac:(lia)) as Hge1.
  split; [|split; [|split]].
  - intros j Hj. subst m8. repeat mem_step. rewrite F by lia. subst m4.
    repeat mem_step. f_equal; lia.
  - intros x Hx. subst m8. repeat mem_step. rewrite F by lia. subst m4.
    repeat mem_step. reflexivity.
  - intros i Hi. split; [|split].
    + destruct (Z.eq_dec i 0) as [-> | Hne].
      * split; intros; subst m8; repeat mem_step; rewrite F by lia; subst m4;
          repeat mem_step; reflexivity.
      * destruct (L (i - 1) ltac:(lia)) as [_ (Ga & Gb & Gc)].
        pose proof (Hn (i - 1) ltac:(lia)) as Hni.
        pose proof (Hge (i - 1) ltac:(lia)).
        split; intros; subst m8; repeat mem_step.
        -- apply Gb. lia.
        -- apply Gc. lia.
    + destruct (Z.eq_dec i (n - 1)) as [-> | Hne].
      * repeat split; intros; subst m8; repeat mem_step; try reflexivity.
        f_equal; [|lia].
        destruct (Z.eqb_spec (n - 1) 0); [reflexivity | lia].
      * destruct (L i ltac:(lia)) as [(La & Lb & Lc) _].
        pose proof (Hn i ltac:(lia)) as Hni.
        pose proof (Hge i ltac:(lia)).
        repeat split; intros; subst m8; repeat mem_step.
        -- pose proof (La j ltac:(lia)) as Lj.
           match goal with
           | |- m5 ?X = _ =>
             match type of Lj with m5 ?Y = _ => replace X with Y by lia end
           end.
           rewrite Lj. destruct (Z.eqb_spec i 0); [reflexivity | f_equal; lia].
        -- apply Lb. lia.
        -- apply Lc. lia.
    + intros Hlt x Hx.
      destruct (L i ltac:(lia)) as [_ (Ga & Gb & Gc)].
      pose proof (Hn i ltac:(lia)) as Hni.
      pose proof (Hge i ltac:(lia)).
      subst m8. repeat mem_step. apply Ga. lia.
  - intros x Hx. subst m8. repeat mem_step. rewrite F by lia. subst m4.
    repeat mem_step. reflexivity.
Qed.

End CreatePageFacts.

(** ** Free: the page walk and the validation *)

Module FreeFacts.
Import ObjectAllocator Layout MachineFacts CreatePageFacts.

Lemma pads_intact_spec (m : mem) (n : nat) : forall pl pr,
  pads_intact m n pl pr = true
  <-> (forall i, 0 <= i < Z.of_nat n -> m (pl - i) = PAD /\ m (pr + i) = PAD).
Proof.
  induction n as [|n IH]; intros pl pr; cbn [pads_intact].
  - split; [intros _ i Hi; lia | reflexivity].
  - destruct (Z.eqb_spec (m pl) PAD) as [El|El];
      destruct (Z.eqb_spec (m pr) PAD) as [Er|Er]; cbn [negb orb].
    + rewrite IH. split.
      * intros H i Hi. destruct (Z.eq_dec i 0) as [-> | Hne].
        -- now rewrite Z.sub_0_r, Z.add_0_r.
        -- destruct (H (i - 1) ltac:(lia)) as [H1 H2].
           replace (pl - 1 - (i - 1)) with (pl - i) in H1 by lia.
           replace (pr + 1 + (i - 1)) with (pr + i) in H2 by lia. auto.
      * intros H i Hi. destruct (H (i + 1) ltac:(lia)) as [H1 H2].
        replace (pl - (i + 1)) with (pl - 1 - i) in H1 by lia.
        replace (pr + (i + 1)) with (pr + 1 + i) in H2 by lia. auto.
    + split; [discriminate|]. intros H. destruct (H 0 ltac:(lia)) as [_ H2].
      rewrite Z.add_0_r in H2. contradiction.
    + split; [discriminate|]. intros H. destruct (H 0 ltac:(lia)) as [H1 _].
      rewrite Z.sub_0_r in H1. contradiction.
    + split; [discriminate|]. intros H. destruct (H 0 ltac:(lia)) as [H1 _].
      rewrite Z.sub_0_r in H1. contradiction.
Qed.

Lemma pads_intact_ok (a : Pool) (m : mem) (del : Z) :
  pads_intact m (Z.to_nat (padBytes (settings a))) (del - 1) (del + blockSize a) = true
  <-> pads_ok a m del.
Proof.
  rewrite pads_intact_spec. unfold pads_ok.
  split; intros H i Hi; apply H; lia.
Qed.

(** A linked list only depends on the link words of its nodes. *)
Lemma list_rep_frame (m m' : mem) (l : list Z) : forall p,
  list_rep m p l ->
  (forall q x, In q l -> q <= x < q + 4 -> m' x = m x) ->
  list_rep m' p l.
Proof.
  induction l as [|q l IH]; intros p H F; cbn [list_rep] in *; [assumption|].
  destruct H as (-> & Hq & H). repeat split; try assumption.
  rewrite (load32_ext m m')
    by (intros; apply (F q); [left; reflexivity | assumption]).
  apply IH; [assumption|]. intros q' x Hin Hx.
  apply (F q'); [right; assumption | assumption].
Qed.

Lemma pages_sep_in (a : Pool) (l : list Z) (p : Z) :
  pages_sep a l -> In p l -> 0 < p /\ p + pageSize a <= 2 ^ 32.
Proof.
  induction l as [|q l IH]; cbn [pages_sep In]; [tauto|].
  intros (H1 & H2 & _ & H4) [-> | Hin]; auto.
Qed.

(** Two pages of a separated list are equal or disjoint. *)
Lemma pages_sep_disjoint (a : Pool) (l : list Z) (p q : Z) :
  pages_sep a l -> In p l -> In q l ->
  p = q \/ q + pageSize a <= p \/ p + pageSize a <= q.
Proof.
  induction l as [|r l IH]; cbn [pages_sep In]; [tauto|].
  intros (H1 & H2 & H3 & H4) [-> | Hp] [-> | Hq]; auto.
  destruct (H3 p Hp); auto.
Qed.

(** With separated pages, the walk finds the page that holds the address. *)
Lemma first_page_sep (a : Pool) (del pb : Z) (l : list Z) :
  pages_sep a l -> In pb l -> pb <= del < pb + pageSize a ->
  first_page a del l = Some pb.
Proof.
  intros S Hin Hd.
  destruct (pages_sep_in a l pb S Hin) as [Hpb0 Hpb1].
  induction l as [|p l IH]; cbn [first_page pages_sep In] in *; [contradiction|].
  destruct S as (Hp0 & Hp1 & Hsep & S).
  rewrite (wrap_small del), (wrap_small p) by lia.
  destruct Hin as [-> | Hin].
  - rewrite wrap_small by lia.
    destruct (Z.ltb_spec (del - pb) (pageSize a)); [reflexivity | lia].
  - destruct (Hsep pb Hin) as [Hlt | Hgt].
    + replace (wrap (del - p)) with (del - p + 2 ^ 32).
      * destruct (Z.ltb_spec (del - p + 2 ^ 32) (pageSize a)); [lia | auto].
      * unfold wrap. apply Z.mod_unique with (q := -1); lia.
    + rewrite wrap_small by lia.
      destruct (Z.ltb_spec (del - p) (pageSize a)); [lia | auto].
Qed.

Section Build.

Variable cstr : Z -> string.
Variable exceptions : bool.

(** The walk of [Free] over a well-formed page list ends, and decides by
    the first page that holds the address. *)
Lemma Free_walk_spec (a : Pool) (m : mem) (del filename line : Z) (l : list Z) :
  forall (fuel : nat) (p : Z),
  list_rep m p l -> (List.length l < fuel)%nat ->
  Free_walk cstr fuel a m del filename line p
  = Some match first_page a del l with
         | Some pb =>
           Free_validate cstr a m del filename line (wrap (wrap del - wrap pb))
         | None => Valid
         end.
Proof.
  induction l as [|q l IH]; intros fuel p R Hf; cbn [list_rep first_page List.length] in *.
  - subst p. destruct fuel as [|f]; [lia|]. reflexivity.
  - destruct R as (-> & Hq & R). destruct fuel as [|f]; [lia|].
    cbn [Free_walk]. destruct (Z.eqb_spec q 0); [contradiction|].
    destruct (wrap (wrap del - wrap q) <? pageSize a).
    + destruct (Free_validate cstr a m del filename line _); [|reflexivity].
      destruct f as [|f]; [lia | reflexivity].
    + apply IH; [assumption | lia].
Qed.

(** [Free] on an address whose validation passes (or that no page holds). *)
Lemma Free_valid (fuel : nat) (del filename line : Z) (a : Pool) (m : mem) :
  Free_walk cstr fuel a m del filename line (pageList a) = Some Valid ->
  Free cstr exceptions fuel del filename line a m
  = Some (Returned 0,
          set_stats (set_freeList a del)
            {| freeBlocks := wrap (freeBlocks (stats a) + 1);
               blocksInUse := wrap (blocksInUse (stats a) - 1);
               pagesInUse := pagesInUse (stats a);
               mostBlocksInUse := mostBlocksInUse (stats a);
               mostPagesInUse := mostPagesInUse (stats a);
               allocations := allocations (stats a);
               deallocations := wrap (deallocations (stats a) + 1) |},
          store32
            (memset (memset m del FREED (blockSize a))
               (del - headerSize a - padBytes (settings a)) 0 (headerSize a))
            del (freeList a)).
Proof. intros E. unfold Free. rewrite E. reflexivity. Qed.

(** [Free] on an address whose validation fails. *)
Lemma Free_invalid (fuel : nat) (del filename line : Z) (a : Pool) (m : mem)
    (l e : string) (c : Z) :
  Free_walk cstr fuel a m del filename line (pageList a) = Some (Invalid l e c) ->
  Free cstr exceptions fuel del filename line a m
  = Some (if exceptions then Thrown (mkException cstr e filename line)
          else Returned c, log a l, m).
Proof.
  intros E. unfold Free. rewrite E. destruct exceptions; reflexivity.
Qed.

(** The offset the alignment test of [Free] subtracts. *)
Lemma left_offset_wrap (a : Pool) :
  geometry a ->
  wrap (leftChunkSize a - padBytes (settings a) - blockSize a) = left_offset a.
Proof.
  intros G. pose proof (geometry_bpp a G). destruct G.
  unfold left_offset, ptrSize, sizeof_DebugHeader in *.
  assert (1 * interChunkSize a <= blocksPerPage (settings a) * interChunkSize a)
    by (apply Z.mul_le_mono_nonneg_r; lia).
  rewrite wrap_small; lia.
Qed.

(** A block lies inside its page. *)
Lemma block_in_page (a : Pool) (pg i : Z) :
  geometry a -> 0 <= i < blocksPerPage (settings a) ->
  pg + left_offset a <= block_at a pg i
  /\ block_at a pg i + blockSize a + padBytes (settings a) <= pg + pageSize a.
Proof.
  intros G Hi. pose proof (block_at_last a pg G) as Hl.
  assert (0 <= interChunkSize a)
    by (destruct G; unfold ptrSize, sizeof_DebugHeader in *; lia).
  assert (0 <= i * interChunkSize a) by (apply Z.mul_nonneg_nonneg; lia).
  assert (i * interChunkSize a <= (blocksPerPage (settings a) - 1) * interChunkSize a)
    by (apply Z.mul_le_mono_nonneg_r; lia).
  unfold block_at in *. lia.
Qed.

(** The alignment test passes for every block of the page. *)
Lemma block_aligned (a : Pool) (pg i : Z) :
  geometry a -> 0 <= i < blocksPerPage (settings a) ->
  0 < pg -> pg + pageSize a <= 2 ^ 32 ->
  wrap (wrap (block_at a pg i) - wrap pg) = left_offset a + i * interChunkSize a
  /\ wrap (wrap (wrap (block_at a pg i) - wrap pg)
           - wrap (leftChunkSize a - padBytes (settings a) - blockSize a))
     mod interChunkSize a = 0.
Proof.
  intros G Hi Hp0 Hp1.
  destruct (block_in_page a pg i G Hi) as [B1 B2].
  rewrite left_offset_wrap by assumption.
  assert (0 <= interChunkSize a /\ 0 <= left_offset a /\ 4 <= blockSize a
          /\ 0 <= padBytes (settings a)) as (? & ? & ? & ?)
    by (destruct G; unfold left_offset, ptrSize, sizeof_DebugHeader in *; lia).
  assert (0 <= i * interChunkSize a) by (apply Z.mul_nonneg_nonneg; lia).
  change (2 ^ 32) with 4294967296 in *.
  assert (0 <= block_at a pg i < 4294967296) by lia.
  assert (0 <= pg < 4294967296) by lia.
  rewrite (wrap_small (block_at a pg i)), (wrap_small pg) by assumption.
  assert (E : wrap (block_at a pg i - pg) = left_offset a + i * interChunkSize a).
  { rewrite wrap_small; change (2 ^ 32) with 4294967296; unfold block_at in *; lia. }
  rewrite E. split; [reflexivity|].
  replace (left_offset a + i * interChunkSize a - left_offset a)
    with (i * interChunkSize a) by lia.
  rewrite wrap_small by (change (2 ^ 32) with 4294967296; unfold block_at in *; lia).
  apply Z_mod_mult.
Qed.

End Build.

End FreeFacts.

(** ** The invariant of an allocator's pages *)

Module PoolInv.
Import ObjectAllocator Layout MachineFacts CreatePageFacts FreeFacts.

Lemma geometry_dims (a a' : Pool) : dims a' = dims a -> geometry a -> geometry a'.
Proof.
  unfold dims. intros E G. injection E as E1 E2 E3 E4 E5 E6 E7 E8.
  destruct G. constructor; congruence.
Qed.

Lemma pages_sep_dims (a a' : Pool) (l : list Z) :
  dims a' = dims a -> pages_sep a l -> pages_sep a' l.
Proof.
  unfold dims. intros E. injection E as E1 E2 E3 E4 E5 E6 E7 E8.
  induction l as [|p l IH]; cbn [pages_sep]; [auto|]. rewrite E4.
  intros (H1 & H2 & H3 & H4); auto.
Qed.

Lemma block_at_dims (a a' : Pool) (pg i : Z) :
  dims a' = dims a -> block_at a' pg i = block_at a pg i.
Proof.
  unfold dims. intros E. injection E as E1 E2 E3 E4 E5 E6 E7 E8.
  unfold block_at, left_offset. congruence.
Qed.

Lemma heap_inv_dims (a a' : Pool) (m : mem) (pl fl : Z) (pages free live : list Z) :
  dims a' = dims a ->
  heap_inv a m pl fl pages free live -> heap_inv a' m pl fl pages free live.
Proof.
  intros E [G P S F N B Pd L Fz].
  pose proof E as E'. unfold dims in E'. injection E' as E1 E2 E3 E4 E5 E6 E7 E8.
  constructor; auto.
  - exact (geometry_dims a a' E G).
  - exact (pages_sep_dims a a' pages E S).
  - intros b Hb. destruct (B b Hb) as (pg & Hpg & i & Hi & Hbi).
    exists pg. split; [assumption|]. exists i. rewrite E2.
    split; [assumption|]. now rewrite (block_at_dims a a' pg i E).
  - intros b Hb i Hi. rewrite E2, E3 in *. now apply Pd.
  - intros b Hb. rewrite E1, E2. now apply L.
  - intros b Hb. rewrite E1, E2. now apply Fz.
Qed.

(** The invariant only reads its footprint. *)
Lemma heap_inv_frame (a : Pool) (m m' : mem) (pl fl : Z) (pages free live : list Z) :
  heap_inv a m pl fl pages free live ->
  (forall x, footprint a pages free live x -> m' x = m x) ->
  heap_inv a m' pl fl pages free live.
Proof.
  intros [G P S F N B Pd L Fz] Fr. unfold footprint, ptrSize in Fr.
  constructor; auto.
  - apply (list_rep_frame m); [assumption|].
    intros q x Hq Hx. apply Fr. left. eauto.
  - apply (list_rep_frame m); [assumption|].
    intros q x Hq Hx. apply Fr. right; left. eauto.
  - intros b Hb i Hi. destruct (Pd b Hb i Hi) as [P1 P2].
    split; (rewrite Fr; [assumption|]); right; right; left; exists b;
      (split; [assumption | lia]).
  - intros b Hb. rewrite Fr; [now apply L|]. right; right; right. eauto.
  - intros b Hb. rewrite Fr; [now apply Fz|]. right; right; right. eauto.
Qed.

Section Blocks.

Variable a : Pool.
Hypothesis G : geometry a.

Lemma geometry_pos :
  0 <= padBytes (settings a) /\ 4 <= blockSize a /\ 0 <= leftAlign a
  /\ 0 <= interAlign a /\ headerSize a = 12
  /\ interChunkSize a
     = blockSize a + 2 * padBytes (settings a) + interAlign a + headerSize a
  /\ left_offset a = 4 + leftAlign a + headerSize a + padBytes (settings a)
  /\ 4 < pageSize a.
Proof.
  pose proof (block_in_page a 0 0 G) as B.
  destruct G. unfold left_offset, ptrSize, sizeof_DebugHeader in *.
  specialize (B ltac:(lia)). unfold block_at, left_offset, ptrSize in B.
  repeat split; lia.
Qed.

(** The extent of a block, from its header to its right pad, lies in the
    page after the link word and the left alignment bytes. *)
Lemma block_extent (pg b : Z) :
  is_block a pg b ->
  pg + ptrSize + leftAlign a <= b - padBytes (settings a) - headerSize a
  /\ b + blockSize a + padBytes (settings a) <= pg + pageSize a.
Proof.
  intros (i & Hi & ->). destruct (block_in_page a pg i G Hi) as [B1 B2].
  destruct geometry_pos as (? & ? & ? & ? & ? & ? & Hlo & ?).
  unfold ptrSize. lia.
Qed.

(** Distinct blocks have disjoint extents. *)
Lemma blocks_apart (pages : list Z) (pg1 pg2 b1 b2 : Z) :
  pages_sep a pages -> In pg1 pages -> In pg2 pages ->
  is_block a pg1 b1 -> is_block a pg2 b2 -> b1 <> b2 ->
  b1 + blockSize a + padBytes (settings a)
  <= b2 - padBytes (settings a) - headerSize a
  \/ b2 + blockSize a + padBytes (settings a)
     <= b1 - padBytes (settings a) - headerSize a.
Proof.
  intros S H1 H2 B1 B2 Hne.
  destruct (block_extent pg1 b1 B1) as [X1 Y1].
  destruct (block_extent pg2 b2 B2) as [X2 Y2].
  destruct geometry_pos as (? & ? & ? & ? & ? & Hics & Hlo & ?).
  unfold ptrSize in *.
  destruct (pages_sep_disjoint a pages pg1 pg2 S H1 H2) as [-> | [Hd | Hd]];
    [|lia|lia].
  destruct B1 as (i & Hi & ->). destruct B2 as (j & Hj & ->).
  destruct (Z_lt_le_dec i j) as [Hlt | Hge].
  - pose proof (block_at_mono a pg2 i j G Hlt). lia.
  - assert (j < i) by (destruct (Z.eq_dec i j); [subst; contradiction | lia]).
    pose proof (block_at_mono a pg2 j i G ltac:(lia)). lia.
Qed.

(** The link word of a page is outside the extent of every block. *)
Lemma page_link_apart (pages : list Z) (pg pg' b : Z) :
  pages_sep a pages -> In pg pages -> In pg' pages -> is_block a pg' b ->
  pg + ptrSize <= b - padBytes (settings a) - headerSize a
  \/ b + blockSize a + padBytes (settings a) <= pg.
Proof.
  intros S H1 H2 B.
  destruct (block_extent pg' b B) as [X Y].
  destruct geometry_pos as (? & ? & ? & ? & ? & Hics & Hlo & ?).
  unfold ptrSize in *.
  destruct (pages_sep_disjoint a pages pg pg' S H1 H2) as [-> | [Hd | Hd]]; lia.
Qed.

End Blocks.

(** The pool an operation leaves: new list heads, statistics and log. *)
Lemma pool_inv_intro (a a' : Pool) (m : mem) (pages free live : list Z) :
  dims a' = dims a ->
  heap_inv a m (pageList a') (freeList a') pages free live ->
  pool_inv a' m pages free live.
Proof. intros E H. unfold pool_inv. now apply (heap_inv_dims a a'). Qed.

Lemma heap_inv_block_range (a : Pool) (m : mem) (pl fl : Z)
    (pages free live : list Z) (b : Z) :
  heap_inv a m pl fl pages free live -> In b free \/ In b live ->
  0 < b - padBytes (settings a) - headerSize a
  /\ b + blockSize a + padBytes (settings a) <= 2 ^ 32.
Proof.
  intros [G P S F N B Pd L Fz] Hb.
  destruct (B b Hb) as (pg & Hpg & Hblk).
  destruct (block_extent a G pg b Hblk) as [X Y].
  destruct (pages_sep_in a pages pg S Hpg) as [Z1 Z2].
  destruct (geometry_pos a G) as (? & ? & ? & ? & ? & ? & ? & ?).
  unfold ptrSize in *. lia.
Qed.

(** The head of a list in memory is null or its first node. *)
Lemma list_rep_head (m : mem) (p : Z) (l : list Z) :
  list_rep m p l -> p = 0 \/ In p l.
Proof. destruct l; cbn [list_rep In]; [auto|]. intros (-> & _); auto. Qed.

(** [Allocate] with a block on the free list. *)
Lemma Allocate_pop (newp file line : Z) (a : Pool) (m : mem)
    (pages free live : list Z) (f : Z) :
  pool_inv a m pages (f :: free) live ->
  exists m',
    Allocate newp file line a m
    = (f,
       set_stats (set_freeList a (load32 m f))
         {| freeBlocks := wrap (freeBlocks (stats a) - 1);
            blocksInUse := wrap (blocksInUse (stats a) + 1);
            pagesInUse := pagesInUse (stats a);
            mostBlocksInUse :=
              if mostBlocksInUse (stats a) <? wrap (blocksInUse (stats a) + 1)
              then wrap (blocksInUse (stats a) + 1) else mostBlocksInUse (stats a);
            mostPagesInUse := mostPagesInUse (stats a);
            allocations := wrap (allocations (stats a) + 1);
            deallocations := deallocations (stats a) |}, m')
    /\ heap_inv a m' (pageList a) (load32 m f) pages free (f :: live)
    /\ (forall x, x < f - padBytes (settings a) - headerSize a
                  \/ f - padBytes (settings a) <= x < f
                  \/ f + blockSize a <= x -> m' x = m x)
    /\ (forall x, f <= x < f + blockSize a -> m' x = ALLOCATED)
    /\ read_header m' (GetDebugHeader a f)
       = {| allocated := true; filename := wrap file; line := wrap line |}.
Proof.
  intros I. pose proof I as [G P S F N B Pd L Fz].
  destruct (geometry_pos a G) as (Hpad & Hbs & Hla & Hia & Hhs & Hics & Hlo & Hps).
  cbn [list_rep] in F. destruct F as (Ef & Hf & F).
  unfold Allocate, Pop. rewrite Ef.
  destruct (Z.eqb_spec f 0) as [|_]; [contradiction|].
  cbv beta iota zeta. rewrite Ef.
  destruct (Z.eqb_spec f 0) as [|_]; [contradiction|].
  unfold off_allocated, off_line, off_filename. cbv beta iota zeta.
  match goal with |- exists _, (_, _, ?M) = _ /\ _ => set (m' := M) end.
  exists m'. split; [reflexivity|].
  assert (Fr : forall x, x < f - padBytes (settings a) - headerSize a
                  \/ f - padBytes (settings a) <= x < f
                  \/ f + blockSize a <= x -> m' x = m x).
  { intros x Hx. subst m'. repeat mem_step. reflexivity. }
  assert (Hflag : m' (f - padBytes (settings a) - headerSize a) = 1).
  { subst m'. repeat mem_step.
    replace (f - padBytes (settings a) - headerSize a)
      with (f - headerSize a - padBytes (settings a) + 0) by lia.
    now rewrite store8_in. }
  destruct (B f (or_introl (or_introl eq_refl))) as (pgf & Hpgf & Bf).
  assert (Hother : forall b, In b free \/ In b live ->
            b + blockSize a + padBytes (settings a)
            <= f - padBytes (settings a) - headerSize a
            \/ f + blockSize a + padBytes (settings a)
               <= b - padBytes (settings a) - headerSize a).
  { intros b Hb.
    assert (Hne : b <> f).
    { intros ->. cbn [app] in N. apply NoDup_cons_iff in N. destruct N as [N _].
      apply N, in_or_app. assumption. }
    destruct (B b) as (pg & Hpg & Bb); [cbn [In]; tauto|].
    apply (blocks_apart a G pages pg pgf); assumption. }
  split; [|split; [exact Fr|split]].
  - constructor; auto.
    + apply (list_rep_frame m); [assumption|]. intros q x Hq Hx. apply Fr.
      destruct (page_link_apart a G pages q pgf f S Hq Hpgf Bf); unfold ptrSize in *; lia.
    + apply (list_rep_frame m); [assumption|]. intros q x Hq Hx. apply Fr.
      destruct (Hother q (or_introl Hq)); lia.
    + apply (Permutation_NoDup (l := (f :: free) ++ live)); [|assumption].
      cbn [app]. apply Permutation_middle.
    + intros b [Hb | [<- | Hb]]; apply B; cbn [In]; tauto.
    + intros b Hb i Hi.
      assert (Hb' : In b (f :: free) \/ In b live) by (cbn [In] in *; tauto).
      destruct (Pd b Hb' i Hi) as [P1 P2].
      destruct (Z.eq_dec b f) as [-> | Hne].
      * rewrite !Fr by lia. auto.
      * assert (Hb2 : In b free \/ In b live) by (cbn [In] in *; intuition congruence).
        destruct (Hother b Hb2); rewrite !Fr by lia; auto.
    + intros b [<- | Hb]; [rewrite Hflag; lia|].
      destruct (Hother b (or_intror Hb)); rewrite Fr by lia; now apply L.
    + intros b Hb.
      destruct (Hother b (or_introl Hb)); rewrite Fr by lia;
        apply Fz; right; assumption.
  - intros x Hx. subst m'. repeat mem_step. reflexivity.
  - unfold read_header, GetDebugHeader, off_allocated, off_filename, off_line.
    rewrite Z.add_0_r, Hflag. cbn [Z.eqb negb]. f_equal.
    + subst m'.
      replace (f - padBytes (settings a) - headerSize a + 4)
        with (f - headerSize a - padBytes (settings a) + 4) by lia.
      apply load32_store32_wrap.
    + subst m'.
      replace (f - padBytes (settings a) - headerSize a + 8)
        with (f - headerSize a - padBytes (settings a) + 8) by lia.
      rewrite load32_store32_other by lia. apply load32_store32_wrap.
Qed.

Lemma in_blocks_down (a : Pool) (pg b : Z) (k : nat) :
  In b (blocks_down a pg k)
  <-> exists i, 0 <= i < Z.of_nat k /\ b = block_at a pg i.
Proof.
  induction k as [|k IH]; cbn [blocks_down In].
  - split; [contradiction | intros (i & Hi & _); lia].
  - rewrite IH. split.
    + intros [<- | (i & Hi & ->)]; [exists (Z.of_nat k) | exists i]; split; auto; lia.
    + intros (i & Hi & ->). destruct (Z.eq_dec i (Z.of_nat k)) as [-> | Hne];
        [left; reflexivity | right; exists i; split; auto; lia].
Qed.

Lemma NoDup_blocks_down (a : Pool) (pg : Z) (k : nat) :
  geometry a -> NoDup (blocks_down a pg k).
Proof.
  intros G. destruct (geometry_pos a G) as (? & ? & ? & ? & ? & ? & ? & ?).
  induction k as [|k IH]; cbn [blocks_down]; constructor; [|assumption].
  rewrite in_blocks_down. intros (i & Hi & E).
  pose proof (block_at_mono a pg i (Z.of_nat k) G ltac:(lia)). lia.
Qed.

(** [CreatePage] with a fresh page keeps the invariant: the new blocks go
    on top of the free list. *)
Lemma CreatePage_inv (newp : Z) (a : Pool) (m : mem) (pages free live : list Z) :
  pool_inv a m pages free live ->
  0 < newp -> newp + pageSize a <= 2 ^ 32 ->
  (forall q, In q pages -> q + pageSize a <= newp \/ newp + pageSize a <= q) ->
  exists m',
    CreatePage newp a m
    = (set_stats
         (set_freeList (set_pageList a newp)
            (block_at a newp (blocksPerPage (settings a) - 1)))
         {| freeBlocks := wrap (freeBlocks (stats a) + blocksPerPage (settings a));
            blocksInUse := blocksInUse (stats a);
            pagesInUse := wrap (pagesInUse (stats a) + 1);
            mostBlocksInUse := mostBlocksInUse (stats a);
            mostPagesInUse :=
              if mostPagesInUse (stats a) <? wrap (pagesInUse (stats a) + 1)
              then wrap (pagesInUse (stats a) + 1) else mostPagesInUse (stats a);
            allocations := allocations (stats a);
            deallocations := deallocations (stats a) |}, m')
    /\ heap_inv a m' newp (block_at a newp (blocksPerPage (settings a) - 1))
         (newp :: pages)
         (blocks_down a newp (Z.to_nat (blocksPerPage (settings a))) ++ free) live
    /\ (forall x, x < newp \/ newp + pageSize a <= x -> m' x = m x)
    /\ (forall f x,
          In f (blocks_down a newp (Z.to_nat (blocksPerPage (settings a)))) ->
          f + ptrSize <= x < f + blockSize a -> m' x = UNALLOCATED).
Proof.
  intros I Hn0 Hn1 Hfresh. pose proof I as [G P Sp F N B Pd L Fz].
  destruct (geometry_pos a G) as (Hpad & Hbs & Hla & Hia & Hhs & Hics & Hlo & Hps).
  destruct (CreatePage_spec newp a m G) as (m' & E & Hlink & Halign & Hblocks & Fr).
  exists m'. split; [exact E|].
  assert (Hraw : forall f x,
            In f (blocks_down a newp (Z.to_nat (blocksPerPage (settings a)))) ->
            f + ptrSize <= x < f + blockSize a -> m' x = UNALLOCATED).
  { intros f x Hf Hx. apply in_blocks_down in Hf. destruct Hf as (i & Hi & ->).
    rewrite Z2Nat.id in Hi by (pose proof (geo_bpp a G); lia).
    destruct (Hblocks i Hi) as (_ & (_ & Hb & _) & _). now apply Hb. }
  split; [|split; [exact Fr | exact Hraw]]. clear Hraw.
  pose proof (geo_bpp a G) as Hbpp.
  assert (Hold : forall b, In b free \/ In b live ->
            b + blockSize a + padBytes (settings a) <= newp
            \/ newp + pageSize a <= b - padBytes (settings a) - headerSize a).
  { intros b Hb. destruct (B b Hb) as (pg & Hpg & Bb).
    destruct (block_extent a G pg b Bb) as [X Y]. unfold ptrSize in *.
    destruct (Hfresh pg Hpg); lia. }
  assert (Hnew : forall i, 0 <= i < blocksPerPage (settings a) ->
            newp + ptrSize + leftAlign a
            <= block_at a newp i - padBytes (settings a) - headerSize a
            /\ block_at a newp i + blockSize a + padBytes (settings a)
               <= newp + pageSize a).
  { intros i Hi. apply (block_extent a G newp). exists i. auto. }
  assert (Hpl : 0 <= pageList a < 2 ^ 32).
  { destruct (list_rep_head m _ _ P) as [-> | Hin]; [lia|].
    destruct (pages_sep_in a pages _ Sp Hin). lia. }
  assert (Hfl : 0 <= freeList a < 2 ^ 32).
  { destruct (list_rep_head m _ _ F) as [-> | Hin]; [lia|].
    destruct (heap_inv_block_range a m _ _ pages free live _ I (or_introl Hin)). lia. }
  assert (Hfree : forall k, Z.of_nat k <= blocksPerPage (settings a) ->
            list_rep m'
              (if Z.of_nat k =? 0 then freeList a
               else block_at a newp (Z.of_nat k - 1))
              (blocks_down a newp k ++ free)).
  { induction k as [|k IH]; intros Hk.
    - cbn [Z.of_nat Z.eqb blocks_down app].
      apply (list_rep_frame m); [assumption|]. intros q x Hq Hx. apply Fr.
      destruct (Hold q (or_introl Hq)); lia.
    - destruct (Z.eqb_spec (Z.of_nat (S k)) 0); [lia|].
      replace (Z.of_nat (S k) - 1) with (Z.of_nat k) by lia.
      cbn [blocks_down app list_rep].
      destruct (Hnew (Z.of_nat k) ltac:(lia)) as [X Y]. unfold ptrSize in X.
      split; [reflexivity|]. split; [lia|].
      destruct (Hblocks (Z.of_nat k) ltac:(lia)) as (_ & (Lk & _) & _).
      rewrite (load32_bytes m' _
                 (if Z.of_nat k =? 0 then freeList a
                  else block_at a newp (Z.of_nat k - 1))).
      + apply IH. lia.
      + destruct (Z.eqb_spec (Z.of_nat k) 0); [assumption|].
        destruct (Hnew (Z.of_nat k - 1) ltac:(lia)). unfold ptrSize in *. lia.
      + exact Lk. }
  constructor; auto.
  - cbn [list_rep]. split; [reflexivity|]. split; [lia|].
    rewrite (load32_bytes m' newp (pageList a) Hpl Hlink).
    apply (list_rep_frame m); [assumption|]. intros q x Hq Hx. apply Fr.
    destruct (Hfresh q Hq); lia.
  - cbn [pages_sep]. auto.
  - specialize (Hfree (Z.to_nat (blocksPerPage (settings a)))).
    rewrite Z2Nat.id in Hfree by lia.
    destruct (Z.eqb_spec (blocksPerPage (settings a)) 0); [lia|].
    apply Hfree. lia.
  - rewrite <- app_assoc. apply NoDup_app; [now apply NoDup_blocks_down | assumption|].
    intros b Hb Hb'. apply in_blocks_down in Hb. destruct Hb as (i & Hi & ->).
    rewrite Z2Nat.id in Hi by lia. apply in_app_iff in Hb'.
    destruct (Hnew i Hi). destruct (Hold _ Hb'); unfold ptrSize in *; lia.
  - intros b [Hb | Hb].
    + apply in_app_iff in Hb. destruct Hb as [Hb | Hb].
      * apply in_blocks_down in Hb. destruct Hb as (i & Hi & ->).
        rewrite Z2Nat.id in Hi by lia.
        exists newp. split; [left; reflexivity | exists i; auto].
      * destruct (B b (or_introl Hb)) as (pg & Hpg & Bb).
        exists pg. split; [right; assumption | assumption].
    + destruct (B b (or_intror Hb)) as (pg & Hpg & Bb).
      exists pg. split; [right; assumption | assumption].
  - assert (Hpo : forall b, In b free \/ In b live -> pads_ok a m' b).
    { intros b Hb i Hi. destruct (Pd b Hb i Hi) as [P1 P2].
      destruct (Hold b Hb); rewrite !Fr by lia; auto. }
    intros b [Hb | Hb]; [|auto].
    apply in_app_iff in Hb. destruct Hb as [Hb | Hb]; [|auto].
    apply in_blocks_down in Hb. destruct Hb as (i & Hi & ->).
    rewrite Z2Nat.id in Hi by lia.
    destruct (Hblocks i Hi) as ((_ & Hl) & (_ & _ & Hr) & _).
    intros j Hj. split; [apply Hl | apply Hr]; lia.
  - intros b Hb. destruct (Hold b (or_intror Hb)); rewrite Fr by lia; auto.
  - intros b Hb. apply in_app_iff in Hb. destruct Hb as [Hb | Hb].
    + apply in_blocks_down in Hb. destruct Hb as (i & Hi & ->).
      rewrite Z2Nat.id in Hi by lia.
      destruct (Hblocks i Hi) as ((Hz & _) & _). apply Hz. lia.
    + destruct (Hold b (or_introl Hb)); rewrite Fr by lia; auto.
Qed.

Lemma NoDup_app_disjoint (l1 l2 : list Z) (x : Z) :
  NoDup (l1 ++ l2) -> In x l1 -> In x l2 -> False.
Proof.
  induction l1 as [|y l1 IH]; cbn [app In]; [tauto|].
  intros N [-> | H1] H2; apply NoDup_cons_iff in N; destruct N as [N1 N2].
  - apply N1, in_or_app. now right.
  - now apply IH.
Qed.

(** Distinct blocks of the invariant have disjoint extents. *)
Lemma heap_inv_apart (a : Pool) (m : mem) (pl fl : Z) (pages free live : list Z)
    (b c : Z) :
  heap_inv a m pl fl pages free live ->
  In b free \/ In b live -> In c free \/ In c live -> b <> c ->
  b + blockSize a + padBytes (settings a)
  <= c - padBytes (settings a) - headerSize a
  \/ c + blockSize a + padBytes (settings a)
     <= b - padBytes (settings a) - headerSize a.
Proof.
  intros [G P Sp F N B Pd L Fz] Hb Hc Hne.
  destruct (B b Hb) as (pgb & Hpgb & Bb). destruct (B c Hc) as (pgc & Hpgc & Bc).
  apply (blocks_apart a G pages pgb pgc); assumption.
Qed.

(** The constructor computes the sizes without wrap-around whenever one
    page of the configured blocks fits the address space. *)
Lemma ctor_geometry (sizeofT : Z) (l : option string) (s : ObjectAllocatorSettings) :
  0 <= padBytes s -> 1 <= blocksPerPage s -> 0 <= alignment s ->
  4 + alignment s
  + blocksPerPage s * (Z.max sizeofT 4 + 2 * padBytes s + 12 + alignment s) < 2 ^ 32 ->
  geometry (ObjectAllocator_ctor sizeofT l s).
Proof.
  intros Hpad Hbpp Hal Hfit. change (2 ^ 32) with 4294967296 in Hfit.
  unfold ObjectAllocator_ctor, CalculatePageSize. cbn [headerSize settings blockSize
    pageSize leftAlign interAlign leftChunkSize interChunkSize].
  unfold ptrSize, sizeof_DebugHeader.
  set (bs := if sizeofT <? 4 then 4 else sizeofT).
  assert (Ebs : bs = Z.max sizeofT 4)
    by (subst bs; destruct (Z.ltb_spec sizeofT 4); lia).
  set (la := if 1 <? alignment s then _ else 0).
  set (ia := if 1 <? alignment s then _ else 0).
  assert (Hla : 0 <= la <= alignment s).
  { subst la. destruct (Z.ltb_spec 1 (alignment s)); [|lia].
    pose proof (Z.mod_pos_bound (wrap (alignment s - wrap (4 + 12 + padBytes s)))
                  (alignment s) ltac:(lia)). lia. }
  assert (Hia : 0 <= ia <= alignment s).
  { subst ia. destruct (Z.ltb_spec 1 (alignment s)); [|lia].
    pose proof (Z.mod_pos_bound (wrap (alignment s - wrap (bs + 12 + 2 * padBytes s)))
                  (alignment s) ltac:(lia)). lia. }
  clearbody la ia.
  assert (H1 : 1 * (bs + 2 * padBytes s + 12 + alignment s)
               <= blocksPerPage s * (bs + 2 * padBytes s + 12 + alignment s))
    by (apply Z.mul_le_mono_nonneg_r; lia).
  assert (H2 : blocksPerPage s * (bs + 2 * padBytes s + 12 + ia)
               <= blocksPerPage s * (bs + 2 * padBytes s + 12 + alignment s))
    by (apply Z.mul_le_mono_nonneg_l; lia).
  assert (H3 : 1 * (bs + 2 * padBytes s + 12 + ia)
               <= blocksPerPage s * (bs + 2 * padBytes s + 12 + ia))
    by (apply Z.mul_le_mono_nonneg_r; lia).
  rewrite <- Ebs in Hfit.
  assert (Eics : wrap (bs + 2 * padBytes s + ia + 12) = bs + 2 * padBytes s + ia + 12)
    by (apply wrap_small; change (2 ^ 32) with 4294967296; lia).
  assert (Eps : wrap (4 + la + blocksPerPage s * (bs + 2 * padBytes s + 12 + ia) - ia)
                = 4 + la + blocksPerPage s * (bs + 2 * padBytes s + 12 + ia) - ia)
    by (apply wrap_small; change (2 ^ 32) with 4294967296; lia).
  constructor; cbn [headerSize settings blockSize pageSize leftAlign interAlign
    leftChunkSize interChunkSize]; unfold ptrSize, sizeof_DebugHeader; try lia.
  apply wrap_small. change (2 ^ 32) with 4294967296. lia.
Qed.

(** A new allocator has no pages and no blocks. *)
Lemma ctor_inv (sizeofT : Z) (l : option string) (s : ObjectAllocatorSettings)
    (m : mem) :
  geometry (ObjectAllocator_ctor sizeofT l s) ->
  pool_inv (ObjectAllocator_ctor sizeofT l s) m [] [] [].
Proof.
  intros G. constructor; cbn; auto; try tauto.
  constructor.
Qed.

(** A list in memory that starts at null is empty. *)
Lemma list_rep_null (m : mem) (l : list Z) : list_rep m 0 l -> l = [].
Proof. destruct l; cbn [list_rep]; [reflexivity|]. intros (<- & H & _). contradiction. Qed.

(** [Allocate] keeps the invariant: the block it returns was not live and
    is now; a page is added when the free list was empty. *)
Lemma Allocate_inv (newp file line : Z) (a : Pool) (m : mem)
    (pages free live : list Z) :
  pool_inv a m pages free live ->
  (freeList a = 0 ->
   0 < newp /\ newp + pageSize a <= 2 ^ 32
   /\ forall q, In q pages -> q + pageSize a <= newp \/ newp + pageSize a <= q) ->
  exists p a' m' free',
    Allocate newp file line a m = (p, a', m')
    /\ pool_inv a' m' (if freeList a =? 0 then newp :: pages else pages) free'
         (p :: live)
    /\ dims a' = dims a
    /\ blocksInUse (stats a') = wrap (blocksInUse (stats a) + 1)
    /\ freeBlocks (stats a')
       = (if freeList a =? 0
          then wrap (wrap (freeBlocks (stats a) + blocksPerPage (settings a)) - 1)
          else wrap (freeBlocks (stats a) - 1))
    /\ allocations (stats a') = wrap (allocations (stats a) + 1)
    /\ deallocations (stats a') = deallocations (stats a)
    /\ (exists pg, In pg (if freeList a =? 0 then newp :: pages else pages)
                   /\ is_block a pg p)
    /\ (forall x, p <= x < p + blockSize a -> m' x = ALLOCATED)
    /\ read_header m' (GetDebugHeader a p)
       = {| allocated := true; filename := wrap file; line := wrap line |}
    /\ (forall f, In f free -> f = p \/ In f free')
    /\ (forall f, In f free' ->
          In f free
          \/ forall x, f + ptrSize <= x < f + blockSize a -> m' x = UNALLOCATED)
    /\ (forall x, (freeList a = 0 -> x < newp \/ newp + pageSize a <= x) ->
          x < p - padBytes (settings a) - headerSize a
          \/ p - padBytes (settings a) <= x < p
          \/ p + blockSize a <= x ->
          m' x = m x)
    /\ logStream a' = logStream a.
Proof.
  intros I Hfresh. pose proof I as [G P Sp F N B Pd L Fz].
  destruct (Z.eqb_spec (freeList a) 0) as [E0 | E0].
  - destruct (Hfresh E0) as (Hn0 & Hn1 & Hn2).
    assert (free = []) as -> by (rewrite E0 in F; exact (list_rep_null m free F)).
    destruct (CreatePage_inv newp a m pages [] live I Hn0 Hn1 Hn2)
      as (m1 & E1 & I1 & Fr1 & Hraw1).
    match type of E1 with _ = (?A, _) => set (a1 := A) in * end.
    rewrite app_nil_r in I1.
    assert (I1' : pool_inv a1 m1 (newp :: pages)
              (blocks_down a newp (Z.to_nat (blocksPerPage (settings a)))) live)
      by (apply (pool_inv_intro a a1); [reflexivity | exact I1]).
    pose proof (geo_bpp a G) as Hbpp.
    destruct (Z.to_nat (blocksPerPage (settings a))) as [|k] eqn:Ek; [lia|].
    cbn [blocks_down app] in I1', I1, Hraw1.
    destruct (Allocate_pop newp file line a1 m1 _ _ _ _ I1')
      as (m2 & E2 & I2 & Fr2 & Ha2 & Hh2).
    assert (Ef : block_at a newp (Z.of_nat k) = freeList a1).
    { destruct I1' as [_ _ _ F1 _ _ _ _ _]. cbn [list_rep] in F1. now destruct F1. }
    assert (EA : Allocate newp file line a m = Allocate newp file line a1 m1).
    { unfold Allocate at 1. rewrite E0. cbn [Z.eqb]. rewrite E1.
      unfold Allocate.
      assert (Hne : freeList a1 <> 0).
      { destruct I1' as [_ _ _ F1 _ _ _ _ _]. cbn [list_rep] in F1.
        destruct F1 as (<- & H & _). exact H. }
      destruct (Z.eqb_spec (freeList a1) 0); [contradiction | reflexivity]. }
    rewrite EA, E2.
    do 4 eexists. split; [reflexivity|].
    split; [apply (pool_inv_intro a1); [reflexivity | exact I2]|].
    split; [reflexivity|].
    repeat split; try reflexivity.
    + destruct I2 as [_ _ _ _ _ B2 _ _ _].
      destruct (B2 (block_at a newp (Z.of_nat k)) (or_intror (or_introl eq_refl)))
        as (pg & Hpg & i & Hi & Hb).
      exists pg. split; [assumption|]. exists i. split; assumption.
    + exact Ha2.
    + exact Hh2.
    + intros f [].
    + intros f Hf. right. intros x Hx.
      assert (Hne : f <> block_at a newp (Z.of_nat k)).
      { intros ->. destruct I1 as [_ _ _ _ N1 _ _ _ _]. cbn [app] in N1.
        apply NoDup_cons_iff in N1. destruct N1 as [N1 _].
        apply N1, in_or_app. now left. }
      destruct (geometry_pos a G) as (Hpad & Hbs & Hla & Hia & Hhs & Hics & Hlo & Hps).
      destruct (heap_inv_apart a m1 _ _ _ _ live f (block_at a newp (Z.of_nat k)) I1)
        as [Hap | Hap]; [left; right; exact Hf | left; left; reflexivity | exact Hne | |];
        (rewrite (Fr2 x) by (cbn; unfold ptrSize in *; lia));
        apply (Hraw1 f x); [now right | exact Hx | now right | exact Hx].
    + intros x Hx1 Hx2. rewrite (Fr2 x) by exact Hx2. apply Fr1. now apply Hx1.
  - destruct free as [|f free].
    { cbn [list_rep] in F. contradiction. }
    destruct (Allocate_pop newp file line a m _ _ _ _ I) as (m2 & E2 & I2 & Fr2 & Ha2 & Hh2).
    rewrite E2. do 4 eexists. split; [reflexivity|].
    split; [apply (pool_inv_intro a); [reflexivity | exact I2]|].
    split; [reflexivity|].
    repeat split; try reflexivity.
    + apply (B f). left; left; reflexivity.
    + exact Ha2.
    + exact Hh2.
    + intros f0 [<- | Hf]; [now left | now right].
    + intros f0 Hf. left. now right.
    + intros x _ Hx. now apply Fr2.
Qed.

(** The bytes of a live block are outside the footprint of the invariant:
    the program may write them at will. *)
Lemma footprint_live_block (a : Pool) (m : mem) (pl fl : Z)
    (pages free live : list Z) (h x : Z) :
  heap_inv a m pl fl pages free live -> In h live ->
  h <= x < h + blockSize a -> ~ footprint a pages free live x.
Proof.
  intros I Hh Hx. pose proof I as [G P Sp F N B Pd L Fz].
  destruct (geometry_pos a G) as (Hpad & Hbs & Hla & Hia & Hhs & Hics & Hlo & Hps).
  destruct (B h (or_intror Hh)) as (pgh & Hpgh & Bh).
  assert (Hfree : forall b, In b free -> b <> h).
  { intros b Hb ->. exact (NoDup_app_disjoint free live h N Hb Hh). }
  unfold footprint, ptrSize.
  intros [(pg & Hpg & Hr) | [(b & Hb & Hr) | [(b & Hb & Hr) | (b & Hb & ->)]]].
  - destruct (page_link_apart a G pages pg pgh h Sp Hpg Hpgh Bh); unfold ptrSize in *; lia.
  - destruct (heap_inv_apart a m pl fl pages free live b h I (or_introl Hb)
                (or_intror Hh) (Hfree b Hb)); lia.
  - destruct (Z.eq_dec b h) as [-> | Hne]; [lia|].
    destruct (heap_inv_apart a m pl fl pages free live b h I Hb (or_intror Hh) Hne); lia.
  - destruct (Z.eq_dec b h) as [-> | Hne]; [lia|].
    destruct (heap_inv_apart a m pl fl pages free live b h I Hb
                (or_intror Hh) Hne); lia.
Qed.

Section Build.

Variable cstr : Z -> string.
Variable exceptions : bool.

(** The walk of [Free] accepts a live block. *)
Lemma Free_walk_live (fuel : nat) (b file line : Z) (a : Pool) (m : mem)
    (pl fl : Z) (pages free live : list Z) :
  heap_inv a m pl fl pages free live -> In b live ->
  (List.length pages < fuel)%nat ->
  Free_walk cstr fuel a m b file line pl = Some Valid.
Proof.
  intros [G P S F N B Pd L Fz] Hb Hfuel.
  destruct (geometry_pos a G) as (Hpad & Hbs & Hla & Hia & Hhs & Hics & Hlo & Hps).
  destruct (B b (or_intror Hb)) as (pg & Hpg & Bb).
  destruct (block_extent a G pg b Bb) as [X Y].
  destruct (pages_sep_in a pages pg S Hpg) as [Z1 Z2].
  rewrite (Free_walk_spec cstr a m b file line pages fuel pl P Hfuel).
  rewrite (first_page_sep a b pg pages S Hpg) by (unfold ptrSize in *; lia).
  f_equal. unfold Free_validate.
  destruct Bb as (i & Hi & ->).
  destruct (block_aligned a pg i G Hi Z1 Z2) as [_ ->]. cbn [Z.eqb negb].
  unfold read_header, GetDebugHeader, off_allocated. cbn [allocated].
  rewrite Z.add_0_r.
  destruct (Z.eqb_spec (m (block_at a pg i - padBytes (settings a) - headerSize a)) 0)
    as [E|_]; [apply L in Hb; contradiction|].
  cbn [negb].
  assert (Hp : pads_intact m (Z.to_nat (padBytes (settings a)))
                 (block_at a pg i - 1) (block_at a pg i + blockSize a) = true)
    by (apply pads_intact_ok; auto).
  rewrite Hp. reflexivity.
Qed.

(** The walk of [Free] rejects a block whose header is cleared. *)
Lemma Free_walk_freed (fuel : nat) (b file line : Z) (a : Pool) (m : mem)
    (pl fl : Z) (pages free live : list Z) :
  heap_inv a m pl fl pages free live -> In b free \/ In b live ->
  m (b - padBytes (settings a) - headerSize a) = 0 ->
  (List.length pages < fuel)%nat ->
  Free_walk cstr fuel a m b file line pl
  = Some (Invalid ("Attempt to free already freed memory from #" ++ dec line
                   ++ " in file " ++ cstr file ++ endl)
                  "Attempt to free already freed memory." FREED).
Proof.
  intros [G P S F N B Pd L Fz] Hb Hflag Hfuel.
  destruct (B b Hb) as (pg & Hpg & Bb).
  destruct (block_extent a G pg b Bb) as [X Y].
  destruct (geometry_pos a G) as (Hpad & Hbs & Hla & Hia & Hhs & Hics & Hlo & Hps).
  destruct (pages_sep_in a pages pg S Hpg) as [Z1 Z2].
  rewrite (Free_walk_spec cstr a m b file line pages fuel pl P Hfuel).
  rewrite (first_page_sep a b pg pages S Hpg) by (unfold ptrSize in *; lia).
  f_equal. unfold Free_validate.
  destruct Bb as (i & Hi & ->).
  destruct (block_aligned a pg i G Hi Z1 Z2) as [_ ->]. cbn [Z.eqb negb].
  unfold read_header, GetDebugHeader, off_allocated. cbn [allocated].
  rewrite Z.add_0_r, Hflag. reflexivity.
Qed.

(** [Free] of a live block succeeds and puts it on the free list. *)
Lemma Free_live (fuel : nat) (b file line : Z) (a : Pool) (m : mem)
    (pages free live1 live2 : list Z) :
  pool_inv a m pages free (live1 ++ b :: live2) ->
  (List.length pages < fuel)%nat ->
  exists m',
    Free cstr exceptions fuel b file line a m
    = Some (Returned 0,
            set_stats (set_freeList a b)
              {| freeBlocks := wrap (freeBlocks (stats a) + 1);
                 blocksInUse := wrap (blocksInUse (stats a) - 1);
                 pagesInUse := pagesInUse (stats a);
                 mostBlocksInUse := mostBlocksInUse (stats a);
                 mostPagesInUse := mostPagesInUse (stats a);
                 allocations := allocations (stats a);
                 deallocations := wrap (deallocations (stats a) + 1) |}, m')
    /\ heap_inv a m' (pageList a) b pages (b :: free) (live1 ++ live2)
    /\ (forall x, x < b - padBytes (settings a) - headerSize a
                  \/ b - padBytes (settings a) <= x < b
                  \/ b + blockSize a <= x -> m' x = m x)
    /\ (forall x, b - padBytes (settings a) - headerSize a <= x
                  < b - padBytes (settings a) -> m' x = 0)
    /\ (forall x, b + ptrSize <= x < b + blockSize a -> m' x = FREED).
Proof.
  intros I Hfuel. pose proof I as [G P S F N B Pd L Fz].
  destruct (geometry_pos a G) as (Hpad & Hbs & Hla & Hia & Hhs & Hics & Hlo & Hps).
  assert (Hb : In b (live1 ++ b :: live2)) by (apply in_elt).
  rewrite (Free_valid cstr exceptions fuel b file line a m
             (Free_walk_live fuel b file line a m _ _ pages free _ I Hb Hfuel)).
  match goal with |- exists _, Some (_, _, ?M) = _ /\ _ => set (m' := M) end.
  exists m'. split; [reflexivity|].
  assert (Fr : forall x, x < b - padBytes (settings a) - headerSize a
                  \/ b - padBytes (settings a) <= x < b
                  \/ b + blockSize a <= x -> m' x = m x).
  { intros x Hx. subst m'. unfold ptrSize in *. repeat mem_step. reflexivity. }
  destruct (B b (or_intror Hb)) as (pgb & Hpgb & Bb).
  destruct (heap_inv_block_range a m _ _ pages free _ b I (or_intror Hb)) as [R1 R2].
  assert (N' : NoDup (b :: free ++ live1 ++ live2)).
  { apply (Permutation_NoDup (l := free ++ live1 ++ b :: live2)); [|assumption].
    symmetry. rewrite !app_assoc. apply Permutation_middle. }
  assert (Hother : forall c, In c free \/ In c (live1 ++ live2) ->
            c + blockSize a + padBytes (settings a)
            <= b - padBytes (settings a) - headerSize a
            \/ b + blockSize a + padBytes (settings a)
               <= c - padBytes (settings a) - headerSize a).
  { intros c Hc.
    assert (Hne : c <> b).
    { intros ->. apply NoDup_cons_iff in N'. destruct N' as [N' _].
      apply N'. apply in_or_app. rewrite in_app_iff in *. tauto. }
    destruct (B c) as (pg & Hpg & Bc);
      [rewrite in_app_iff in *; cbn [In]; tauto|].
    apply (blocks_apart a G pages pg pgb); assumption. }
  assert (Hfl : 0 <= freeList a < 2 ^ 32).
  { destruct (list_rep_head m _ _ F) as [-> | Hin]; [lia|].
    destruct (heap_inv_block_range a m _ _ pages free _ _ I (or_introl Hin)). lia. }
  split; [|split; [exact Fr|]].
  - constructor; auto.
    + apply (list_rep_frame m); [assumption|]. intros q x Hq Hx. apply Fr.
      destruct (page_link_apart a G pages q pgb b S Hq Hpgb Bb); unfold ptrSize in *; lia.
    + cbn [list_rep]. split; [reflexivity|]. split; [lia|].
      replace (load32 m' b) with (freeList a)
        by (subst m'; symmetry; now apply load32_store32).
      apply (list_rep_frame m); [assumption|]. intros q x Hq Hx. apply Fr.
      destruct (Hother q (or_introl Hq)); lia.
    + intros c [[<- | Hc] | Hc]; [eauto | |];
        apply B; rewrite in_app_iff in *; cbn [In]; tauto.
    + intros c Hc i Hi.
      assert (Hc' : In c free \/ In c (live1 ++ b :: live2))
        by (rewrite in_app_iff in *; cbn [In] in *; tauto).
      destruct (Pd c Hc' i Hi) as [P1 P2].
      destruct (Z.eq_dec c b) as [-> | Hne].
      * rewrite !Fr by lia. auto.
      * assert (Hc2 : In c free \/ In c (live1 ++ live2))
          by (cbn [In] in *; intuition congruence).
        destruct (Hother c Hc2); rewrite !Fr by lia; auto.
    + intros c Hc. destruct (Hother c (or_intror Hc)); rewrite Fr by lia;
        apply L; rewrite in_app_iff in *; cbn [In]; tauto.
    + intros c [<- | Hc].
      * subst m'. unfold ptrSize in *. repeat mem_step. reflexivity.
      * destruct (Hother c (or_introl Hc)); rewrite Fr by lia; now apply Fz.
  - split.
    + intros x Hx. subst m'. unfold ptrSize in *. repeat mem_step. reflexivity.
    + intros x Hx. subst m'. unfold ptrSize in *. repeat mem_step. reflexivity.
Qed.

End Build.

End PoolInv.

(** ** Statistics *)

Module StatsFacts.
Import ObjectAllocator Layout MachineFacts.

Lemma wrap_add_l (x y : Z) : wrap (wrap x + y) = wrap (x + y).
Proof. unfold wrap. apply Z.add_mod_idemp_l. lia. Qed.


Lemma wrap_sub_l (x y : Z) : wrap (wrap x - y) = wrap (x - y).
Proof. unfold wrap. apply Zminus_mod_idemp_l. Qed.



Lemma wrap_wrap (x : Z) : wrap (wrap x) = wrap x.
Proof. unfold wrap. apply Z.mod_mod. lia. Qed.








End StatsFacts.

(** * The allocator's properties *)

Import ObjectAllocator Layout MachineFacts CreatePageFacts FreeFacts PoolInv StatsFacts.





(** C4.  A [Free] that fails validation (a code other than 0, or an
    exception) leaves the allocator as it was, but for the diagnostic written
    to the log: the memory (block contents and debug headers), the
    statistics, the free list and the page list are unchanged.  In
    particular, once a live block has been freed, a second [Free] of the same
    address fails with [FREED] and does not change the statistics again. *)
Theorem Free_failure_unchanged (cstr : Z -> string) (exceptions : bool) :
  (forall (fuel : nat) (del file line : Z) (a : Pool) (m : mem)
          (r : result Z) (a' : Pool) (m' : mem),
      Free cstr exceptions fuel del file line a m = Some (r, a', m') ->
      r <> Returned 0 ->
      m' = m /\ stats a' = stats a /\ freeList a' = freeList a
      /\ pageList a' = pageList a /\ dims a' = dims a
      /\ read_header m' (GetDebugHeader a del) = read_header m (GetDebugHeader a del))
  /\ (forall (fuel : nat) (b file line file2 line2 : Z) (a : Pool) (m : mem)
             (pages free live1 live2 : list Z),
      pool_inv a m pages free (live1 ++ b :: live2) ->
      (List.length pages < fuel)%nat ->
      exists a1 m1 a2,
        Free cstr exceptions fuel b file line a m = Some (Returned 0, a1, m1)
        /\ Free cstr exceptions fuel b file2 line2 a1 m1
           = Some (failure cstr exceptions "Attempt to free already freed memory."
                     file2 line2 FREED, a2, m1)
        /\ stats a2 = stats a1
        /\ blocksInUse (stats a1) = wrap (blocksInUse (stats a) - 1)).
Proof.
  split.
  - intros fuel del file line a m r a' m' E Hr. unfold Free in E.
    destruct (Free_walk cstr fuel a m del file line (pageList a)) as [[|l e c]|];
      [| |discriminate].
    + injection E as <- _ _. contradiction.
    + assert (Hl : stats (log a l) = stats a /\ freeList (log a l) = freeList a
                   /\ pageList (log a l) = pageList a /\ dims (log a l) = dims a)
        by (unfold log; destruct (logStream a); repeat split; reflexivity).
      destruct exceptions; injection E as _ <- <-; tauto.
  - intros fuel b file line file2 line2 a m pages free live1 live2 I Hfuel.
    destruct (Free_live cstr exceptions fuel b file line a m pages free live1 live2
                I Hfuel) as (m1 & E1 & I1 & Fr & Hz & _).
    pose proof I as [G _ _ _ _ _ _ _ _].
    destruct (geometry_pos a G) as (Hpad & Hbs & Hla & Hia & Hhs & Hics & Hlo & Hps).
    eexists _, m1, _. split; [exact E1|].
    match type of E1 with _ = Some (_, ?A, _) => set (a1 := A) in * end.
    assert (I1' : heap_inv a1 m1 (pageList a1) (freeList a1) pages (b :: free)
                    (live1 ++ live2))
      by (apply (heap_inv_dims a a1); [reflexivity | exact I1]).
    assert (W : Free_walk cstr fuel a1 m1 b file2 line2 (pageList a1)
                = Some (Invalid ("Attempt to free already freed memory from #"
                                 ++ dec line2 ++ " in file " ++ cstr file2 ++ endl)
                          "Attempt to free already freed memory." FREED)).
    { apply (Free_walk_freed cstr fuel b file2 line2 a1 m1 _ _ pages (b :: free)
               (live1 ++ live2) I1'); [left; left; reflexivity | | assumption].
      apply Hz. change (padBytes (settings a1)) with (padBytes (settings a)).
      change (headerSize a1) with (headerSize a). lia. }
    rewrite (Free_invalid cstr exceptions fuel b file2 line2 a1 m1 _ _ _ W).
    split; [reflexivity|]. split; [|reflexivity].
    subst a1. unfold log. cbn. destruct (logStream a); reflexivity.
Qed.

(** Freeing twice the first block allocated from a two-block pool. *)
Lemma Free_failure_unchanged_witness :
  let cs := fun _ : Z => EmptyString in
  let a0 := ObjectAllocator_ctor 8 None
              {| blocksPerPage := 2; padBytes := 2; alignment := 4 |} in
  let st := Allocate 4096 0 1 a0 (fun _ => 0) in
  exists a1 m1 a2,
    Free cs false 3 (fst (fst st)) 0 2 (snd (fst st)) (snd st)
    = Some (Returned 0, a1, m1)
    /\ Free cs false 3 (fst (fst st)) 0 3 a1 m1 = Some (Returned FREED, a2, m1)
    /\ stats a2 = stats a1.
Proof.
  intros cs a0 st.
  assert (G : geometry a0) by (apply ctor_geometry; cbn; lia).
  destruct (Allocate_inv 4096 0 1 a0 (fun _ => 0) [] [] []
              (ctor_inv 8 None {| blocksPerPage := 2; padBytes := 2; alignment := 4 |}
                 (fun _ => 0) G))
    as (p & a1 & m1 & free' & E & I & _).
  { intros _. cbn. repeat split; try lia; intros q []. }
  subst st. rewrite E. cbn [fst snd].
  change (freeList a0 =? 0) with true in I. cbv iota in I.
  destruct (proj2 (Free_failure_unchanged cs false) 3%nat p 0 2 0 3 a1 m1
              [4096] free' [] [] I) as (a2 & m2 & a3 & E1 & E2 & Hs & _).
  - cbn. lia.
  - exists a2, m2, a3. auto.
Defined.

(** C2, as stated, fails on a new allocator: the round trip leaves
    [freeBlocks] at 1024, not at its prior value 0. *)
Lemma roundtrip_freeBlocks_counterexample :
  let cs := fun _ : Z => EmptyString in
  let a0 := ObjectAllocator_ctor 8 None default_settings in
  let st := Allocate 4096 0 1 a0 (fun _ => 0) in
  match Free cs false 3 (fst (fst st)) 0 2 (snd (fst st)) (snd st) with
  | Some (r, a2, _) =>
    r = Returned 0 /\ freeBlocks (stats a0) = 0 /\ freeBlocks (stats a2) = 1024
    /\ freeBlocks (stats a2) <> freeBlocks (stats a0)
  | None => False
  end.
Proof. vm_compute. repeat split; discriminate. Qed.

(** C2, amended.  For every well-formed state of an allocator and all call
    sites, [addr = Allocate(file, line); Free(addr, file2, line2)] returns 0
    and restores [blocksInUse]; [freeBlocks] is restored when the free list
    was not empty, and ends [blocksPerPage] above its prior value when
    [Allocate] had to create a page.  For a new default allocator of 8-byte
    elements: [allocations = deallocations = 1], [blocksInUse = 0],
    [freeBlocks = 1024], and the address is 0 mod 4 when the page is. *)
Theorem Allocate_Free_roundtrip (cstr : Z -> string) (exceptions : bool) :
  (forall (fuel : nat) (newp file line file2 line2 : Z) (a : Pool) (m : mem)
          (pages free live : list Z),
      pool_inv a m pages free live ->
      0 <= blocksInUse (stats a) < 2 ^ 32 ->
      0 <= freeBlocks (stats a) < 2 ^ 32 ->
      (freeList a = 0 ->
       0 < newp /\ newp + pageSize a <= 2 ^ 32
       /\ forall q, In q pages -> q + pageSize a <= newp \/ newp + pageSize a <= q) ->
      (S (List.length pages) < fuel)%nat ->
      exists p a1 m1 a2 m2,
        Allocate newp file line a m = (p, a1, m1)
        /\ Free cstr exceptions fuel p file2 line2 a1 m1 = Some (Returned 0, a2, m2)
        /\ blocksInUse (stats a2) = blocksInUse (stats a)
        /\ freeBlocks (stats a2)
           = (if freeList a =? 0
              then wrap (freeBlocks (stats a) + blocksPerPage (settings a))
              else freeBlocks (stats a))
        /\ allocations (stats a2) = wrap (allocations (stats a) + 1)
        /\ deallocations (stats a2) = wrap (deallocations (stats a) + 1))
  /\ (forall (fuel : nat) (newp file line file2 line2 : Z) (l : option string) (m : mem),
      0 < newp -> newp + 24582 <= 2 ^ 32 -> newp mod 4 = 0 ->
      (1 < fuel)%nat ->
      exists p a1 m1 a2 m2,
        Allocate newp file line (ObjectAllocator_ctor 8 l default_settings) m
        = (p, a1, m1)
        /\ Free cstr exceptions fuel p file2 line2 a1 m1 = Some (Returned 0, a2, m2)
        /\ p mod 4 = 0
        /\ allocations (stats a2) = 1 /\ deallocations (stats a2) = 1
        /\ blocksInUse (stats a2) = 0 /\ freeBlocks (stats a2) = 1024).
Proof.
  assert (General : forall (fuel : nat) (newp file line file2 line2 : Z) (a : Pool)
            (m : mem) (pages free live : list Z),
      pool_inv a m pages free live ->
      0 <= blocksInUse (stats a) < 2 ^ 32 ->
      0 <= freeBlocks (stats a) < 2 ^ 32 ->
      (freeList a = 0 ->
       0 < newp /\ newp + pageSize a <= 2 ^ 32
       /\ forall q, In q pages -> q + pageSize a <= newp \/ newp + pageSize a <= q) ->
      (S (List.length pages) < fuel)%nat ->
      exists p a1 m1 a2 m2,
        Allocate newp file line a m = (p, a1, m1)
        /\ Free cstr exceptions fuel p file2 line2 a1 m1 = Some (Returned 0, a2, m2)
        /\ blocksInUse (stats a2) = blocksInUse (stats a)
        /\ freeBlocks (stats a2)
           = (if freeList a =? 0
              then wrap (freeBlocks (stats a) + blocksPerPage (settings a))
              else freeBlocks (stats a))
        /\ allocations (stats a2) = wrap (allocations (stats a) + 1)
        /\ deallocations (stats a2) = wrap (deallocations (stats a) + 1)
        /\ exists pg, In pg (if freeList a =? 0 then newp :: pages else pages)
                      /\ is_block a pg p).
  { intros fuel newp file line file2 line2 a m pages free live I Hb Hf Hfresh Hfuel.
    destruct (Allocate_inv newp file line a m pages free live I Hfresh)
      as (p & a1 & m1 & free' & E & I1 & Hd & Hbiu & Hfb & Hal & Hde & Hblk & _).
    destruct (Free_live cstr exceptions fuel p file2 line2 a1 m1 _ free' [] live I1)
      as (m2 & E2 & _).
    { destruct (freeList a =? 0); cbn [List.length]; lia. }
    exists p, a1, m1. do 2 eexists. split; [exact E|]. split; [exact E2|].
    cbn [stats set_stats set_freeList blocksInUse freeBlocks allocations deallocations].
    rewrite Hbiu, Hfb, Hal, Hde.
    repeat split; try exact Hblk.
    - rewrite wrap_sub_l. replace (blocksInUse (stats a) + 1 - 1)
        with (blocksInUse (stats a)) by lia. now apply wrap_small.
    - destruct (freeList a =? 0).
      + rewrite wrap_add_l.
        replace (wrap (freeBlocks (stats a) + blocksPerPage (settings a)) - 1 + 1)
          with (wrap (freeBlocks (stats a) + blocksPerPage (settings a))) by lia.
        apply wrap_wrap.
      + rewrite wrap_add_l. replace (freeBlocks (stats a) - 1 + 1)
          with (freeBlocks (stats a)) by lia. now apply wrap_small. }
  split.
  - intros fuel newp file line file2 line2 a m pages free live I Hb Hf Hfresh Hfuel.
    destruct (General fuel newp file line file2 line2 a m pages free live
                I Hb Hf Hfresh Hfuel)
      as (p & a1 & m1 & a2 & m2 & H1 & H2 & H3 & H4 & H5 & H6 & _).
    exists p, a1, m1, a2, m2. auto 10.
  - intros fuel newp file line file2 line2 l m Hn0 Hn1 Hn4 Hfuel.
    assert (G : geometry (ObjectAllocator_ctor 8 l default_settings))
      by (apply ctor_geometry; cbn; lia).
    destruct (General fuel newp file line file2 line2 _ m [] [] []
                (ctor_inv 8 l default_settings m G))
      as (p & a1 & m1 & a2 & m2 & H1 & H2 & H3 & H4 & H5 & H6 & pg & Hpg & i & Hi & Hp).
    + cbn. lia.
    + cbn. lia.
    + intros _. cbn. repeat split; try lia; intros q [].
    + cbn [List.length]. lia.
    + exists p, a1, m1, a2, m2. split; [exact H1|]. split; [exact H2|].
      cbn in H3, H4, H5, H6, Hpg, Hp. destruct Hpg as [<- | []].
      repeat split; try assumption.
      subst p. unfold block_at, left_offset in *. cbn.
      rewrite Z.add_mod, (Z.add_mod newp), Hn4 by lia.
      replace (i * 24) with ((i * 6) * 4) by lia.
      rewrite Z.mod_mul by lia. reflexivity.
Qed.

(** The round trip on a new default allocator. *)
Lemma Allocate_Free_roundtrip_witness :
  let cs := fun _ : Z => EmptyString in
  exists p a1 m1 a2 m2,
    Allocate 4096 0 1 (ObjectAllocator_ctor 8 None default_settings) (fun _ => 0)
    = (p, a1, m1)
    /\ Free cs false 3 p 0 2 a1 m1 = Some (Returned 0, a2, m2)
    /\ blocksInUse (stats a2) = 0 /\ freeBlocks (stats a2) = 1024.
Proof.
  intros cs.
  assert (G : geometry (ObjectAllocator_ctor 8 None default_settings))
    by (apply ctor_geometry; cbn; lia).
  destruct (proj1 (Allocate_Free_roundtrip cs false) 3%nat 4096 0 1 0 2
              (ObjectAllocator_ctor 8 None default_settings) (fun _ => 0) [] [] []
              (ctor_inv 8 None default_settings (fun _ => 0) G))
    as (p & a1 & m1 & a2 & m2 & H1 & H2 & H3 & H4 & _).
  - cbn. lia.
  - cbn. lia.
  - intros _. cbn. repeat split; try lia; intros q [].
  - cbn [List.length]. lia.
  - exists p, a1, m1, a2, m2. repeat split; assumption.
Defined.

(** C5, as stated, fails: after [CreatePage] the first word of a block holds
    the free-list link, not [UNALLOCATED].  On a new default allocator the
    first byte of the first block of the page is 0. *)
Lemma CreatePage_block_bytes_counterexample :
  let a := ObjectAllocator_ctor 8 None default_settings in
  let m' := snd (CreatePage 4096 a (fun _ => UNALLOCATED)) in
  ~ (forall i x, 0 <= i < blocksPerPage (settings a) ->
       block_at a 4096 i <= x < block_at a 4096 i + blockSize a ->
       m' x = UNALLOCATED).
Proof.
  intros a m' H. specialize (H 0 (block_at a 4096 0)).
  assert (E : m' (block_at a 4096 0) = 0) by (vm_compute; reflexivity).
  rewrite E in H. cbn in H.
  assert (0 = UNALLOCATED) by (apply H; lia). discriminate.
Qed.

(** C5, amended.  After [CreatePage] the bytes of the new page are: the
    page-list link word, [leftAlign] bytes of [ALIGN], then [blocksPerPage]
    chunks, in which every header is zeroed, every pad byte is [PAD], the
    first word of every block holds the free-list link (block [i] links to
    block [i - 1], the first block to the previous head of the free list) and
    every other block byte is [UNALLOCATED], and every inter-chunk alignment
    byte is [ALIGN]; the last chunk has no inter-chunk filler (it ends with
    the page, and nothing outside the page is written).  All blocks are on
    the free list; [freeBlocks] grows by [blocksPerPage] and [pagesInUse]
    by 1. *)
Theorem CreatePage_layout (newp : Z) (a : Pool) (m : mem) :
  geometry a ->
  let a' := fst (CreatePage newp a m) in
  let m' := snd (CreatePage newp a m) in
  let n := blocksPerPage (settings a) in
  pageList a' = newp
  /\ (forall j, 0 <= j < ptrSize -> m' (newp + j) = byte_of (pageList a) j)
  /\ (forall x, newp + ptrSize <= x < newp + ptrSize + leftAlign a -> m' x = ALIGN)
  /\ (forall i, 0 <= i < n ->
        header_laid a m' (block_at a newp i)
        /\ block_laid a m' (block_at a newp i)
             (if i =? 0 then freeList a else block_at a newp (i - 1))
        /\ (i < n - 1 ->
            forall x, block_at a newp i + blockSize a + padBytes (settings a) <= x
                      < block_at a newp i + blockSize a + padBytes (settings a)
                        + interAlign a ->
                      m' x = ALIGN))
  /\ block_at a newp (n - 1) + blockSize a + padBytes (settings a)
     = newp + pageSize a
  /\ (forall x, x < newp \/ newp + pageSize a <= x -> m' x = m x)
  /\ freeList a' = block_at a newp (n - 1)
  /\ freeBlocks (stats a') = wrap (freeBlocks (stats a) + n)
  /\ pagesInUse (stats a') = wrap (pagesInUse (stats a) + 1).
Proof.
  intros G a' m' n.
  destruct (CreatePage_spec newp a m G) as (m1 & E & H1 & H2 & H3 & H4).
  subst a' m'. rewrite E. cbn [fst snd].
  repeat split; try assumption; try reflexivity; try (now apply H3).
  now apply block_at_last.
Qed.

(** The page a two-block allocator of 8-byte elements creates. *)
Lemma CreatePage_layout_witness :
  let a := ObjectAllocator_ctor 8 None
             {| blocksPerPage := 2; padBytes := 2; alignment := 4 |} in
  let a' := fst (CreatePage 4096 a (fun _ => 0)) in
  let m' := snd (CreatePage 4096 a (fun _ => 0)) in
  geometry a
  /\ freeList a' = 4140 /\ freeBlocks (stats a') = 2
  /\ block_laid a m' 4116 0 /\ block_laid a m' 4140 4116.
Proof.
  intros a a' m'.
  assert (G : geometry a) by (apply ctor_geometry; cbn; lia).
  destruct (CreatePage_layout 4096 a (fun _ => 0) G)
    as (_ & _ & _ & H & _ & _ & Hf & Hb & _).
  split; [exact G|]. split; [exact Hf|]. split; [exact Hb|].
  split; [exact (proj1 (proj2 (H 0 ltac:(cbn; lia)))) |
          exact (proj1 (proj2 (H 1 ltac:(cbn; lia))))].
Defined.

(** ** DumpMemoryInUse *)

Module DumpFacts.
Import ObjectAllocator Layout.

Lemma append_assoc (s1 s2 s3 : string) :
  ((s1 ++ s2) ++ s3 = s1 ++ (s2 ++ s3))%string.
Proof. induction s1 as [|c s1 IH]; cbn; [reflexivity | now rewrite IH]. Qed.

Lemma append_nil_r (s : string) : (s ++ EmptyString)%string = s.
Proof. induction s as [|c s IH]; cbn; [reflexivity | now rewrite IH]. Qed.

Section Build.

Variable cstr : Z -> string.

Lemma Dump_blocks_spec (a : Pool) (m : mem) (n : nat) : forall (p : Z) (out : string),
  Dump_blocks cstr a m n p out = (out ++ page_entries cstr a m n p)%string.
Proof.
  induction n as [|n IH]; intros p out; cbn [Dump_blocks page_entries].
  - now rewrite append_nil_r.
  - rewrite IH. destruct (allocated (read_header m (GetDebugHeader a p))).
    + unfold dump_entry. now rewrite !append_assoc.
    + reflexivity.
Qed.

(** [DumpMemoryInUse] ends on a well-formed page list and appends to the
    stream the entries of the blocks in use, and nothing else. *)
Lemma DumpMemoryInUse_spec (a : Pool) (m : mem) (pages : list Z) (fuel : nat)
    (out : string) :
  list_rep m (pageList a) pages -> (List.length pages < fuel)%nat ->
  DumpMemoryInUse cstr fuel a m out
  = Some (out ++ pages_entries cstr a m pages)%string.
Proof.
  unfold DumpMemoryInUse. generalize (pageList a) as p. revert fuel out.
  induction pages as [|pg l IH]; intros fuel out p R Hf;
    cbn [list_rep List.length pages_entries] in *.
  - subst p. destruct fuel; [lia|]. cbn. now rewrite append_nil_r.
  - destruct R as (-> & Hpg & R). destruct fuel as [|fuel]; [lia|].
    cbn [Dump_pages]. destruct (Z.eqb_spec pg 0); [contradiction|].
    rewrite Dump_blocks_spec, (IH fuel _ _ R) by lia.
    now rewrite append_assoc.
Qed.

End Build.

End DumpFacts.

(** C10.  [DumpMemoryInUse] writes one entry
    [{blockSize}b allocated at line #{line} in file {file}] for each block
    whose header has [allocated = true], but ends none of them with a
    newline: with two blocks in use the two entries run together on one
    line. *)
Theorem DumpMemoryInUse_no_newline :
  let cs := fun p : Z =>
              if p =? 100 then "a.cpp"%string
              else if p =? 200 then "b.cpp"%string else EmptyString in
  let a0 := ObjectAllocator_ctor 8 None
              {| blocksPerPage := 2; padBytes := 2; alignment := 4 |} in
  let st1 := Allocate 4096 100 10 a0 (fun _ => 0) in
  let st2 := Allocate 4096 200 20 (snd (fst st1)) (snd st1) in
  DumpMemoryInUse cs 3 (snd (fst st2)) (snd st2) EmptyString
  = Some "8b allocated at line #20 in file b.cpp8b allocated at line #10 in file a.cpp"%string.
Proof. vm_compute. reflexivity. Qed.

(** * The handle layer's properties *)

Import Handle Pointer HandleLayout.


Module HandleFacts.

Lemma dims_log (a : Pool) (s : string) :
  dims (log a s) = dims a /\ pageList (log a s) = pageList a
  /\ freeList (log a s) = freeList a /\ stats (log a s) = stats a.
Proof. unfold log. destruct (logStream a); repeat split; reflexivity. Qed.


(** A write inside a live block keeps the invariant of the allocator. *)
Lemma pool_inv_live_write (a : Pool) (m m' : mem) (pages free live : list Z) (h : Z) :
  pool_inv a m pages free live -> In h live ->
  (forall x, x < h \/ h + blockSize a <= x -> m' x = m x) ->
  pool_inv a m' pages free live.
Proof.
  intros I Hh Fr. apply (heap_inv_frame a m); [exact I|].
  intros x Hx. apply Fr.
  destruct (Z_lt_le_dec x h); [now left|].
  destruct (Z_lt_le_dec x (h + blockSize a)); [|now right].
  exfalso. exact (footprint_live_block a m _ _ pages free live h x I Hh ltac:(lia) Hx).
Qed.

Lemma signed_wrap (x : Z) : signed (wrap x) = signed x.
Proof. unfold signed. now rewrite wrap_wrap. Qed.

Lemma Free_writes_dims (u u' : Pool) (s x : Z) :
  dims u' = dims u -> Free_writes u' s x <-> Free_writes u s x.
Proof.
  unfold dims. intros E. injection E as E1 E2 E3 E4 E5 E6 E7 E8.
  unfold Free_writes. now rewrite E1, E2, E3.
Qed.

(** The footprint of an allocator lies in its pages. *)
Lemma footprint_in_pages (a : Pool) (m : mem) (pl fl : Z)
    (pages free live : list Z) (x : Z) :
  heap_inv a m pl fl pages free live -> footprint a pages free live x ->
  exists pg, In pg pages /\ pg <= x < pg + pageSize a.
Proof.
  intros I Hx. pose proof I as [G P Sp F N B Pd L Fz].
  destruct (geometry_pos a G) as (Hpad & Hbs & Hla & Hia & Hhs & Hics & Hlo & Hps).
  assert (Hblk : forall b, In b free \/ In b live ->
            b - padBytes (settings a) - headerSize a <= x
            < b + blockSize a + padBytes (settings a) ->
            exists pg, In pg pages /\ pg <= x < pg + pageSize a).
  { intros b Hb Hr. destruct (B b Hb) as (pg & Hpg & Bb).
    destruct (block_extent a G pg b Bb). exists pg. unfold ptrSize in *.
    split; [assumption | lia]. }
  unfold footprint, ptrSize in Hx.
  destruct Hx as [(pg & Hpg & Hr) | [(b & Hb & Hr) | [(b & Hb & Hr) | (b & Hb & ->)]]].
  - exists pg. split; [assumption | lia].
  - apply (Hblk b); [now left | lia].
  - apply (Hblk b); [assumption | lia].
  - apply (Hblk b); [assumption | lia].
Qed.

(** The bytes of a free block after its link word are outside the footprint
    of the invariant. *)
Lemma footprint_free_block (a : Pool) (m : mem) (pl fl : Z)
    (pages free live : list Z) (h x : Z) :
  heap_inv a m pl fl pages free live -> In h free ->
  h + ptrSize <= x < h + blockSize a -> ~ footprint a pages free live x.
Proof.
  intros I Hh Hx. pose proof I as [G P Sp F N B Pd L Fz].
  destruct (geometry_pos a G) as (Hpad & Hbs & Hla & Hia & Hhs & Hics & Hlo & Hps).
  destruct (B h (or_introl Hh)) as (pgh & Hpgh & Bh).
  unfold footprint, ptrSize in *.
  intros [(pg & Hpg & Hr) | [(b & Hb & Hr) | [(b & Hb & Hr) | (b & Hb & ->)]]].
  - destruct (page_link_apart a G pages pg pgh h Sp Hpg Hpgh Bh); unfold ptrSize in *; lia.
  - destruct (Z.eq_dec b h) as [-> | Hne]; [lia|].
    destruct (heap_inv_apart a m pl fl pages free live b h I (or_introl Hb)
                (or_introl Hh) Hne); lia.
  - destruct (Z.eq_dec b h) as [-> | Hne]; [lia|].
    destruct (heap_inv_apart a m pl fl pages free live b h I Hb (or_introl Hh) Hne); lia.
  - destruct (Z.eq_dec b h) as [-> | Hne]; [lia|].
    destruct (heap_inv_apart a m pl fl pages free live b h I Hb (or_introl Hh) Hne); lia.
Qed.

Section Core.

Variable Null : Z.
Variable user : Z -> Prop.

(** A block of the handle allocator lies in one of its pages, away from the
    null handle. *)
Lemma hcore_block (w : World) (pages free live : list Z) (h : Z) :
  hcore Null user w pages free live -> In h free \/ In h live ->
  exists pg, In pg pages
    /\ pg + ptrSize <= h - padBytes (settings (HandleAllocator w))
                         - headerSize (HandleAllocator w)
    /\ h + blockSize (HandleAllocator w) + padBytes (settings (HandleAllocator w))
       <= pg + pageSize (HandleAllocator w)
    /\ (Null + sizeof_Handle <= pg \/ pg + pageSize (HandleAllocator w) <= Null).
Proof.
  intros [I Hbs Hpg Hn Hns Hl Hf Ha] Hh. pose proof I as [G P Sp F N B Pd L Fz].
  destruct (geometry_pos _ G) as (Hpad & Hbs' & Hla & Hia & Hhs & Hics & Hlo & Hps).
  destruct (B h Hh) as (pg & Hin & Bh).
  destruct (block_extent _ G pg h Bh) as [X Y].
  exists pg. split; [assumption|]. unfold ptrSize, sizeof_Handle in *.
  split; [lia|]. split; [lia|].
  destruct (Z_le_gt_dec (Null + 12) pg); [now left|].
  destruct (Z_le_gt_dec (pg + pageSize (HandleAllocator w)) Null); [now right|].
  exfalso.
  destruct (Z_le_gt_dec pg Null).
  - apply (proj2 (Hpg pg Null Hin ltac:(lia))). lia.
  - apply (proj2 (Hpg pg pg Hin ltac:(lia))). lia.
Qed.

(** [hcore] only reads the footprint of the handle allocator, its sizes and
    list heads, which addresses are allocators, and the storage and
    allocator members of the handles; a handle whose storage is nulled stays
    in order. *)
Lemma hcore_frame_gen (w w' : World) (pages free live : list Z) :
  hcore Null user w pages free live ->
  dims (HandleAllocator w') = dims (HandleAllocator w) ->
  pageList (HandleAllocator w') = pageList (HandleAllocator w) ->
  freeList (HandleAllocator w') = freeList (HandleAllocator w) ->
  (forall k, allocators w k = None -> allocators w' k = None) ->
  (forall k u, allocators w k = Some u ->
     exists u', allocators w' k = Some u' /\ dims u' = dims u) ->
  (forall x, footprint (HandleAllocator w) pages free live x ->
     heap w' x = heap w x) ->
  (forall x, Null <= x < Null + off_refCount -> heap w' x = heap w x) ->
  (forall f x, In f free -> f <= x < f + off_refCount -> heap w' x = heap w x) ->
  (forall h, In h live ->
     (forall x, h <= x < h + off_refCount -> heap w' x = heap w x)
     \/ storage_of w' h = 0) ->
  hcore Null user w' pages free live.
Proof.
  intros [I Hbs Hpg Hn Hns Hl Hf Ha] Ed Ep Efl An As F1 F2 F3 F4.
  assert (Ed' := Ed). unfold dims in Ed'. injection Ed' as E1 E2 E3 E4 E5 E6 E7 E8.
  assert (Hfield : forall h, (forall x, h <= x < h + off_refCount ->
                                heap w' x = heap w x) ->
            storage_of w' h = storage_of w h /\ allocator_of w' h = allocator_of w h).
  { intros h Hh. unfold storage_of, allocator_of, off_memory, off_allocator.
    split; apply load32_ext; intros x Hx; apply Hh; unfold off_refCount; lia. }
  constructor.
  - apply (pool_inv_intro (HandleAllocator w)); [exact Ed|]. rewrite Ep, Efl.
    apply (heap_inv_frame _ (heap w)); [exact I | exact F1].
  - now rewrite E3.
  - intros pg x Hin Hx. rewrite E4 in Hx. now apply (Hpg pg).
  - exact Hn.
  - transitivity (storage_of w Null); [|exact Hns]. now apply Hfield.
  - intros h Hh. destruct (F4 h Hh) as [Hsame | H0]; [|now left].
    destruct (Hfield h Hsame) as [Es Ea].
    destruct (Hl h Hh) as [H0 | (u & Hu & Hw)]; [left; congruence|].
    right. destruct (As _ u Hu) as (u' & Hu' & Hd).
    exists u'. unfold user_safe. rewrite Ea, Es. split; [assumption|].
    intros x Hx. apply Hw. now apply (Free_writes_dims u u').
  - intros f Hf'. destruct (Hfield f (fun x => F3 f x Hf')) as [Es Ea].
    rewrite Ea. apply An. now apply Hf.
  - intros k Hk. apply Ha. intros Hnone. apply Hk. now apply An.
Qed.

Lemma hcore_frame (w w' : World) (pages free live : list Z) :
  hcore Null user w pages free live ->
  dims (HandleAllocator w') = dims (HandleAllocator w) ->
  pageList (HandleAllocator w') = pageList (HandleAllocator w) ->
  freeList (HandleAllocator w') = freeList (HandleAllocator w) ->
  (forall k, allocators w k = None -> allocators w' k = None) ->
  (forall k u, allocators w k = Some u ->
     exists u', allocators w' k = Some u' /\ dims u' = dims u) ->
  (forall x, hfootprint Null w pages free live x -> heap w' x = heap w x) ->
  hcore Null user w' pages free live.
Proof.
  intros C Ed Ep Efl An As Fr.
  apply (hcore_frame_gen w w'); try assumption.
  - intros x Hx. apply Fr. now left.
  - intros x Hx. apply Fr. now right; right.
  - intros f x Hf Hx. apply Fr. right; left. exists f. tauto.
  - intros h Hh. left. intros x Hx. apply Fr. right; left. exists h. tauto.
Qed.

(** Writing the [refCount] member of the null handle or of a block of the
    handle allocator keeps [hcore], and leaves the other counts alone. *)
Lemma write_refCount (w : World) (pages free live : list Z) (h v : Z) :
  hcore Null user w pages free live ->
  h = Null \/ In h free \/ In h live ->
  let w' := set_heap w (store32 (heap w) (h + off_refCount) v) in
  hcore Null user w' pages free live
  /\ refCount_of w' h = signed v
  /\ (forall h', h' <> h -> h' = Null \/ In h' free \/ In h' live ->
       refCount_of w' h' = refCount_of w h').
Proof.
  intros C Hh w'. pose proof C as [I Hbs Hpg Hn Hns Hl Hf Ha].
  pose proof I as [G P Sp F N B Pd L Fz].
  destruct (geometry_pos _ G) as (Hpad & Hbs' & Hla & Hia & Hhs & Hics & Hlo & Hps).
  unfold sizeof_Handle, off_refCount, ptrSize in *.
  assert (Hloc : forall k, k = Null \/ In k free \/ In k live ->
            k = Null
            \/ exists pg, In pg pages
                 /\ pg + 4 <= k - padBytes (settings (HandleAllocator w))
                                - headerSize (HandleAllocator w)
                 /\ k + blockSize (HandleAllocator w)
                       + padBytes (settings (HandleAllocator w))
                    <= pg + pageSize (HandleAllocator w)
                 /\ (Null + 12 <= pg \/ pg + pageSize (HandleAllocator w) <= Null)).
  { intros k [-> | Hk]; [now left | right].
    exact (hcore_block w pages free live k C Hk). }
  assert (Hapart : forall k, k <> h -> k = Null \/ In k free \/ In k live ->
            k + 12 <= h \/ h + 12 <= k).
  { intros k Hne Hk.
    destruct (Hloc k Hk) as [-> | (pgk & _ & K1 & K2 & K3)];
      destruct (Hloc h Hh) as [-> | (pgh & _ & H1 & H2 & H3)]; try lia.
    destruct Hk as [-> | Hk]; [lia|]. destruct Hh as [-> | Hh]; [lia|].
    destruct (heap_inv_apart _ _ _ _ pages free live k h I Hk Hh Hne); lia. }
  split; [|split].
  - apply (hcore_frame w w'); try reflexivity; try exact C.
    + intros k E. exact E.
    + intros k u E. exists u. split; [exact E | reflexivity].
    + intros x Hx. subst w'. cbn [heap set_heap]. apply store32_out.
      destruct (Z_lt_le_dec x (h + 8)); [now left|].
      destruct (Z_le_gt_dec (h + 8 + 4) x); [now right|]. exfalso.
      destruct Hx as [Hx | [(k & Hk & Hr) | Hr]]; unfold off_refCount in *.
      * destruct Hh as [-> | [Hh | Hh]].
        -- destruct (footprint_in_pages _ _ _ _ pages free live x I Hx)
             as (pg & Hin & Hr).
           apply (proj2 (Hpg pg x Hin Hr)). lia.
        -- apply (footprint_free_block _ _ _ _ pages free live h x I Hh);
             [unfold ptrSize; lia | exact Hx].
        -- apply (footprint_live_block _ _ _ _ pages free live h x I Hh);
             [lia | exact Hx].
      * destruct (Z.eq_dec k h) as [-> | Hne]; [lia|].
        destruct (Hapart k Hne (or_intror Hk)); lia.
      * destruct (Z.eq_dec Null h) as [<- | Hne]; [lia|].
        destruct (Hapart Null Hne (or_introl eq_refl)); lia.
  - unfold refCount_of, off_refCount. subst w'. cbn [heap set_heap].
    rewrite load32_store32_wrap. apply signed_wrap.
  - intros k Hne Hk. unfold refCount_of, off_refCount. subst w'. cbn [heap set_heap].
    f_equal. apply load32_store32_other. destruct (Hapart k Hne Hk); lia.
Qed.

(** The bytes of the null handle and of the other blocks are clear of the
    extent of a block of the handle allocator. *)
Lemma hcore_apart (w : World) (pages free live : list Z) (k h : Z) :
  hcore Null user w pages free live ->
  k = Null \/ In k free \/ In k live -> In h free \/ In h live -> k <> h ->
  k + sizeof_Handle <= h - padBytes (settings (HandleAllocator w))
                         - headerSize (HandleAllocator w)
  \/ h + blockSize (HandleAllocator w) + padBytes (settings (HandleAllocator w)) <= k.
Proof.
  intros C Hk Hh Hne. pose proof C as [I Hbs Hpg Hn Hns Hl Hf Ha].
  pose proof I as [G P Sp F N B Pd L Fz].
  destruct (geometry_pos _ G) as (Hpad & Hbs' & Hla & Hia & Hhs & Hics & Hlo & Hps).
  destruct (hcore_block w pages free live h C Hh) as (pgh & _ & H1 & H2 & H3).
  unfold sizeof_Handle, ptrSize in *.
  destruct Hk as [-> | Hk]; [lia|].
  destruct (heap_inv_apart _ _ _ _ pages free live k h I Hk Hh Hne); lia.
Qed.

(** The handles and the footprint of the handle allocator are no user
    memory. *)
Lemma handle_not_user (w : World) (pages free live : list Z) (k x : Z) :
  hcore Null user w pages free live ->
  k = Null \/ In k free \/ In k live ->
  k <= x < k + sizeof_Handle -> ~ user x.
Proof.
  intros C Hk Hx. pose proof C as [I Hbs Hpg Hn Hns Hl Hf Ha].
  pose proof I as [G P Sp F N B Pd L Fz].
  destruct (geometry_pos _ G) as (Hpad & Hbs' & Hla & Hia & Hhs & Hics & Hlo & Hps).
  destruct Hk as [-> | Hk]; [now apply Hn|].
  destruct (hcore_block w pages free live k C Hk) as (pg & Hin & H1 & H2 & H3).
  unfold sizeof_Handle, ptrSize in *.
  apply (proj1 (Hpg pg x Hin ltac:(lia))).
Qed.

Lemma footprint_not_user (w : World) (pages free live : list Z) (x : Z) :
  hcore Null user w pages free live ->
  footprint (HandleAllocator w) pages free live x -> ~ user x.
Proof.
  intros C Hx. pose proof C as [I Hbs Hpg Hn Hns Hl Hf Ha].
  destruct (footprint_in_pages _ _ _ _ pages free live x I Hx) as (pg & Hin & Hr).
  exact (proj1 (Hpg pg x Hin Hr)).
Qed.

(** Nulling the storage of a handle. *)
Lemma null_storage (w : World) (pages free live : list Z) (h : Z) :
  hcore Null user w pages free live -> In h live ->
  let w' := set_heap w (store32 (heap w) (h + off_memory) 0) in
  hcore Null user w' pages free live
  /\ (forall k, k = Null \/ In k free \/ In k live ->
       refCount_of w' k = refCount_of w k).
Proof.
  intros C Hh w'. pose proof C as [I Hbs Hpg Hn Hns Hl Hf Ha].
  pose proof I as [G P Sp F N B Pd L Fz].
  destruct (geometry_pos _ G) as (Hpad & Hbs' & Hla & Hia & Hhs & Hics & Hlo & Hps).
  unfold sizeof_Handle, off_refCount, off_memory, ptrSize in *.
  assert (Hout : forall k x, k <> h -> k = Null \/ In k free \/ In k live ->
            k <= x < k + 12 -> heap w' x = heap w x).
  { intros k x Hne Hk Hx. subst w'. cbn [heap set_heap]. apply store32_out.
    destruct (hcore_apart w pages free live k h C Hk (or_intror Hh) Hne);
      unfold sizeof_Handle in *; lia. }
  split.
  - apply (hcore_frame_gen w w'); try reflexivity; try exact C.
    + intros k E. exact E.
    + intros k u E. exists u. split; [exact E | reflexivity].
    + intros x Hx. subst w'. cbn [heap set_heap]. apply store32_out.
      destruct (Z_lt_le_dec x (h + 0)); [now left|].
      destruct (Z_le_gt_dec (h + 0 + 4) x); [now right|]. exfalso.
      apply (footprint_live_block _ _ _ _ pages free live h x I Hh); [lia | exact Hx].
    + intros x Hx. unfold off_refCount in Hx. apply (Hout Null); [|now left|lia].
      intros E. destruct (hcore_block w pages free live h C (or_intror Hh))
        as (pg & _ & H1 & H2 & H3). unfold sizeof_Handle, ptrSize in *. lia.
    + intros f x Hf' Hx. unfold off_refCount in Hx.
      apply (Hout f); [|now right; left|lia].
      intros ->. exact (NoDup_app_disjoint free live h N Hf' Hh).
    + intros k Hk. destruct (Z.eq_dec k h) as [-> | Hne].
      * right. unfold storage_of, off_memory. subst w'. cbn [heap set_heap].
        now rewrite load32_store32_wrap.
      * left. intros x Hx. unfold off_refCount in Hx.
        apply (Hout k); [assumption | now right; right | lia].
  - intros k Hk. unfold refCount_of, off_refCount. f_equal.
    apply load32_ext. intros x Hx. destruct (Z.eq_dec k h) as [-> | Hne].
    + subst w'. cbn [heap set_heap]. apply store32_out. lia.
    + apply (Hout k); [assumption | assumption | lia].
Qed.

End Core.

(** What [Free] of an allocator writes. *)
Lemma Free_frame (cstr : Z -> string) (exceptions : bool) (fuel : nat)
    (del file line : Z) (u : Pool) (m : mem) (r : result Z) (u' : Pool) (m' : mem) :
  ObjectAllocator.Free cstr exceptions fuel del file line u m = Some (r, u', m') ->
  dims u' = dims u /\ forall x, ~ Free_writes u del x -> m' x = m x.
Proof.
  intros E. unfold ObjectAllocator.Free in E.
  destruct (Free_walk cstr fuel u m del file line (pageList u)) as [[|l e c]|];
    [| |discriminate].
  - injection E as _ <- <-. split; [reflexivity|].
    intros x Hx. unfold Free_writes, ptrSize in Hx. unfold Push. cbn [fst].
    repeat mem_step. reflexivity.
  - destruct (dims_log u l) as (Hd & _).
    destruct exceptions; injection E as _ <- <-; split; auto.
Qed.

(** The members of a handle only depend on its twelve bytes. *)
Lemma fields_same (w w' : World) (k : Z) :
  (forall x, k <= x < k + sizeof_Handle -> heap w' x = heap w x) ->
  refCount_of w' k = refCount_of w k /\ storage_of w' k = storage_of w k
  /\ allocator_of w' k = allocator_of w k.
Proof.
  intros H. unfold refCount_of, storage_of, allocator_of, off_refCount, off_memory,
    off_allocator, sizeof_Handle in *.
  split; [f_equal | split]; apply load32_ext; intros x Hx; apply H; lia.
Qed.

(** A word whose four bytes are [b]. *)
Lemma load32_fill (m : mem) (p b : Z) :
  (forall x, p <= x < p + 4 -> m x = b) -> load32 m p = b * 16843009.
Proof. intros H. unfold load32. rewrite !H by lia. lia. Qed.

(** The paths through [RemoveRef], by the count after the decrement. *)
Lemma RemoveRef_paths (cstr : Z -> string) (exceptions : bool) (MemoryHandle_cpp : Z)
    (fuel : nat) (this file line : Z) (w : World) :
  let rc := signed (load32 (heap w) (this + off_refCount) - 1) in
  let w1 := decremented w this in
  let w2 := logged w1 (negative_line cstr w1 this file line) in
  let RemoveRef := Handle.RemoveRef cstr exceptions MemoryHandle_cpp in
  let release := HandleAllocator_Free cstr exceptions fuel this MemoryHandle_cpp 88 ;;;
                 ret tt in
  (0 < rc -> RemoveRef fuel this file line w = Some (Returned tt, w1))
  /\ (rc < 0 -> exceptions = true ->
      RemoveRef fuel this file line w
      = Some (Thrown (mkException cstr "Negative RefCount detected." file line), w2))
  /\ (rc < 0 -> exceptions = false -> RemoveRef fuel this file line w = release w2)
  /\ (rc = 0 -> exceptions = true -> storage_of w1 this <> 0 ->
      RemoveRef fuel this file line w
      = Some (Thrown (mkException cstr
                        "Dangling reference: All references removed before pointer freed."
                        file line), w1))
  /\ (rc = 0 -> exceptions = false \/ storage_of w1 this = 0 ->
      RemoveRef fuel this file line w = release w1).
Proof.
  intros rc w1 w2 RemoveRef release.
  assert (C1 : 0 < rc -> RemoveRef fuel this file line w = Some (Returned tt, w1)).
  { intros H. subst RemoveRef. unfold Handle.RemoveRef, bind, get32, put32, when, ret.
    fold rc. destruct (Z.ltb_spec rc 0); [lia|].
    destruct (Z.leb_spec rc 0); [lia|]. reflexivity. }
  assert (C2 : rc < 0 -> exceptions = true ->
      RemoveRef fuel this file line w
      = Some (Thrown (mkException cstr "Negative RefCount detected." file line), w2)).
  { intros H ->. subst RemoveRef.
    unfold Handle.RemoveRef, bind, get32, put32, when, ret, hlog, handle_header, throw.
    fold rc. destruct (Z.ltb_spec rc 0); [|lia]. reflexivity. }
  assert (C3 : rc < 0 -> exceptions = false ->
      RemoveRef fuel this file line w = release w2).
  { intros H ->. subst RemoveRef release.
    unfold Handle.RemoveRef, bind, get32, put32, when, ret, hlog, handle_header, throw.
    fold rc. destruct (Z.ltb_spec rc 0); [|lia].
    destruct (Z.leb_spec rc 0); [|lia]. cbn [andb].
    destruct (HandleAllocator_Free cstr false fuel this MemoryHandle_cpp 88 _)
      as [[[x|e] w3]|]; reflexivity. }
  assert (C4 : rc = 0 -> exceptions = true -> storage_of w1 this <> 0 ->
      RemoveRef fuel this file line w
      = Some (Thrown (mkException cstr
                        "Dangling reference: All references removed before pointer freed."
                        file line), w1)).
  { intros H -> Hs. subst RemoveRef.
    unfold Handle.RemoveRef, bind, get32, put32, when, ret, hlog, handle_header, throw.
    fold rc. rewrite H. cbn [Z.ltb Z.leb Z.compare andb].
    unfold storage_of in Hs.
    destruct (Z.eqb_spec (load32 (heap (set_heap w (store32 (heap w)
                (this + off_refCount) 0))) (this + off_memory)) 0) as [E|E].
    - exfalso. apply Hs. subst w1. unfold decremented. fold rc. rewrite H. exact E.
    - cbn [negb]. subst w1. unfold decremented. fold rc. rewrite H. reflexivity. }
  assert (C5 : rc = 0 -> exceptions = false \/ storage_of w1 this = 0 ->
      RemoveRef fuel this file line w = release w1).
  { intros H Hs. subst RemoveRef release.
    unfold Handle.RemoveRef, bind, get32, put32, when, ret, hlog, handle_header, throw.
    fold rc. subst w1. unfold decremented, storage_of in *. fold rc in Hs |- *.
    rewrite H in Hs |- *. cbn [Z.ltb Z.leb Z.compare].
    assert (Hb : exceptions
                 && negb (load32 (heap (set_heap w (store32 (heap w)
                            (this + off_refCount) 0))) (this + off_memory) =? 0)
                 = false).
    { destruct Hs as [-> | ->]; [reflexivity|]. cbn. apply andb_false_r. }
    rewrite Hb.
    destruct (HandleAllocator_Free cstr exceptions fuel this MemoryHandle_cpp 88 _)
      as [[[x|e] w3]|]; reflexivity. }
  repeat (split; [assumption|]). assumption.
Qed.

(** Arithmetic of [int] members. *)
Lemma signed_range (x : Z) : - 2 ^ 31 <= signed x < 2 ^ 31.
Proof.
  unfold signed. pose proof (wrap_range x).
  change (2 ^ 32) with 4294967296 in *. change (2 ^ 31) with 2147483648.
  destruct (Z.ltb_spec (wrap x) 2147483648); lia.
Qed.

Lemma signed_signed (x : Z) : signed (signed x) = signed x.
Proof. apply signed_small, signed_range. Qed.

Lemma wrap_signed (x : Z) : wrap (signed x) = wrap x.
Proof.
  unfold signed. destruct (_ <? _); [apply wrap_wrap|].
  unfold wrap. change (2 ^ 32) with 4294967296.
  rewrite <- (Z.mod_add _ 1 4294967296) by lia.
  replace (x mod 4294967296 - 4294967296 + 1 * 4294967296) with (x mod 4294967296)
    by lia.
  apply Z.mod_mod. lia.
Qed.

Lemma signed_add (x d : Z) :
  - 2 ^ 31 <= signed x + d < 2 ^ 31 -> signed (x + d) = signed x + d.
Proof.
  intros H. rewrite <- (signed_small (signed x + d)) by exact H.
  unfold signed at 1 3.
  assert (E : wrap (x + d) = wrap (signed x + d)).
  { unfold wrap. rewrite (Z.add_mod (signed x)), (Z.add_mod x) by lia.
    fold (wrap (signed x)). fold (wrap x). now rewrite wrap_signed. }
  now rewrite E.
Qed.

(** Counting the pointers that reference a handle. *)
Lemma refs_cons (h k : Z) (ps : list Z) :
  refs (h :: ps) k = if Z.eq_dec h k then refs ps k + 1 else refs ps k.
Proof. unfold refs. cbn [count_occ]. destruct (Z.eq_dec h k); lia. Qed.

Lemma refs_remove_nth (i : nat) (ps : list Z) (h k : Z) :
  nth_error ps i = Some h ->
  refs (remove_nth i ps) k = if Z.eq_dec h k then refs ps k - 1 else refs ps k.
Proof.
  revert i. induction ps as [|p ps IH]; intros [|i] E; try discriminate.
  - injection E as ->. cbn [remove_nth]. rewrite refs_cons.
    destruct (Z.eq_dec h k); lia.
  - cbn [remove_nth nth_error] in *. rewrite !refs_cons, (IH i E).
    destruct (Z.eq_dec p k), (Z.eq_dec h k); lia.
Qed.

Lemma refs_replace_nth (i : nat) (ps : list Z) (h x k : Z) :
  nth_error ps i = Some h ->
  refs (replace_nth i x ps) k = refs (x :: remove_nth i ps) k.
Proof.
  revert i. induction ps as [|p ps IH]; intros [|i] E; try discriminate.
  - reflexivity.
  - cbn [remove_nth replace_nth nth_error] in *.
    rewrite refs_cons, (IH i E), !refs_cons.
    destruct (Z.eq_dec p k), (Z.eq_dec x k); lia.
Qed.

Lemma length_remove_nth (i : nat) (ps : list Z) (h : Z) :
  nth_error ps i = Some h -> S (List.length (remove_nth i ps)) = List.length ps.
Proof.
  revert i. induction ps as [|p ps IH]; intros [|i] E; try discriminate.
  - reflexivity.
  - cbn [remove_nth nth_error List.length] in *. now rewrite (IH i E).
Qed.

Lemma length_replace_nth (i : nat) (ps : list Z) (x : Z) :
  List.length (replace_nth i x ps) = List.length ps.
Proof.
  revert i. induction ps as [|p ps IH]; intros [|i]; cbn; try reflexivity.
  now rewrite IH.
Qed.

Lemma refs_nonneg (ps : list Z) (k : Z) : 0 <= refs ps k.
Proof. unfold refs. lia. Qed.

Lemma refs_bound (ps : list Z) (k : Z) : refs ps k <= Z.of_nat (List.length ps).
Proof. unfold refs. pose proof (count_occ_bound Z.eq_dec k ps). lia. Qed.

Lemma refs_In (ps : list Z) (k : Z) : In k ps <-> 0 < refs ps k.
Proof.
  unfold refs. rewrite (count_occ_In Z.eq_dec). lia.
Qed.

Lemma refs_not_In (ps : list Z) (k : Z) : ~ In k ps -> refs ps k = 0.
Proof. intros H. pose proof (refs_nonneg ps k). rewrite refs_In in H. lia. Qed.

Lemma In_remove_nth (i : nat) (ps : list Z) (p : Z) :
  In p (remove_nth i ps) -> In p ps.
Proof.
  revert i. induction ps as [|q ps IH]; intros [|i] H; cbn in *; auto.
  destruct H as [H | H]; eauto.
Qed.

Lemma In_remove_other (i j : nat) (ps : list Z) (h : Z) :
  i <> j -> nth_error ps j = Some h -> In h (remove_nth i ps).
Proof.
  revert i j. induction ps as [|q ps IH]; intros [|i] [|j] Hne E; cbn in *;
    try discriminate; try congruence.
  - now apply nth_error_In in E.
  - left. congruence.
  - right. apply (IH i j); [congruence | exact E].
Qed.

Lemma replace_nth_same (i : nat) (ps : list Z) (h : Z) :
  nth_error ps i = Some h -> replace_nth i h ps = ps.
Proof.
  revert i. induction ps as [|q ps IH]; intros [|i] E; cbn in *;
    try discriminate; try congruence.
  now rewrite (IH i E).
Qed.

Lemma bind_inv {A B : Type} (c : M A) (k : A -> M B) (w w' : World) (r : result B) :
  bind c k w = Some (r, w') ->
  (exists x w1, c w = Some (Returned x, w1) /\ k x w1 = Some (r, w'))
  \/ (exists e, c w = Some (Thrown e, w') /\ r = Thrown e).
Proof.
  unfold bind. destruct (c w) as [[[x|e] w1]|]; intros E; [| |discriminate].
  - left. eauto.
  - right. injection E as <- <-. eauto.
Qed.

Section Prims.

Variable cstr : Z -> string.
Variable exceptions : bool.
Variable Null : Z.
Variable MemoryHandle_cpp : Z.
Variable user : Z -> Prop.

Lemma hcore_logged (w : World) (pages free live : list Z) (s : string) :
  hcore Null user w pages free live -> hcore Null user (logged w s) pages free live.
Proof.
  intros C. destruct (dims_log (HandleAllocator w) s) as (Hd & Hp & Hf & _).
  apply (hcore_frame Null user w); try assumption.
  - intros k E. exact E.
  - intros k u E. exists u. split; [exact E | reflexivity].
  - reflexivity.
Qed.

(** No allocator lives at the byte pattern of a freed or raw block. *)
Lemma no_allocator_at (w : World) (pages free live : list Z) (k : Z) :
  hcore Null user w pages free live -> k mod 4 <> 0 -> allocators w k = None.
Proof.
  intros C Hk. destruct (allocators w k) eqn:E; [|reflexivity].
  exfalso. apply Hk. apply (hc_aligned Null user w pages free live C). congruence.
Qed.

(** Freeing storage through an allocator of the program leaves the handle
    layer alone. *)
Lemma allocator_Free_core (fuel : nat) (al s file line : Z) (w : World)
    (pages free live : list Z) (r : result Z) (w' : World) :
  hcore Null user w pages free live ->
  (exists u, allocators w al = Some u /\ forall x, Free_writes u s x -> user x) ->
  allocator_Free cstr exceptions fuel al s file line w = Some (r, w') ->
  hcore Null user w' pages free live
  /\ HandleAllocator w' = HandleAllocator w
  /\ (forall k x, k = Null \/ In k free \/ In k live ->
       k <= x < k + sizeof_Handle -> heap w' x = heap w x).
Proof.
  intros C (u & Hu & Hw) E. unfold allocator_Free in E. rewrite Hu in E.
  destruct (ObjectAllocator.Free cstr exceptions fuel s file line u (heap w))
    as [[[r1 u1] m1]|] eqn:EF; [|discriminate].
  injection E as <- <-.
  destruct (Free_frame cstr exceptions fuel s file line u (heap w) r1 u1 m1 EF)
    as [Hd Fr].
  assert (Hk : forall k x, k = Null \/ In k free \/ In k live ->
            k <= x < k + sizeof_Handle -> m1 x = heap w x).
  { intros k x Hk Hx. apply Fr. intros Hx'.
    exact (handle_not_user Null user w pages free live k x C Hk Hx (Hw x Hx')). }
  split; [|split; [reflexivity | exact Hk]].
  apply (hcore_frame Null user w); try reflexivity; try exact C.
  - intros k Ek. cbn. destruct (Z.eqb_spec k al); [congruence | exact Ek].
  - intros k u0 Ek. cbn. destruct (Z.eqb_spec k al) as [-> | _].
    + exists u1. split; [reflexivity | congruence].
    + exists u0. split; [exact Ek | reflexivity].
  - intros x Hx. cbn [heap set_heap set_allocator]. apply Fr. intros Hx'.
    destruct Hx as [Hx | [(k & Hk' & Hr) | Hr]].
    + exact (footprint_not_user Null user w pages free live x C Hx (Hw x Hx')).
    + apply (handle_not_user Null user w pages free live k x C (or_intror Hk'));
        [unfold off_refCount, sizeof_Handle in *; lia | exact (Hw x Hx')].
    + apply (handle_not_user Null user w pages free live Null x C (or_introl eq_refl));
        [unfold off_refCount, sizeof_Handle in *; lia | exact (Hw x Hx')].
Qed.

(** [Free] of the handle allocator on a block already on its free list is
    rejected. *)
Lemma release_free (fuel : nat) (h file line : Z) (w : World)
    (pages free live : list Z) :
  hcore Null user w pages free live -> In h free ->
  (List.length pages < fuel)%nat ->
  exists l,
    HandleAllocator_Free cstr exceptions fuel h file line w
    = Some (failure cstr exceptions "Attempt to free already freed memory."
              file line FREED, logged w l).
Proof.
  intros C Hh Hfuel. pose proof C as [I _ _ _ _ _ _ _].
  pose proof I as [_ _ _ _ _ _ _ _ Fz].
  eexists. unfold HandleAllocator_Free.
  rewrite (Free_invalid cstr exceptions fuel h file line _ _ _ _ _
             (Free_walk_freed cstr fuel h file line _ _ _ _ pages free live I
                (or_introl Hh) (Fz h Hh) Hfuel)).
  reflexivity.
Qed.

(** [Free] of the handle allocator on a handle returns it to the free
    list; the other handles are not touched. *)
Lemma release_live (fuel : nat) (h file line : Z) (w : World)
    (pages free live1 live2 : list Z) :
  hcore Null user w pages free (live1 ++ h :: live2) ->
  (List.length pages < fuel)%nat ->
  exists w',
    HandleAllocator_Free cstr exceptions fuel h file line w = Some (Returned 0, w')
    /\ hcore Null user w' pages (h :: free) (live1 ++ live2)
    /\ (forall k x, k <> h -> k = Null \/ In k free \/ In k (live1 ++ live2) ->
         k <= x < k + sizeof_Handle -> heap w' x = heap w x).
Proof.
  intros C Hfuel. pose proof C as [I Hbs Hpg Hn Hns Hl Hf Ha].
  pose proof I as [G P Sp F N B Pd L Fz].
  destruct (geometry_pos _ G) as (Hpad & Hbs' & Hla & Hia & Hhs & Hics & Hlo & Hps).
  destruct (Free_live cstr exceptions fuel h file line _ _ pages free live1 live2
              I Hfuel) as (m' & E & I' & Fr & Hz & Hfreed).
  unfold HandleAllocator_Free. rewrite E. eexists. split; [reflexivity|].
  assert (Hin : In h (live1 ++ h :: live2)) by apply in_elt.
  assert (Hk : forall k x, k <> h -> k = Null \/ In k free \/ In k (live1 ++ live2) ->
            k <= x < k + sizeof_Handle -> m' x = heap w x).
  { intros k x Hne Hk Hx. apply Fr.
    assert (Hk' : k = Null \/ In k free \/ In k (live1 ++ h :: live2))
      by (rewrite in_app_iff in *; cbn [In]; tauto).
    destruct (hcore_apart Null user w pages free _ k h C Hk' (or_intror Hin) Hne);
      unfold sizeof_Handle in *; lia. }
  assert (Hnh : Null <> h).
  { intros E0. destruct (hcore_block Null user w pages free _ h C (or_intror Hin))
      as (pg & _ & H1 & H2 & H3). unfold sizeof_Handle, ptrSize in *. lia. }
  split; [|exact Hk].
  set (w' := set_heap (set_HandleAllocator w _) m').
  assert (Hfs : forall k, k <> h -> k = Null \/ In k free \/ In k (live1 ++ live2) ->
            refCount_of w' k = refCount_of w k /\ storage_of w' k = storage_of w k
            /\ allocator_of w' k = allocator_of w k).
  { intros k Hne Hk'. apply fields_same. intros x Hx. now apply (Hk k). }
  constructor.
  - apply (pool_inv_intro (HandleAllocator w)); [reflexivity | exact I'].
  - exact Hbs.
  - exact Hpg.
  - exact Hn.
  - rewrite <- Hns. apply (Hfs Null); [exact Hnh | now left].
  - intros k Hk'.
    assert (Hne : k <> h).
    { intros ->. apply NoDup_app_remove_l in N. apply NoDup_remove_2 in N.
      exact (N Hk'). }
    destruct (Hfs k Hne (or_intror (or_intror Hk'))) as (_ & Es & Ea).
    destruct (Hl k) as [H0 | (u & Hu & Hw)];
      [rewrite in_app_iff in *; cbn [In]; tauto | left; congruence |].
    right. exists u. unfold user_safe. rewrite Es, Ea. auto.
  - intros f [<- | Hf'].
    + apply (no_allocator_at w pages free _ _ C).
      unfold allocator_of, off_allocator. subst w'. cbn [heap set_heap].
      rewrite (load32_fill m' (h + 4) FREED).
      * cbn. discriminate.
      * intros x Hx. apply Hfreed. unfold ptrSize, sizeof_Handle in *. lia.
    + assert (Hne : f <> h).
      { intros ->. exact (NoDup_app_disjoint free _ h N Hf' Hin). }
      destruct (Hfs f Hne (or_intror (or_introl Hf'))) as (_ & _ & Ea).
      rewrite Ea. now apply Hf.
  - exact Ha.
Qed.

(** More fuel does not change the outcome of a walk that ended. *)
Lemma Free_walk_mono (fuel fuel' : nat) (a : Pool) (m : mem)
    (del file line pg : Z) (v : verdict) :
  Free_walk cstr fuel a m del file line pg = Some v -> (fuel <= fuel')%nat ->
  Free_walk cstr fuel' a m del file line pg = Some v.
Proof.
  revert fuel' pg. induction fuel as [|f IH]; intros fuel' pg E Hle; [discriminate|].
  destruct fuel' as [|f']; [lia|]. cbn [Free_walk] in *.
  destruct (pg =? 0); [exact E|].
  destruct (_ <? _).
  - destruct (Free_validate _ _ _ _ _ _ _); [|exact E]. apply IH; [exact E | lia].
  - apply IH; [exact E | lia].
Qed.

Lemma HandleAllocator_Free_mono (fuel fuel' : nat) (h file line : Z) (w : World)
    (r : result Z) (w' : World) :
  HandleAllocator_Free cstr exceptions fuel h file line w = Some (r, w') ->
  (fuel <= fuel')%nat ->
  HandleAllocator_Free cstr exceptions fuel' h file line w = Some (r, w').
Proof.
  unfold HandleAllocator_Free, ObjectAllocator.Free. intros E Hle.
  destruct (Free_walk cstr fuel _ _ _ _ _ _) as [v|] eqn:Ew; [|discriminate].
  rewrite (Free_walk_mono fuel fuel' _ _ _ _ _ _ v Ew Hle). exact E.
Qed.

(** The two outcomes of [Free] of the handle allocator, for any fuel with
    which it ends. *)
Lemma release_live_any (fuel : nat) (h file line : Z) (w : World)
    (pages free live1 live2 : list Z) (r : result Z) (w' : World) :
  hcore Null user w pages free (live1 ++ h :: live2) ->
  HandleAllocator_Free cstr exceptions fuel h file line w = Some (r, w') ->
  r = Returned 0
  /\ hcore Null user w' pages (h :: free) (live1 ++ live2)
  /\ (forall k x, k <> h -> k = Null \/ In k free \/ In k (live1 ++ live2) ->
       k <= x < k + sizeof_Handle -> heap w' x = heap w x).
Proof.
  intros C E.
  destruct (release_live (Nat.max fuel (S (List.length pages))) h file line w
              pages free live1 live2 C ltac:(lia)) as (w0 & E0 & C0 & F0).
  apply (HandleAllocator_Free_mono fuel (Nat.max fuel (S (List.length pages)))) in E;
    [|lia].
  rewrite E in E0. injection E0 as -> ->. auto.
Qed.

Lemma release_free_any (fuel : nat) (h file line : Z) (w : World)
    (pages free live : list Z) (r : result Z) (w' : World) :
  hcore Null user w pages free live -> In h free ->
  HandleAllocator_Free cstr exceptions fuel h file line w = Some (r, w') ->
  r = failure cstr exceptions "Attempt to free already freed memory." file line FREED
  /\ exists l, w' = logged w l.
Proof.
  intros C Hh E.
  destruct (release_free (Nat.max fuel (S (List.length pages))) h file line w
              pages free live C Hh ltac:(lia)) as (l & E0).
  apply (HandleAllocator_Free_mono fuel (Nat.max fuel (S (List.length pages)))) in E;
    [|lia].
  rewrite E in E0. injection E0 as -> ->. eauto.
Qed.

Lemma null_not_block (w : World) (pages free live : list Z) (h : Z) :
  hcore Null user w pages free live -> In h free \/ In h live -> Null <> h.
Proof.
  intros C Hh E0.
  destruct (hcore_block Null user w pages free live h C Hh) as (pg & _ & H1 & H2 & H3).
  pose proof C as [I Hbs _ _ _ _ _ _]. pose proof I as [G _ _ _ _ _ _ _ _].
  destruct (geometry_pos _ G) as (Hpad & Hbs' & Hla & Hia & Hhs & Hics & Hlo & Hps).
  unfold sizeof_Handle, ptrSize in *. lia.
Qed.

(** The invariants only depend on how often each handle is referenced. *)
Lemma pinv_refs (w : World) (ps ps' : list Z) (pages free live : list Z) :
  (forall k, refs ps' k = refs ps k) -> List.length ps' = List.length ps ->
  pinv Null user w ps pages free live -> pinv Null user w ps' pages free live.
Proof.
  intros Hr Hlen [C Hn Hb Hp]. constructor.
  - exact C.
  - now rewrite Hr.
  - now rewrite Hlen.
  - intros p Hin. apply Hp. rewrite refs_In in *. now rewrite <- Hr.
Qed.

Lemma counted_refs (w : World) (ps ps' : list Z) (live : list Z) :
  (forall k, refs ps' k = refs ps k) ->
  counted Null w ps live -> counted Null w ps' live.
Proof.
  intros Hr [Hp Hl]. constructor.
  - intros p Hin. apply Hp. rewrite refs_In in *. now rewrite <- Hr.
  - intros h Hh. rewrite Hr. now apply Hl.
Qed.

(** [++refCount] and [--refCount]. *)
Lemma AddRef_eq (h : Z) (w : World) : AddRef h w = Some (Returned tt, incremented w h).
Proof. reflexivity. Qed.

Lemma incremented_spec (w : World) (pages free live : list Z) (h : Z) :
  hcore Null user w pages free live -> h = Null \/ In h free \/ In h live ->
  hcore Null user (incremented w h) pages free live
  /\ (refCount_of w h + 1 < 2 ^ 31 ->
      refCount_of (incremented w h) h = refCount_of w h + 1)
  /\ (forall k, k <> h -> k = Null \/ In k free \/ In k live ->
       refCount_of (incremented w h) k = refCount_of w k).
Proof.
  intros C Hh.
  destruct (write_refCount Null user w pages free live h
              (signed (load32 (heap w) (h + off_refCount) + 1)) C Hh)
    as (C' & E & Fr).
  split; [exact C' | split; [|exact Fr]].
  intros Hb. unfold incremented. rewrite E, signed_signed. apply signed_add.
  fold (refCount_of w h). pose proof (signed_range (load32 (heap w) (h + off_refCount))).
  unfold refCount_of in *. lia.
Qed.

Lemma decremented_spec (w : World) (pages free live : list Z) (h : Z) :
  hcore Null user w pages free live -> h = Null \/ In h free \/ In h live ->
  hcore Null user (decremented w h) pages free live
  /\ refCount_of (decremented w h) h = signed (load32 (heap w) (h + off_refCount) - 1)
  /\ (- 2 ^ 31 < refCount_of w h ->
      refCount_of (decremented w h) h = refCount_of w h - 1)
  /\ (forall k, k <> h -> k = Null \/ In k free \/ In k live ->
       refCount_of (decremented w h) k = refCount_of w k).
Proof.
  intros C Hh.
  destruct (write_refCount Null user w pages free live h
              (signed (load32 (heap w) (h + off_refCount) - 1)) C Hh)
    as (C' & E & Fr).
  split; [exact C' | split; [|split; [|exact Fr]]].
  - unfold decremented. now rewrite E, signed_signed.
  - intros Hb. unfold decremented. rewrite E, signed_signed.
    apply (signed_add _ (-1)).
    pose proof (signed_range (load32 (heap w) (h + off_refCount))).
    unfold refCount_of in *. lia.
Qed.

Lemma AddRef_pinv (w : World) (ps pages free live : list Z) (h : Z) :
  pinv Null user w ps pages free live -> h = Null \/ In h free \/ In h live ->
  Z.of_nat (List.length ps) + 2 < 2 ^ 31 ->
  pinv Null user (incremented w h) (h :: ps) pages free live.
Proof.
  intros [C Hn Hb Hp] Hh Hlen.
  destruct (incremented_spec w pages free live h C Hh) as (C' & E & Fr).
  pose proof (refs_bound ps Null). pose proof (refs_nonneg ps Null).
  constructor.
  - exact C'.
  - rewrite refs_cons. destruct (Z.eq_dec h Null) as [-> | Hne].
    + rewrite E by lia. lia.
    + rewrite Fr; [exact Hn | congruence | now left].
  - cbn [List.length]. lia.
  - intros p [<- | Hin]; [exact Hh | now apply Hp].
Qed.

Lemma AddRef_counted (w : World) (ps pages free live : list Z) (h : Z) :
  pinv Null user w ps pages free live ->
  (forall p, In p ps -> p = Null \/ In p live) ->
  (forall k, In k live -> k <> h -> refCount_of w k = refs ps k /\ 0 < refs ps k) ->
  h = Null \/ (In h live /\ refCount_of w h = refs ps h) ->
  Z.of_nat (List.length ps) + 2 < 2 ^ 31 ->
  counted Null (incremented w h) (h :: ps) live.
Proof.
  clear cstr exceptions MemoryHandle_cpp.
  intros [C Hn Hb Hp] Hps Hl Hh Hlen.
  assert (Hv : h = Null \/ In h free \/ In h live) by tauto.
  destruct (incremented_spec w pages free live h C Hv) as (C' & E & Fr).
  constructor.
  - intros p [<- | Hin]; [tauto | now apply Hps].
  - intros k Hk. rewrite refs_cons. destruct (Z.eq_dec h k) as [-> | Hne].
    + destruct Hh as [-> | [_ Hrc]].
      * exfalso. exact (null_not_block w pages free live Null C (or_intror Hk) eq_refl).
      * pose proof (refs_bound ps k). pose proof (refs_nonneg ps k).
        rewrite E by lia. lia.
    + rewrite Fr by (try congruence; tauto). apply Hl; [exact Hk | congruence].
Qed.

Lemma refCount_logged (w : World) (l : string) (k : Z) :
  refCount_of (logged w l) k = refCount_of w k.
Proof. reflexivity. Qed.

(** [MM_FREE(Handle::HandleAllocator, this)] in [RemoveRef]: a handle goes
    back to the free list; a block already there is rejected. *)
Lemma release_step (fuel : nat) (h : Z) (w : World) (pages free live : list Z)
    (r : result unit) (w' : World) :
  hcore Null user w pages free live -> In h free \/ In h live ->
  (HandleAllocator_Free cstr exceptions fuel h MemoryHandle_cpp 88 ;;; ret tt) w
  = Some (r, w') ->
  (In h free /\ hcore Null user w' pages free live
   /\ (forall k, refCount_of w' k = refCount_of w k))
  \/ (r = Returned tt /\ exists l1 l2, live = l1 ++ h :: l2
       /\ hcore Null user w' pages (h :: free) (l1 ++ l2)
       /\ forall k, k <> h -> k = Null \/ In k free \/ In k live ->
            refCount_of w' k = refCount_of w k).
Proof.
  intros C Hh E. unfold bind in E.
  destruct (HandleAllocator_Free cstr exceptions fuel h MemoryHandle_cpp 88 w)
    as [[r0 w3]|] eqn:EF; [|discriminate].
  assert (N : NoDup (free ++ live)).
  { pose proof C as [I _ _ _ _ _ _ _]. now pose proof I as [_ _ _ _ N _ _ _ _]. }
  destruct Hh as [Hh | Hh].
  - left. split; [exact Hh|].
    destruct (release_free_any fuel h _ _ w pages free live r0 w3 C Hh EF)
      as (-> & l & ->).
    assert (Ew : w' = logged w l).
    { unfold failure in E. destruct exceptions; now injection E. }
    subst w'. split; [now apply hcore_logged | intros k; apply refCount_logged].
  - right. destruct (in_split h live Hh) as (l1 & l2 & ->).
    destruct (release_live_any fuel h _ _ w pages free l1 l2 r0 w3 C EF)
      as (-> & C3 & Fr).
    injection E as <- <-. split; [reflexivity|]. exists l1, l2.
    split; [reflexivity | split; [exact C3|]].
    intros k Hne Hk. apply fields_same. intros x Hx. apply (Fr k x Hne); [|exact Hx].
    rewrite in_app_iff in *. cbn [In] in Hk. destruct Hk as [Hk | [Hk | [Hk | [Hk | Hk]]]];
      try tauto. congruence.
Qed.

(** [RemoveRef] on the null handle or a block of the handle allocator:
    either the blocks stay as they are and the counts are those after the
    decrement, or the handle is released. *)
Lemma RemoveRef_step (fuel : nat) (h file line : Z) (w : World)
    (pages free live : list Z) (r : result unit) (w' : World) :
  hcore Null user w pages free live ->
  h = Null \/ In h free \/ In h live ->
  (h = Null -> 1 < refCount_of w Null) ->
  Handle.RemoveRef cstr exceptions MemoryHandle_cpp fuel h file line w = Some (r, w') ->
  (hcore Null user w' pages free live
   /\ (forall k, refCount_of w' k = refCount_of (decremented w h) k)
   /\ (0 < refCount_of (decremented w h) h -> r = Returned tt)
   /\ (r = Returned tt -> 0 < refCount_of (decremented w h) h \/ In h free))
  \/ (r = Returned tt /\ refCount_of (decremented w h) h <= 0
       /\ exists l1 l2, live = l1 ++ h :: l2
       /\ hcore Null user w' pages (h :: free) (l1 ++ l2)
       /\ forall k, k <> h -> k = Null \/ In k free \/ In k live ->
            refCount_of w' k = refCount_of w k).
Proof.
  intros C Hh Hnull E.
  destruct (decremented_spec w pages free live h C Hh) as (C1 & Erc & Epred & Fr1).
  destruct (RemoveRef_paths cstr exceptions MemoryHandle_cpp fuel h file line w)
    as (P1 & P2 & P3 & P4 & P5).
  rewrite <- Erc in P1, P2, P3, P4, P5.
  set (rc := refCount_of (decremented w h) h) in *.
  set (w1 := decremented w h) in *.
  assert (Hblock : rc <= 0 -> In h free \/ In h live).
  { intros Hle. destruct Hh as [-> | Hh]; [|exact Hh].
    pose proof (signed_range (load32 (heap w) (Null + off_refCount))).
    specialize (Hnull eq_refl). unfold refCount_of in Hnull, Epred.
    rewrite Epred in Hle by lia. lia. }
  assert (Rel : forall w3, hcore Null user w3 pages free live ->
            (forall k, refCount_of w3 k = refCount_of w1 k) -> rc <= 0 ->
            (HandleAllocator_Free cstr exceptions fuel h MemoryHandle_cpp 88 ;;; ret tt) w3
            = Some (r, w') ->
            (hcore Null user w' pages free live
             /\ (forall k, refCount_of w' k = refCount_of w1 k)
             /\ (0 < rc -> r = Returned tt)
             /\ (r = Returned tt -> 0 < rc \/ In h free))
            \/ (r = Returned tt /\ rc <= 0
                 /\ exists l1 l2, live = l1 ++ h :: l2
                 /\ hcore Null user w' pages (h :: free) (l1 ++ l2)
                 /\ forall k, k <> h -> k = Null \/ In k free \/ In k live ->
                      refCount_of w' k = refCount_of w k)).
  { intros w3 C3 E3 Hle ER.
    destruct (release_step fuel h w3 pages free live r w' C3 (Hblock Hle) ER)
      as [(Hf & C' & Fr) | (-> & l1 & l2 & -> & C' & Fr)].
    - left. split; [exact C'|]. split; [intros k; now rewrite Fr|].
      split; [lia | tauto].
    - right. split; [reflexivity | split; [exact Hle|]]. exists l1, l2.
      split; [reflexivity | split; [exact C'|]].
      intros k Hne Hk. rewrite Fr, E3 by assumption. now apply Fr1. }
  assert (Hex : exceptions = true \/ exceptions = false)
    by (destruct exceptions; auto).
  destruct (Z_lt_le_dec 0 rc) as [Hpos | Hle].
  - rewrite (P1 Hpos) in E. injection E as <- <-. left.
    split; [exact C1|]. split; [reflexivity|]. split; [reflexivity | now left].
  - destruct (Z_lt_le_dec rc 0) as [Hneg | Hnn].
    + destruct Hex as [Hex | Hex].
      * rewrite (P2 Hneg Hex) in E. injection E as <- <-. left.
        split; [now apply hcore_logged|]. split; [reflexivity|].
        split; [lia | discriminate].
      * rewrite (P3 Hneg Hex) in E.
        apply (Rel _ (hcore_logged _ _ _ _ _ C1) ltac:(reflexivity) Hle E).
    + assert (H0 : rc = 0) by lia.
      destruct (Z.eq_dec (storage_of w1 h) 0) as [Hs | Hs].
      * rewrite (P5 H0 (or_intror Hs)) in E.
        apply (Rel _ C1 ltac:(reflexivity) Hle E).
      * destruct Hex as [Hex | Hex].
        -- rewrite (P4 H0 Hex Hs) in E. injection E as <- <-. left.
           split; [exact C1|]. split; [reflexivity|]. split; [lia | discriminate].
        -- rewrite (P5 H0 (or_introl Hex)) in E.
           apply (Rel _ C1 ltac:(reflexivity) Hle E).
Qed.

(** [Handle::Free] keeps the handle layer in order and no count changes. *)
Lemma HFree_step (fuel : nat) (h file line : Z) (w : World)
    (pages free live : list Z) (r : result unit) (w' : World) :
  hcore Null user w pages free live ->
  h = Null \/ In h free \/ In h live ->
  Handle.Free cstr exceptions fuel h file line w = Some (r, w') ->
  hcore Null user w' pages free live
  /\ (forall k, k = Null \/ In k free \/ In k live ->
       refCount_of w' k = refCount_of w k).
Proof.
  intros C Hh E. unfold Handle.Free, bind, get32 in E. cbv beta in E.
  fold (storage_of w h) in E. fold (allocator_of w h) in E.
  destruct (Z.eqb_spec (storage_of w h) 0) as [Hs | Hs].
  - unfold handle_header, hlog, when, throw, ret in E.
    destruct exceptions; injection E as <- <-;
      (split; [now apply hcore_logged | reflexivity]).
  - change (load32 (heap w) (h + off_allocator)) with (allocator_of w h) in E.
    destruct (allocator_Free cstr exceptions fuel (allocator_of w h) (storage_of w h)
                file line w) as [[r1 w1]|] eqn:EA; [|discriminate].
    assert (Hl : In h live).
    { destruct Hh as [-> | [Hf | Hl]]; [| |exact Hl].
      - exfalso. apply Hs. exact (hc_null_storage Null user w pages free live C).
      - exfalso. unfold allocator_Free in EA.
        rewrite (hc_free Null user w pages free live C h Hf) in EA. discriminate. }
    destruct (hc_live Null user w pages free live C h Hl) as [H0 | Hu]; [contradiction|].
    destruct (allocator_Free_core fuel _ _ file line w pages free live r1 w1 C Hu EA)
      as (C1 & EH & Fr).
    assert (R1 : forall k, k = Null \/ In k free \/ In k live ->
              refCount_of w1 k = refCount_of w k).
    { intros k Hk. apply fields_same. intros x Hx. now apply (Fr k). }
    destruct r1 as [code | e]; [|injection E as <- <-; auto].
    assert (Fin : forall w2, hcore Null user w2 pages free live ->
              (forall k, refCount_of w2 k = refCount_of w1 k) ->
              put32 (h + off_memory) 0 w2 = Some (r, w') ->
              hcore Null user w' pages free live
              /\ (forall k, k = Null \/ In k free \/ In k live ->
                   refCount_of w' k = refCount_of w k)).
    { intros w2 C2 E2 EP. unfold put32 in EP. injection EP as <- <-.
      destruct (null_storage Null user w2 pages free live h C2 Hl) as (C3 & R3).
      split; [exact C3|]. intros k Hk. now rewrite R3, E2, R1. }
    unfold when, handle_header, hlog, throw, ret in E.
    destruct (code =? 0); cbn [negb] in E.
    + apply (Fin w1 C1 ltac:(reflexivity) E).
    + destruct exceptions.
      * injection E as <- <-. split; [now apply hcore_logged|].
        intros k Hk. exact (R1 k Hk).
      * apply (Fin _ (hcore_logged _ _ _ _ _ C1) ltac:(reflexivity) E).
Qed.

(** [CreateHandle] takes a block of the handle allocator and constructs a
    handle with no reference in it; the null handle and the handles there
    were are not touched. *)
Lemma CreateHandle_step (newp allocator memory file line : Z) (w : World)
    (pages free live : list Z) :
  hcore Null user w pages free live ->
  (freeList (HandleAllocator w) = 0 ->
   0 < newp /\ newp + pageSize (HandleAllocator w) <= 2 ^ 32
   /\ (forall x, newp <= x < newp + pageSize (HandleAllocator w) ->
         ~ user x /\ ~ (Null <= x < Null + sizeof_Handle))
   /\ (forall pages q,
         list_rep (heap w) (pageList (HandleAllocator w)) pages -> In q pages ->
         q + pageSize (HandleAllocator w) <= newp
         \/ newp + pageSize (HandleAllocator w) <= q)) ->
  (exists u, allocators w allocator = Some u
             /\ forall x, Free_writes u memory x -> user x) ->
  0 <= allocator < 2 ^ 32 -> 0 <= memory < 2 ^ 32 ->
  exists h w1 pages' free',
    CreateHandle newp allocator memory file line w = Some (Returned h, w1)
    /\ hcore Null user w1 pages' free' (h :: live)
    /\ ~ In h live /\ h <> Null /\ refCount_of w1 h = 0
    /\ (forall f, In f free -> f = h \/ In f free')
    /\ (forall k, k = Null \/ In k live -> refCount_of w1 k = refCount_of w k)
    /\ storage_of w1 h = memory /\ allocator_of w1 h = allocator.
Proof.
  clear cstr exceptions MemoryHandle_cpp.
  intros C Hfresh (u & Hu & Huw) Hal Hmem.
  pose proof C as [I Hbs Hpg Hn Hns Hl Hf Ha]. pose proof I as [G P Sp F N B Pd L Fz].
  destruct (geometry_pos _ G) as (Hpad & Hbs' & Hla & Hia & Hhs & Hics & Hlo & Hps).
  set (a := HandleAllocator w) in *.
  assert (Hfr' : freeList a = 0 ->
            0 < newp /\ newp + pageSize a <= 2 ^ 32
            /\ forall q, In q pages -> q + pageSize a <= newp \/ newp + pageSize a <= q).
  { intros E0. destruct (Hfresh E0) as (H1 & H2 & _ & H4).
    split; [exact H1 | split; [exact H2|]]. intros q Hq. exact (H4 pages q P Hq). }
  destruct (Allocate_inv newp file line a (heap w) pages free live I Hfr')
    as (p & a' & m' & free' & EA & I' & Ed & _ & _ & _ & _ & (pg & Hpgin & Hblk)
        & _ & _ & Hf1 & Hf2 & Fr & _).
  set (pages' := if freeList a =? 0 then newp :: pages else pages) in *.
  unfold dims in Ed. injection Ed as E1 E2 E3 E4 E5 E6 E7 E8.
  destruct (block_extent a G pg p Hblk) as [X Y].
  pose proof I' as [G' P' Sp' F' N' B' Pd' L' Fz'].
  assert (Hpg' : forall q x, In q pages' -> q <= x < q + pageSize a ->
             ~ user x /\ ~ (Null <= x < Null + sizeof_Handle)).
  { intros q x Hq Hx. subst pages'. destruct (Z.eqb_spec (freeList a) 0) as [E0 | E0].
    - destruct Hq as [<- | Hq]; [|now apply (Hpg q)].
      destruct (Hfresh E0) as (_ & _ & H3 & _). now apply H3.
    - now apply (Hpg q). }
  assert (Hnew : forall k x, In k free \/ In k live -> k <= x < k + sizeof_Handle ->
             freeList a = 0 -> x < newp \/ newp + pageSize a <= x).
  { intros k x Hk Hx E0. destruct (B k Hk) as (q & Hq & Bq).
    destruct (block_extent a G q k Bq) as [X1 Y1].
    destruct (Hfr' E0) as (_ & _ & H4). specialize (H4 q Hq).
    unfold sizeof_Handle, ptrSize in *. lia. }
  assert (Hpl : ~ In p live).
  { intros Hin. apply NoDup_app_remove_l in N'. apply NoDup_cons_iff in N'. tauto. }
  assert (Hpn : p <> Null).
  { intros ->. apply (proj2 (Hpg' pg Null Hpgin ltac:(unfold ptrSize in *; lia))).
    unfold sizeof_Handle. lia. }
  set (m3 := store32 (store32 (store32 m' (p + off_memory) memory)
                        (p + off_allocator) allocator) (p + off_refCount) 0).
  assert (E3' : forall x, x < p \/ p + sizeof_Handle <= x -> m3 x = m' x).
  { intros x Hx. subst m3. unfold off_memory, off_allocator, off_refCount,
      sizeof_Handle in *. rewrite !store32_out by lia. reflexivity. }
  assert (Hold : forall k x, k = Null \/ ((In k free \/ In k live) /\ k <> p) ->
            (k = Null \/ In k free' \/ In k live) ->
            k <= x < k + sizeof_Handle -> m3 x = heap w x).
  { intros k x Hk Hk' Hx.
    assert (Hout : x < p - padBytes (settings a) - headerSize a
                   \/ p + blockSize a <= x).
    { destruct Hk as [-> | [Hk Hne]].
      - destruct (Z_lt_le_dec x pg).
        + unfold ptrSize in *. lia.
        + destruct (Z_lt_le_dec x (pg + pageSize a)); [|lia].
          exfalso. exact (proj2 (Hpg' pg x Hpgin ltac:(lia)) Hx).
      - assert (Hk2 : In k free' \/ In k (p :: live)).
        { destruct Hk' as [-> | [Hk' | Hk']]; [|now left | now right; right].
          exfalso. destruct Hk as [Hk | Hk];
            exact (null_not_block w pages free live Null C ltac:(tauto) eq_refl). }
        destruct (heap_inv_apart a' m' _ _ pages' free' (p :: live) k p I' Hk2
                    (or_intror (in_eq p live)) Hne) as [H | H];
          rewrite ?E1, ?E2, ?E3 in H; unfold sizeof_Handle in *; lia. }
    rewrite E3' by (unfold sizeof_Handle in *; lia). apply Fr.
    - destruct Hk as [-> | [Hk Hne]].
      + intros E0. destruct (Hfresh E0) as (_ & _ & H3 & _).
        destruct (Z_lt_le_dec x newp); [now left|].
        destruct (Z_lt_le_dec x (newp + pageSize a)); [|now right].
        exfalso. exact (proj2 (H3 x ltac:(lia)) Hx).
      + now apply (Hnew k).
    - lia. }
  exists p, (set_heap (set_HandleAllocator w a') m3), pages', free'.
  split.
  { unfold CreateHandle, bind, HandleAllocator_Allocate, Handle_ctor, put32, ret.
    fold a. rewrite EA. reflexivity. }
  set (w1 := set_heap (set_HandleAllocator w a') m3).
  assert (Hfs : forall k, k = Null \/ ((In k free \/ In k live) /\ k <> p) ->
            (k = Null \/ In k free' \/ In k live) ->
            refCount_of w1 k = refCount_of w k /\ storage_of w1 k = storage_of w k
            /\ allocator_of w1 k = allocator_of w k).
  { intros k Hk Hk'. apply fields_same. intros x Hx. now apply (Hold k). }
  assert (Hlive : forall k, In k live -> k <> p) by (intros k Hk ->; tauto).
  assert (Est : storage_of w1 p = memory).
  { unfold storage_of, w1, m3, off_memory, off_allocator, off_refCount.
    cbn [heap set_heap allocators set_HandleAllocator].
    rewrite !load32_store32_other by lia. now rewrite load32_store32. }
  assert (Eal : allocator_of w1 p = allocator).
  { unfold allocator_of, w1, m3, off_memory, off_allocator, off_refCount.
    cbn [heap set_heap allocators set_HandleAllocator].
    rewrite load32_store32_other by lia. now rewrite load32_store32. }
  split; [|split; [exact Hpl | split; [exact Hpn | split; [|split; [exact Hf1
    | split; [|split; [exact Est | exact Eal]]]]]]].
  - constructor.
    + apply (pool_inv_live_write a' m' m3 pages' free' (p :: live) p I' (in_eq p live)).
      intros x Hx. apply E3'. rewrite E3 in Hx. unfold sizeof_Handle in *. lia.
    + cbn. now rewrite E3.
    + intros q x Hq Hx. cbn in Hx. rewrite E4 in Hx. now apply (Hpg' q).
    + exact Hn.
    + rewrite <- Hns. apply (Hfs Null); now left.
    + intros k [<- | Hk].
      * right. exists u. rewrite Est, Eal. split; [exact Hu | exact Huw].
      * destruct (Hfs k) as (_ & Es & Ea); [right; split; [tauto | now apply Hlive]
          | tauto |].
        destruct (Hl k Hk) as [H0 | (u0 & Hu0 & Hw0)]; [left; congruence|].
        right. exists u0. unfold user_safe. rewrite Es, Ea. auto.
    + intros f Hf'.
      assert (Hne : f <> p).
      { intros ->. exact (NoDup_app_disjoint free' (p :: live) p N' Hf' (in_eq p live)). }
      destruct (Hf2 f Hf') as [Hin | Hraw].
      * destruct (Hfs f) as (_ & _ & Ea); [right; tauto | tauto |].
        change (allocators w1) with (allocators w). rewrite Ea. now apply Hf.
      * change (allocators w1) with (allocators w).
        apply (no_allocator_at w pages free live _ C).
        unfold allocator_of, off_allocator. rewrite (load32_fill _ (f + 4) UNALLOCATED).
        -- cbn. discriminate.
        -- intros x Hx. cbn [heap w1 set_heap].
           destruct (heap_inv_apart a' m' _ _ pages' free' (p :: live) f p I'
                       (or_introl Hf') (or_intror (in_eq p live)) Hne) as [H | H];
             rewrite ?E1, ?E2, ?E3 in H;
             (rewrite E3' by (unfold sizeof_Handle in *; lia));
             apply Hraw; unfold ptrSize, sizeof_Handle in *; lia.
    + exact Ha.
  - unfold refCount_of, w1, m3. cbn [heap set_heap].
    apply signed_load32_store32. lia.
  - intros k Hk. apply (Hfs k); [|tauto].
    destruct Hk as [-> | Hk]; [now left | right; split; [tauto | now apply Hlive]].
Qed.

(** ** The pointer operations keep the invariants *)

Lemma AddRef_inv (w : World) (ps pages free live : list Z) (h : Z) :
  pinv Null user w ps pages free live -> h = Null \/ In h ps ->
  Z.of_nat (List.length ps) + 2 < 2 ^ 31 ->
  pinv Null user (incremented w h) (h :: ps) pages free live
  /\ (counted Null w ps live -> counted Null (incremented w h) (h :: ps) live).
Proof.
  intros J Hh Hlen. pose proof J as [C Hn Hb Hp].
  assert (Hv : h = Null \/ In h free \/ In h live).
  { destruct Hh as [-> | Hh]; [now left | now apply Hp]. }
  split; [now apply AddRef_pinv|].
  intros [Kp Kl]. apply (AddRef_counted w ps pages free live h J Kp).
  - intros k Hk _. now apply Kl.
  - destruct Hh as [-> | Hh]; [now left|].
    destruct (Kp h Hh) as [-> | Hl]; [now left|].
    right. split; [exact Hl | now apply Kl].
  - exact Hlen.
Qed.

Lemma RemoveRef_inv (fuel : nat) (i : nat) (h file line : Z) (w : World)
    (ps pages free live : list Z) (r : result unit) (w' : World) :
  pinv Null user w ps pages free live -> nth_error ps i = Some h ->
  Handle.RemoveRef cstr exceptions MemoryHandle_cpp fuel h file line w = Some (r, w') ->
  exists free' live',
    match r with
    | Returned _ =>
      pinv Null user w' (remove_nth i ps) pages free' live'
      /\ (counted Null w ps live -> counted Null w' (remove_nth i ps) live')
    | Thrown _ => pinv Null user w' ps pages free' live'
    end.
Proof.
  intros [C Hn Hb Hp] Ei E.
  assert (Hin : In h ps) by (eapply nth_error_In; eassumption).
  pose proof (Hp h Hin) as Hv.
  pose proof (refs_bound ps Null). pose proof (refs_nonneg ps Null).
  assert (Hnull : h = Null -> 1 < refCount_of w Null).
  { intros ->. apply refs_In in Hin. lia. }
  assert (N : NoDup (free ++ live)).
  { pose proof C as [I _ _ _ _ _ _ _]. now pose proof I as [_ _ _ _ N _ _ _ _]. }
  pose proof (length_remove_nth i ps h Ei) as Hlen.
  destruct (decremented_spec w pages free live h C Hv) as (C1 & _ & Epred & Fr1).
  destruct (RemoveRef_step fuel h file line w pages free live r w' C Hv Hnull E)
    as [(C' & Rc & Hret & Hr) | (-> & Hle & l1 & l2 & -> & C' & Fr)].
  - exists free, live.
    assert (Hnull' : h = Null -> refCount_of (decremented w h) h = refs ps Null).
    { intros ->. rewrite Epred; [lia|]. specialize (Hnull eq_refl). lia. }
    destruct r as [u|e].
    + split.
      * constructor.
        -- exact C'.
        -- rewrite Rc, (refs_remove_nth i ps h Null Ei).
           destruct (Z.eq_dec h Null) as [-> | Hne].
           ++ rewrite (Hnull' eq_refl). lia.
           ++ rewrite Fr1; [exact Hn | congruence | now left].
        -- lia.
        -- intros p Hp'. apply Hp. now apply In_remove_nth in Hp'.
      * intros [Kp Kl]. constructor.
        -- intros p Hp'. apply Kp. now apply In_remove_nth in Hp'.
        -- intros k Hk. rewrite Rc, (refs_remove_nth i ps h k Ei).
           destruct (Z.eq_dec h k) as [-> | Hne].
           ++ destruct (Kl k Hk) as [Ek Hpos].
              pose proof (refs_bound ps k).
              assert (Ed : refCount_of (decremented w k) k = refs ps k - 1).
              { rewrite Epred; lia. }
              split; [exact Ed|]. rewrite <- Ed.
              destruct (Hr ltac:(destruct u; reflexivity)) as [Hq | Hq]; [exact Hq|].
              exfalso. exact (NoDup_app_disjoint free live k N Hq Hk).
           ++ rewrite Fr1 by (try congruence; tauto). now apply Kl.
    + constructor; try assumption.
      rewrite Rc, Fr1; [exact Hn | | now left].
      intros ->. specialize (Hret ltac:(rewrite (Hnull' eq_refl);
        apply refs_In in Hin; exact Hin)). discriminate.
  - exists (h :: free), (l1 ++ l2).
    assert (Hl : In h (l1 ++ h :: l2)) by apply in_elt.
    assert (Hne : Null <> h).
    { apply (null_not_block w pages free (l1 ++ h :: l2) h C). now right. }
    assert (Hmove : forall p, p = Null \/ In p free \/ In p (l1 ++ h :: l2) ->
              p = Null \/ In p (h :: free) \/ In p (l1 ++ l2)).
    { intros p Hp'. rewrite in_app_iff in *. cbn [In] in *.
      destruct (Z.eq_dec h p); tauto. }
    split.
    + constructor.
      * exact C'.
      * rewrite Fr, (refs_remove_nth i ps h Null Ei) by (try congruence; tauto).
        destruct (Z.eq_dec h Null); [congruence | exact Hn].
      * lia.
      * intros p Hp'. apply Hmove, Hp. now apply In_remove_nth in Hp'.
    + intros [Kp Kl].
      destruct (Kl h Hl) as [Ek Hpos]. pose proof (refs_bound ps h).
      assert (E1 : refs ps h = 1) by (rewrite Epred in Hle; lia).
      assert (Hgone : ~ In h (remove_nth i ps)).
      { intros Hc. apply refs_In in Hc. rewrite (refs_remove_nth i ps h h Ei) in Hc.
        destruct (Z.eq_dec h h); [lia | congruence]. }
      assert (Hnd : ~ In h (l1 ++ l2)).
      { apply NoDup_app_remove_l in N. now apply NoDup_remove_2 in N. }
      constructor.
      * intros p Hp'. destruct (Kp p (In_remove_nth i ps p Hp')) as [-> | Hpl];
          [now left|].
        right. rewrite in_app_iff in *. cbn [In] in Hpl.
        destruct Hpl as [Hpl | [<- | Hpl]]; tauto.
      * intros k Hk.
        assert (Hkh : k <> h) by (intros ->; tauto).
        assert (Hkl : In k (l1 ++ h :: l2))
          by (rewrite in_app_iff in *; cbn [In]; tauto).
        rewrite Fr, (refs_remove_nth i ps h k Ei) by (try congruence; tauto).
        destruct (Z.eq_dec h k); [congruence | now apply Kl].
Qed.

Lemma HFree_inv (fuel : nat) (h file line : Z) (w : World)
    (ps pages free live : list Z) (r : result unit) (w' : World) :
  pinv Null user w ps pages free live -> In h ps ->
  Handle.Free cstr exceptions fuel h file line w = Some (r, w') ->
  pinv Null user w' ps pages free live
  /\ (counted Null w ps live -> counted Null w' ps live).
Proof.
  intros [C Hn Hb Hp] Hin E.
  destruct (HFree_step fuel h file line w pages free live r w' C (Hp h Hin) E)
    as (C' & Fr).
  split.
  - constructor; try assumption. rewrite Fr; [exact Hn | now left].
  - intros [Kp Kl]. constructor; [exact Kp|].
    intros k Hk. rewrite Fr by tauto. now apply Kl.
Qed.

Lemma Create_inv (newp allocator memory file line : Z) (w : World)
    (ps pages free live : list Z) :
  pinv Null user w ps pages free live ->
  admissible Null user (OpAllocate newp allocator memory file line) w ps ->
  exists h w1 pages' free',
    CreateHandle newp allocator memory file line w = Some (Returned h, w1)
    /\ refCount_of w1 h = 0
    /\ refCount_of (incremented w1 h) h = 1
    /\ storage_of (incremented w1 h) h = memory
    /\ pinv Null user (incremented w1 h) (h :: ps) pages' free' (h :: live)
    /\ (counted Null w ps live ->
        counted Null (incremented w1 h) (h :: ps) (h :: live)).
Proof.
  clear cstr exceptions MemoryHandle_cpp.
  intros [C Hn Hb Hp] (Hfresh & Hu & Hal & Hmem & Hlen).
  destruct (CreateHandle_step newp allocator memory file line w pages free live
              C Hfresh Hu Hal Hmem)
    as (h & w1 & pages' & free' & E & C1 & Hnl & Hnn & E0 & Hf1 & Fr & Est & _).
  exists h, w1, pages', free'. split; [exact E | split; [exact E0|]].
  assert (J1 : pinv Null user w1 ps pages' free' (h :: live)).
  { constructor.
    - exact C1.
    - rewrite Fr; [exact Hn | now left].
    - exact Hb.
    - intros p Hin. cbn [In]. destruct (Hp p Hin) as [-> | [Hf | Hl]]; [tauto | | tauto].
      destruct (Hf1 p Hf) as [-> | Hf']; tauto. }
  destruct (incremented_spec w1 pages' free' (h :: live) h C1
              ltac:(right; right; apply in_eq)) as (_ & E1 & _).
  split; [rewrite E1; lia|].
  split.
  { rewrite <- Est. unfold storage_of, incremented, off_memory, off_refCount.
    cbn [heap set_heap]. apply load32_store32_other. lia. }
  split; [apply AddRef_pinv; [exact J1 | right; right; apply in_eq | exact Hlen]|].
  intros [Kp Kl].
  apply (AddRef_counted w1 ps pages' free' (h :: live) h J1).
  - intros p Hin. cbn [In]. destruct (Kp p Hin); tauto.
  - intros k [-> | Hk] Hne; [congruence|]. rewrite Fr by tauto. now apply Kl.
  - right. split; [apply in_eq|]. rewrite E0. symmetry. apply refs_not_In.
    intros Hin. destruct (Kp h Hin); [congruence | tauto].
  - exact Hlen.
Qed.

(** [RemoveRef] on the handle of pointer [i], then [AddRef] on the handle
    it is rebound to. *)
Lemma rebind_inv (fuel : nat) (i : nat) (h rhs file line : Z) (w : World)
    (ps pages free live : list Z) (r : result Z) (w' : World) :
  pinv Null user w ps pages free live -> nth_error ps i = Some h ->
  rhs = Null \/ In rhs (remove_nth i ps) ->
  (Handle.RemoveRef cstr exceptions MemoryHandle_cpp fuel h file line ;;;
   AddRef rhs ;;; ret rhs) w = Some (r, w') ->
  exists free' live',
    match r with
    | Returned x =>
      x = rhs /\ pinv Null user w' (replace_nth i rhs ps) pages free' live'
      /\ (counted Null w ps live -> counted Null w' (replace_nth i rhs ps) live')
    | Thrown _ => pinv Null user w' ps pages free' live'
    end.
Proof.
  intros J Ei Hrhs E. pose proof (length_remove_nth i ps h Ei) as Hlen.
  pose proof (pi_bound Null user w ps pages free live J) as Hb.
  apply bind_inv in E as [(u & w1 & ER & E) | (e & ER & ->)].
  - destruct (RemoveRef_inv fuel i h file line w ps pages free live _ w1 J Ei ER)
      as (free' & live' & J1 & K1).
    unfold bind, ret in E. rewrite AddRef_eq in E. injection E as <- <-.
    destruct (AddRef_inv w1 (remove_nth i ps) pages free' live' rhs J1 Hrhs
                ltac:(lia)) as (J2 & K2).
    exists free', live'. split; [reflexivity|]. split.
    + apply (pinv_refs _ (rhs :: remove_nth i ps)); [| |exact J2].
      * intros k. now apply (refs_replace_nth i ps h).
      * rewrite length_replace_nth. cbn [List.length]. lia.
    + intros K. apply (counted_refs _ (rhs :: remove_nth i ps)); [|auto].
      intros k. now apply (refs_replace_nth i ps h).
  - exact (RemoveRef_inv fuel i h file line w ps pages free live _ w' J Ei ER).
Qed.

(** Every operation keeps [pinv]; when it returns it keeps [counted]. *)
Lemma exec_inv (fuel : nat) (o : op) (w : World) (ps pages free live : list Z)
    (r : result (list Z)) (w' : World) :
  pinv Null user w ps pages free live -> admissible Null user o w ps ->
  exec cstr exceptions Null MemoryHandle_cpp fuel o ps w = Some (r, w') ->
  exists pages' free' live',
    match r with
    | Returned ps' =>
      pinv Null user w' ps' pages' free' live'
      /\ (counted Null w ps live -> counted Null w' ps' live')
    | Thrown _ => pinv Null user w' ps pages' free' live'
    end.
Proof.
  intros J Ha E.
  destruct o as [newp al memory file line | | i | i | i j | i j | i | i file line];
    cbn [exec admissible] in *.
  - destruct (Create_inv newp al memory file line w ps pages free live J Ha)
      as (h & w1 & pages' & free' & EC & _ & _ & _ & J1 & K1).
    unfold PointerAllocate, Pointer_of_handle, bind, ret in E. rewrite EC in E.
    cbv beta iota in E. rewrite AddRef_eq in E. injection E as <- <-.
    exists pages', free', (h :: live). auto.
  - unfold Pointer_null, bind, ret in E. rewrite AddRef_eq in E. injection E as <- <-.
    exists pages, free, live.
    exact (AddRef_inv w ps pages free live Null J (or_introl eq_refl) Ha).
  - destruct (nth_error ps i) as [rhs|] eqn:Ei; [|discriminate].
    unfold Pointer_copy, bind, ret in E. rewrite AddRef_eq in E. injection E as <- <-.
    exists pages, free, live.
    exact (AddRef_inv w ps pages free live rhs J
             (or_intror (nth_error_In ps i Ei)) Ha).
  - destruct (nth_error ps i) as [h|] eqn:Ei; [|discriminate].
    unfold Pointer_dtor in E.
    apply bind_inv in E as [(u & w1 & ER & E) | (e & ER & ->)].
    + injection E as <- <-. exists pages.
      exact (RemoveRef_inv fuel i h 0 0 w ps pages free live _ w1 J Ei ER).
    + exists pages.
      exact (RemoveRef_inv fuel i h 0 0 w ps pages free live _ w' J Ei ER).
  - destruct (nth_error ps i) as [h|] eqn:Ei; [|discriminate].
    destruct (nth_error ps j) as [rhs|] eqn:Ej; [|discriminate].
    apply bind_inv in E as [(x & w1 & ER & E) | (e & ER & ->)].
    + injection E as <- <-. unfold Pointer_assign in ER.
      destruct (Nat.eqb_spec i j) as [Eij | Hij].
      * injection ER as <- <-. rewrite (replace_nth_same i ps h Ei).
        exists pages, free, live. auto.
      * destruct (rebind_inv fuel i h rhs 0 0 w ps pages free live _ w1 J Ei
                    (or_intror (In_remove_other i j ps rhs Hij Ej)) ER)
          as (free' & live' & -> & J1 & K1).
        exists pages, free', live'. auto.
    + unfold Pointer_assign in ER. destruct (Nat.eqb_spec i j) as [Eij | Hij];
        [discriminate|].
      exists pages.
      exact (rebind_inv fuel i h rhs 0 0 w ps pages free live _ w' J Ei
               (or_intror (In_remove_other i j ps rhs Hij Ej)) ER).
  - destruct (nth_error ps i) as [h|] eqn:Ei; [|discriminate].
    destruct (nth_error ps j) as [rhs|] eqn:Ej; [|discriminate].
    destruct (Nat.eqb_spec i j) as [Eij | Hij]; [discriminate|].
    apply bind_inv in E as [(x & w1 & ER & E) | (e & ER & ->)].
    + injection E as <- <-. unfold Pointer_assign_conv in ER.
      destruct (rebind_inv fuel i h rhs 0 0 w ps pages free live _ w1 J Ei
                  (or_intror (In_remove_other i j ps rhs Hij Ej)) ER)
        as (free' & live' & -> & J1 & K1).
      exists pages, free', live'. auto.
    + exists pages.
      exact (rebind_inv fuel i h rhs 0 0 w ps pages free live _ w' J Ei
               (or_intror (In_remove_other i j ps rhs Hij Ej)) ER).
  - destruct (nth_error ps i) as [h|] eqn:Ei; [|discriminate].
    apply bind_inv in E as [(x & w1 & ER & E) | (e & ER & ->)].
    + injection E as <- <-. unfold Pointer_assign_null in ER.
      destruct (rebind_inv fuel i h Null 0 0 w ps pages free live _ w1 J Ei
                  (or_introl eq_refl) ER) as (free' & live' & -> & J1 & K1).
      exists pages, free', live'. auto.
    + exists pages.
      exact (rebind_inv fuel i h Null 0 0 w ps pages free live _ w' J Ei
               (or_introl eq_refl) ER).
  - destruct (nth_error ps i) as [h|] eqn:Ei; [|discriminate].
    assert (Tail : forall w0 (r0 : result Z) w1,
              pinv Null user w0 ps pages free live ->
              (counted Null w ps live -> counted Null w0 ps live) ->
              (Handle.RemoveRef cstr exceptions MemoryHandle_cpp fuel h file line ;;;
               AddRef Null ;;; ret Null) w0 = Some (r0, w1) ->
              exists free' live',
                match r0 with
                | Returned x =>
                  x = Null /\ pinv Null user w1 (replace_nth i Null ps) pages free' live'
                  /\ (counted Null w ps live ->
                      counted Null w1 (replace_nth i Null ps) live')
                | Thrown _ => pinv Null user w1 ps pages free' live'
                end).
    { intros w0 r0 w1 J0 K0 ER.
      destruct (rebind_inv fuel i h Null file line w0 ps pages free live r0 w1 J0 Ei
                  (or_introl eq_refl) ER) as (free' & live' & H).
      exists free', live'. destruct r0 as [x|e]; [|exact H].
      destruct H as (-> & J1 & K1). auto. }
    apply bind_inv in E as [(x & w1 & ER & E) | (e & ER & ->)].
    + injection E as <- <-. unfold Pointer_Free in ER.
      apply bind_inv in ER as [(u & w0 & EF & ER) | (e & EF & Hx)]; [|discriminate].
      destruct (HFree_inv fuel h file line w ps pages free live _ w0 J
                  (nth_error_In ps i Ei) EF) as (J0 & K0).
      destruct (Tail w0 _ w1 J0 K0 ER) as (free' & live' & -> & J1 & K1).
      exists pages, free', live'. auto.
    + unfold Pointer_Free in ER.
      apply bind_inv in ER as [(u & w0 & EF & ER) | (e' & EF & Hx)].
      * destruct (HFree_inv fuel h file line w ps pages free live _ w0 J
                    (nth_error_In ps i Ei) EF) as (J0 & K0).
        destruct (Tail w0 _ w' J0 K0 ER) as (free' & live' & J1).
        exists pages, free', live'. exact J1.
      * destruct (HFree_inv fuel h file line w ps pages free live _ w' J
                    (nth_error_In ps i Ei) EF) as (J0 & K0).
        exists pages, free, live. exact J0.
Qed.

(** The world at program start. *)
Lemma init_fields (m : mem) (al : Z -> option Pool) :
  storage_of (init_world Null m al) Null = 0
  /\ refCount_of (init_world Null m al) Null = 1.
Proof.
  unfold storage_of, refCount_of, init_world, off_memory, off_allocator, off_refCount.
  cbn [heap set_heap]. split.
  - rewrite !load32_store32_other by lia. apply load32_store32. lia.
  - apply signed_load32_store32. lia.
Qed.

Lemma init_inv (m : mem) (al : Z -> option Pool) :
  (forall k, al k <> None -> k mod 4 = 0) ->
  (forall x, Null <= x < Null + sizeof_Handle -> ~ user x) ->
  pinv Null user (init_world Null m al) [] [] [] []
  /\ counted Null (init_world Null m al) [] [].
Proof.
  intros Hal Hn. destruct (init_fields m al) as [Es Er]. split.
  - constructor.
    + constructor.
      * apply ctor_inv. apply ctor_geometry; cbn; lia.
      * vm_compute. discriminate.
      * intros pg x [].
      * exact Hn.
      * exact Es.
      * intros h [].
      * intros f [].
      * exact Hal.
    + rewrite Er. reflexivity.
    + cbn. lia.
    + intros p [].
  - constructor; intros p [].
Qed.

(** [pinv] holds in every state of a pointer program. *)
Lemma reach_pointer_inv (w : World) (ps : list Z) :
  reach cstr exceptions Null MemoryHandle_cpp user w ps -> pointer_inv Null user w ps.
Proof.
  induction 1 as [m al Hal Hn | w ps fuel o r w' _ IH Ha E].
  - exists [], [], []. now apply init_inv.
  - destruct IH as (pages & free & live & J).
    destruct (exec_inv fuel o w ps pages free live r w' J Ha E)
      as (pages' & free' & live' & H).
    exists pages', free', live'. destruct r; tauto.
Qed.

(** [counted] holds as long as no operation raised. *)
Lemma returned_counted_inv (w : World) (ps : list Z) :
  returned cstr exceptions Null MemoryHandle_cpp user w ps -> counted_inv Null user w ps.
Proof.
  induction 1 as [m al Hal Hn | w ps fuel o ps' w' _ IH Ha E].
  - exists [], [], []. now apply init_inv.
  - destruct IH as (pages & free & live & J & K).
    destruct (exec_inv fuel o w ps pages free live _ w' J Ha E)
      as (pages' & free' & live' & J' & K').
    exists pages', free', live'. auto.
Qed.

End Prims.

(** Without exceptions nothing raises. *)
Lemma Free_quiet (cstr : Z -> string) (fuel : nat) (del file line : Z) (a : Pool)
    (m : mem) (r : result Z) (a' : Pool) (m' : mem) :
  ObjectAllocator.Free cstr false fuel del file line a m = Some (r, a', m') ->
  exists c, r = Returned c.
Proof.
  unfold ObjectAllocator.Free.
  destruct (Free_walk cstr fuel a m del file line (pageList a)) as [[|l e c]|];
    cbn; intros E; [| |discriminate]; injection E as <- _ _; eauto.
Qed.

Lemma RemoveRef_quiet (cstr : Z -> string) (MemoryHandle_cpp : Z) (fuel : nat)
    (h file line : Z) (w : World) (r : result unit) (w' : World) :
  Handle.RemoveRef cstr false MemoryHandle_cpp fuel h file line w = Some (r, w') ->
  exists u, r = Returned u.
Proof.
  intros E.
  destruct (RemoveRef_paths cstr false MemoryHandle_cpp fuel h file line w)
    as (P1 & _ & P3 & _ & P5).
  assert (Rel : forall w0,
            (HandleAllocator_Free cstr false fuel h MemoryHandle_cpp 88 ;;; ret tt) w0
            = Some (r, w') -> exists u, r = Returned u).
  { intros w0 E0. apply bind_inv in E0 as [(x & w1 & _ & E0) | (e & E0 & _)].
    - injection E0 as <- _. eauto.
    - unfold HandleAllocator_Free in E0.
      destruct (ObjectAllocator.Free cstr false fuel h MemoryHandle_cpp 88 _ _)
        as [[[r0 a0] m0]|] eqn:EF; [|discriminate].
      apply Free_quiet in EF as (c & ->). discriminate. }
  destruct (Z_lt_le_dec 0 (signed (load32 (heap w) (h + off_refCount) - 1)))
    as [Hpos | Hle].
  - rewrite (P1 Hpos) in E. injection E as <- _. eauto.
  - destruct (Z_lt_le_dec (signed (load32 (heap w) (h + off_refCount) - 1)) 0)
      as [Hneg | Hnn].
    + rewrite (P3 Hneg eq_refl) in E. now apply Rel in E.
    + rewrite (P5 ltac:(lia) (or_introl eq_refl)) in E. now apply Rel in E.
Qed.

Lemma HFree_quiet (cstr : Z -> string) (fuel : nat) (h file line : Z) (w : World)
    (r : result unit) (w' : World) :
  Handle.Free cstr false fuel h file line w = Some (r, w') -> exists u, r = Returned u.
Proof.
  unfold Handle.Free, bind, get32. cbv beta.
  destruct (load32 (heap w) (h + off_memory) =? 0).
  - unfold handle_header, hlog, when, ret. intros E. injection E as <- _. eauto.
  - destruct (allocator_Free cstr false fuel _ _ file line w) as [[[c|e] w1]|] eqn:EA;
      [| |discriminate].
    + unfold when, handle_header, hlog, ret, put32.
      destruct (c =? 0); cbn [negb]; intros E; injection E as <- _; eauto.
    + unfold allocator_Free in EA. destruct (allocators w _); [|discriminate].
      destruct (ObjectAllocator.Free cstr false fuel _ file line _ _)
        as [[[r0 a0] m0]|] eqn:EF; [|discriminate].
      apply Free_quiet in EF as (c & ->). discriminate.
Qed.

Lemma rebind_quiet (cstr : Z -> string) (MemoryHandle_cpp : Z) (fuel : nat)
    (h rhs file line : Z) (w : World) (r : result Z) (w' : World) :
  (Handle.RemoveRef cstr false MemoryHandle_cpp fuel h file line ;;;
   AddRef rhs ;;; ret rhs) w = Some (r, w') ->
  exists x, r = Returned x.
Proof.
  intros E. apply bind_inv in E as [(u & w1 & _ & E) | (e & E & _)].
  - unfold bind, ret in E. rewrite AddRef_eq in E. injection E as <- _. eauto.
  - apply RemoveRef_quiet in E as (u & E). discriminate.
Qed.

Lemma exec_quiet (cstr : Z -> string) (Null MemoryHandle_cpp : Z) (fuel : nat)
    (o : op) (ps : list Z) (w : World) (r : result (list Z)) (w' : World) :
  exec cstr false Null MemoryHandle_cpp fuel o ps w = Some (r, w') ->
  exists ps', r = Returned ps'.
Proof.
  intros E.
  assert (Fin : forall (c : M Z) (k : Z -> list Z),
            (forall w0 r0 w1, c w0 = Some (r0, w1) -> exists x, r0 = Returned x) ->
            (h' <- c ;; ret (k h')) w = Some (r, w') -> exists ps', r = Returned ps').
  { intros c k Hc E0. apply bind_inv in E0 as [(x & w1 & _ & E0) | (e & E0 & _)].
    - injection E0 as <- _. eauto.
    - apply Hc in E0 as (x & E0). discriminate. }
  destruct o as [newp al memory file line | | i | i | i j | i j | i | i file line];
    cbn [exec] in E.
  - apply Fin in E; [exact E|]. intros w0 r0 w1.
    unfold PointerAllocate, CreateHandle, Pointer_of_handle, HandleAllocator_Allocate,
      Handle_ctor, bind, put32, ret.
    destruct (Allocate newp file line _ _) as [[p a] m0]. rewrite AddRef_eq.
    intros E0. injection E0 as <- _. eauto.
  - apply Fin in E; [exact E|]. intros w0 r0 w1. unfold Pointer_null, bind, ret.
    rewrite AddRef_eq. intros E0. injection E0 as <- _. eauto.
  - destruct (nth_error ps i) as [rhs|]; [|discriminate].
    apply Fin in E; [exact E|]. intros w0 r0 w1. unfold Pointer_copy, bind, ret.
    rewrite AddRef_eq. intros E0. injection E0 as <- _. eauto.
  - destruct (nth_error ps i) as [h|]; [|discriminate].
    apply bind_inv in E as [(x & w1 & _ & E) | (e & E & _)].
    + injection E as <- _. eauto.
    + apply RemoveRef_quiet in E as (u & E). discriminate.
  - destruct (nth_error ps i) as [h|]; [|discriminate].
    destruct (nth_error ps j) as [rhs|]; [|discriminate].
    apply Fin in E; [exact E|]. intros w0 r0 w1. unfold Pointer_assign.
    destruct (Nat.eqb i j).
    + intros E0. injection E0 as <- _. eauto.
    + apply rebind_quiet.
  - destruct (nth_error ps i) as [h|]; [|discriminate].
    destruct (nth_error ps j) as [rhs|]; [|discriminate].
    destruct (Nat.eqb i j); [discriminate|].
    apply Fin in E; [exact E|]. intros w0 r0 w1. apply rebind_quiet.
  - destruct (nth_error ps i) as [h|]; [|discriminate].
    apply Fin in E; [exact E|]. intros w0 r0 w1. apply rebind_quiet.
  - destruct (nth_error ps i) as [h|]; [|discriminate].
    apply Fin in E; [exact E|]. intros w0 r0 w1 E0. unfold Pointer_Free in E0.
    apply bind_inv in E0 as [(u & w2 & _ & E0) | (e & E0 & _)].
    + now apply rebind_quiet in E0.
    + apply HFree_quiet in E0 as (u & E0). discriminate.
Qed.

Lemma reach_returned (cstr : Z -> string) (Null MemoryHandle_cpp : Z)
    (user : Z -> Prop) (w : World) (ps : list Z) :
  reach cstr false Null MemoryHandle_cpp user w ps ->
  returned cstr false Null MemoryHandle_cpp user w ps.
Proof.
  induction 1 as [m al Hal Hn | w ps fuel o r w' _ IH Ha E].
  - now constructor.
  - destruct (exec_quiet cstr Null MemoryHandle_cpp fuel o ps w r w' E) as (ps' & ->).
    exact (returned_step cstr false Null MemoryHandle_cpp user w ps fuel o ps' w'
             IH Ha E).
Qed.

End HandleFacts.
Import HandleFacts.






(** * Reference counts of pointer programs *)

(** C8.  The null handle starts with no storage and a count of 1.  In every
    state of a pointer program (null and handle construction, copies,
    assignments, null assignment, destruction and [Free], whether or not
    they raised) its count is one more than the number of pointers that
    reference it, so it is positive; and [RemoveRef] issued by a pointer
    that references it only decrements the count: the count stays positive
    and the null handle is not handed to the handle allocator. *)
Theorem Null_handle_never_released (cstr : Z -> string) (exceptions : bool)
    (Null MemoryHandle_cpp : Z) (user : Z -> Prop) (w : World) (ps : list Z) :
  reach cstr exceptions Null MemoryHandle_cpp user w ps ->
  (forall m al, storage_of (init_world Null m al) Null = 0
                /\ refCount_of (init_world Null m al) Null = 1)
  /\ refCount_of w Null = 1 + refs ps Null
  /\ 0 < refCount_of w Null
  /\ (forall fuel file line, In Null ps ->
       Handle.RemoveRef cstr exceptions MemoryHandle_cpp fuel Null file line w
       = Some (Returned tt, decremented w Null)
       /\ 0 < refCount_of (decremented w Null) Null).
Proof.
  intros R.
  destruct (reach_pointer_inv cstr exceptions Null MemoryHandle_cpp user w ps R)
    as (pages & free & live & [C Hn Hb Hp]).
  pose proof (refs_nonneg ps Null) as H0.
  split; [intros m al; apply init_fields|].
  split; [exact Hn|]. split; [lia|].
  intros fuel file line Hin. apply refs_In in Hin.
  destruct (decremented_spec Null user w pages free live Null C (or_introl eq_refl))
    as (_ & Erc & Epred & _).
  assert (E1 : refCount_of (decremented w Null) Null = refs ps Null).
  { rewrite Epred; lia. }
  split; [|lia].
  destruct (RemoveRef_paths cstr exceptions MemoryHandle_cpp fuel Null file line w)
    as (P1 & _).
  apply P1. rewrite <- Erc. lia.
Qed.

(** After [Pointer<T> p;] the null handle counts two references. *)
Lemma Null_handle_never_released_witness :
  let cs := fun _ : Z => EmptyString in
  let user := fun _ : Z => False in
  let w := incremented (init_world 64 (fun _ => 0) (fun _ => None)) 64 in
  reach cs true 64 0 user w [64] /\ refCount_of w 64 = 2.
Proof.
  intros cs user w.
  assert (R : reach cs true 64 0 user w [64]).
  { apply (reach_step cs true 64 0 user (init_world 64 (fun _ => 0) (fun _ => None))
             [] 0%nat OpNull (Returned [64]) w).
    - apply reach_init; [intros k H; now contradict H | intros x _ []].
    - cbn. lia.
    - reflexivity. }
  split; [exact R|].
  destruct (Null_handle_never_released cs true 64 0 user w [64] R) as (_ & H & _).
  rewrite H. reflexivity.
Defined.

(** C7, as stated, fails when exceptions are enabled: a program allocates
    [p] with [PointerAllocate] and runs [p = nullptr] before freeing it.
    [RemoveRef] decrements the count to 0 and raises the dangling-reference
    exception before [p] is rebound, so [p] still references its handle,
    whose count is 0. *)
Lemma refCount_zero_counterexample :
  let cs := fun _ : Z => EmptyString in
  let user := fun x : Z => 8192 <= x < 12288 in
  let pool := ObjectAllocator_ctor 8 None default_settings in
  let al := fun k : Z => if k =? 4096 then Some pool else None in
  let w0 := init_world 64 (fun _ => 0) al in
  exists h w1 w2 e,
    exec cs true 64 0 0 (OpAllocate 100000 4096 9000 0 7) [] w0
    = Some (Returned [h], w1)
    /\ exec cs true 64 0 0 (OpAssignNull 0) [h] w1 = Some (Thrown e, w2)
    /\ reach cs true 64 0 user w2 [h]
    /\ refCount_of w2 h = 0.
Proof.
  intros cs user pool al w0.
  assert (Hal : forall k, al k <> None -> k mod 4 = 0).
  { intros k. unfold al. destruct (Z.eqb_spec k 4096) as [-> | _]; [reflexivity|].
    intros H. now contradict H. }
  assert (Hn : forall x, 64 <= x < 64 + sizeof_Handle -> ~ user x).
  { intros x Hx. unfold user, sizeof_Handle in *. lia. }
  destruct (init_inv 64 user (fun _ => 0) al Hal Hn) as [J0 _].
  assert (Eps : pageSize (HandleAllocator w0) = 28678) by reflexivity.
  assert (Ha : admissible 64 user (OpAllocate 100000 4096 9000 0 7) w0 []).
  { cbn [admissible]. rewrite Eps. split; [intros _; repeat split; try lia|].
    - unfold user. lia.
    - unfold sizeof_Handle. lia.
    - intros pages q Hp Hq. apply list_rep_null in Hp. subst pages. destruct Hq.
    - split; [|cbn; lia]. exists pool. split; [reflexivity|].
      intros x. unfold Free_writes, user. cbn. lia. }
  destruct (Create_inv 64 user 100000 4096 9000 0 7 w0 [] [] [] [] J0 Ha)
    as (h & wc & pages' & free' & EC & _ & E1 & Est & J1 & _).
  set (w1 := incremented wc h) in *.
  assert (X1 : exec cs true 64 0 0 (OpAllocate 100000 4096 9000 0 7) [] w0
               = Some (Returned [h], w1)).
  { cbn [exec]. unfold PointerAllocate, Pointer_of_handle, bind, ret.
    rewrite EC. reflexivity. }
  pose proof (reach_step cs true 64 0 user w0 [] 0%nat _ _ w1
                (reach_init cs true 64 0 user _ al Hal Hn) Ha X1) as R1.
  cbv beta iota in R1.
  destruct (decremented_spec 64 user w1 pages' free' [h] h
              (pi_core 64 user w1 [h] pages' free' [h] J1)
              ltac:(right; right; apply in_eq)) as (_ & Erc & Epred & _).
  assert (E0 : refCount_of (decremented w1 h) h = 0) by (rewrite Epred; lia).
  assert (Es : storage_of (decremented w1 h) h <> 0).
  { replace (storage_of (decremented w1 h) h) with (storage_of w1 h); [lia|].
    unfold storage_of, decremented, off_memory, off_refCount. cbn [heap set_heap].
    symmetry. apply load32_store32_other. lia. }
  destruct (RemoveRef_paths cs true 0 0%nat h 0 0 w1) as (_ & _ & _ & P4 & _).
  rewrite <- Erc in P4. specialize (P4 E0 eq_refl Es).
  assert (X2 : exec cs true 64 0 0 (OpAssignNull 0) [h] w1
               = Some (Thrown (mkException cs
                         "Dangling reference: All references removed before pointer freed."
                         0 0), decremented w1 h)).
  { cbn [exec nth_error]. unfold Pointer_assign_null, bind. rewrite P4. reflexivity. }
  eexists h, w1, (decremented w1 h), _. split; [exact X1|]. split; [exact X2|].
  split; [|exact E0].
  exact (reach_step cs true 64 0 user w1 [h] 0%nat (OpAssignNull 0) _ _ R1 I X2).
Qed.

(** C7, amended.  As long as no operation raised (so in every state of a
    build without exceptions), every handle a pointer references has a
    positive count, and a handle other than the null handle counts exactly
    the pointers that reference it.  [CreateHandle] constructs the handle
    with a count of 0, and the pointer that [PointerAllocate] returns adds
    the first reference: its handle has a count of 1. *)
Theorem refCount_counts_pointers (cstr : Z -> string) (exceptions : bool)
    (Null MemoryHandle_cpp : Z) (user : Z -> Prop) (w : World) (ps : list Z) :
  returned cstr exceptions Null MemoryHandle_cpp user w ps
  \/ (exceptions = false /\ reach cstr exceptions Null MemoryHandle_cpp user w ps) ->
  (forall h, In h ps ->
     0 < refCount_of w h /\ (h <> Null -> refCount_of w h = refs ps h))
  /\ (forall newp allocator memory file line,
       admissible Null user (OpAllocate newp allocator memory file line) w ps ->
       exists h w1,
         CreateHandle newp allocator memory file line w = Some (Returned h, w1)
         /\ refCount_of w1 h = 0
         /\ PointerAllocate newp allocator memory file line w
            = Some (Returned h, incremented w1 h)
         /\ refCount_of (incremented w1 h) h = 1).
Proof.
  intros H.
  assert (R : returned cstr exceptions Null MemoryHandle_cpp user w ps).
  { destruct H as [R | [-> R]]; [exact R | now apply reach_returned]. }
  destruct (returned_counted_inv cstr exceptions Null MemoryHandle_cpp user w ps R)
    as (pages & free & live & J & [Kp Kl]).
  split.
  - intros h Hin. destruct (Kp h Hin) as [-> | Hl].
    + pose proof (pi_null Null user w ps pages free live J).
      pose proof (refs_nonneg ps Null). split; [lia | congruence].
    + destruct (Kl h Hl) as [E Hpos]. split; [lia | auto].
  - intros newp allocator memory file line Ha.
    destruct (Create_inv Null user newp allocator memory file line w ps pages free live
                J Ha) as (h & w1 & _ & _ & EC & E0 & E1 & _).
    exists h, w1. split; [exact EC | split; [exact E0 | split; [|exact E1]]].
    unfold PointerAllocate, Pointer_of_handle, bind, ret. rewrite EC. reflexivity.
Qed.

(** After [Pointer<T> p;] in a build without exceptions, the handle of [p]
    has a positive count. *)
Lemma refCount_counts_pointers_witness :
  let cs := fun _ : Z => EmptyString in
  let user := fun _ : Z => False in
  let w := incremented (init_world 64 (fun _ => 0) (fun _ => None)) 64 in
  returned cs false 64 0 user w [64] /\ 0 < refCount_of w 64.
Proof.
  intros cs user w.
  assert (R : returned cs false 64 0 user w [64]).
  { apply (returned_step cs false 64 0 user
             (init_world 64 (fun _ => 0) (fun _ => None)) [] 0%nat OpNull [64] w).
    - apply returned_init; [intros k H; now contradict H | intros x _ []].
    - cbn. lia.
    - reflexivity. }
  split; [exact R|].
  destruct (refCount_counts_pointers cs false 64 0 user w [64] (or_introl R))
    as (H & _).
  exact (proj1 (H 64 (or_introl eq_refl))).
Defined.

(** * Further properties of the allocator *)

Module PoolMore.

(** The head of a list in memory is determined by the list. *)
Lemma list_rep_fun (m m' : mem) (p q : Z) (l : list Z) :
  list_rep m p l -> list_rep m' q l -> p = q.
Proof. destruct l; cbn [list_rep]; [congruence|]. intros (-> & _) (-> & _). reflexivity. Qed.

(** An address apart from every page is in none, as [Free] computes. *)
Lemma first_page_none (a : Pool) (del : Z) (l : list Z) :
  pages_sep a l -> 0 <= del < 2 ^ 32 -> 0 < pageSize a ->
  (forall pg, In pg l -> del < pg \/ pg + pageSize a <= del) ->
  first_page a del l = None.
Proof.
  induction l as [|p l IH]; intros Sp Hd Hps Hout; [reflexivity|].
  cbn [first_page pages_sep] in *. destruct Sp as (H0 & H1 & _ & Sp).
  rewrite IH by (try assumption; intros pg Hpg; apply Hout; now right).
  rewrite (wrap_small del), (wrap_small p) by lia.
  change (2 ^ 32) with 4294967296 in *.
  destruct (Hout p (or_introl eq_refl)) as [Hlt | Hge].
  - replace (wrap (del - p)) with (del - p + 4294967296).
    + destruct (Z.ltb_spec (del - p + 4294967296) (pageSize a)); [lia | reflexivity].
    + unfold wrap. change (2 ^ 32) with 4294967296.
      apply Z.mod_unique with (q := -1); lia.
  - rewrite wrap_small by (change (2 ^ 32) with 4294967296; lia).
    destruct (Z.ltb_spec (del - p) (pageSize a)); [lia | reflexivity].
Qed.

(** The block of a pool in use and the page [new] returns do not meet. *)
Lemma block_not_in_new_page (a : Pool) (m : mem) (pages free live : list Z)
    (newp b x : Z) :
  pool_inv a m pages free live -> In b free \/ In b live ->
  (forall q, In q pages -> q + pageSize a <= newp \/ newp + pageSize a <= q) ->
  b - padBytes (settings a) - headerSize a <= x
  < b + blockSize a + padBytes (settings a) ->
  x < newp \/ newp + pageSize a <= x.
Proof.
  intros [G P Sp F N B Pd L Fz] Hb Hq Hx.
  destruct (geometry_pos a G) as (Hpad & Hbs & Hla & Hia & Hhs & Hics & Hlo & Hps).
  destruct (B b Hb) as (pg & Hpg & Bb).
  destruct (block_extent a G pg b Bb) as [X Y].
  specialize (Hq pg Hpg). unfold ptrSize in *. lia.
Qed.

End PoolMore.
Import PoolMore.

(** [Push] puts an object on top of a stack kept in memory and [Pop] takes
    it off again: after [Push] the stack holds the object followed by what
    it held, [Pop] returns the object and the stack as it was, and only the
    link word of the object is written. *)
Theorem Push_Pop_stack (m : mem) (stack obj : Z) (l : list Z) :
  list_rep m stack l -> obj <> 0 -> 0 <= stack < 2 ^ 32 ->
  (forall q, In q l -> q + ptrSize <= obj \/ obj + ptrSize <= q) ->
  let st := Push m stack obj in
  list_rep (fst st) (snd st) (obj :: l)
  /\ Pop (fst st) (snd st) = (obj, stack)
  /\ (forall x, x < obj \/ obj + ptrSize <= x -> fst st x = m x).
Proof.
  intros R Hobj Hs Hl. unfold Push, Pop, ptrSize in *. cbn [fst snd].
  rewrite load32_store32 by exact Hs.
  split; [|split].
  - cbn [list_rep]. split; [reflexivity | split; [exact Hobj|]].
    rewrite load32_store32 by exact Hs.
    apply (list_rep_frame m); [exact R|].
    intros q x Hq Hx. apply store32_out. specialize (Hl q Hq). lia.
  - destruct (Z.eqb_spec obj 0); [contradiction | reflexivity].
  - intros x Hx. apply store32_out. lia.
Qed.

(** Pushing a second object on a stack that holds one. *)
Lemma Push_Pop_stack_witness :
  let m := store32 (fun _ => 0) 4096 0 in
  Pop (fst (Push m 4096 8192)) (snd (Push m 4096 8192)) = (8192, 4096).
Proof.
  intros m.
  refine (proj1 (proj2 (Push_Pop_stack m 4096 8192 [4096] _ _ _ _))).
  - cbn [list_rep]. split; [reflexivity | split; [lia|]]. reflexivity.
  - lia.
  - lia.
  - intros q [<- | []]. unfold ptrSize. lia.
Defined.

(** [Allocate] hands out a block that is not in use: it is not null, it
    overlaps no block in use, its bytes carry the ALLOCATED signature, and
    the contents of the blocks in use are not touched. *)
Theorem Allocate_fresh_block (newp file line : Z) (a : Pool) (m : mem)
    (pages free live : list Z) :
  pool_inv a m pages free live ->
  (freeList a = 0 ->
   0 < newp /\ newp + pageSize a <= 2 ^ 32
   /\ forall q, In q pages -> q + pageSize a <= newp \/ newp + pageSize a <= q) ->
  exists p a' m' pages' free',
    Allocate newp file line a m = (p, a', m')
    /\ pool_inv a' m' pages' free' (p :: live)
    /\ 0 < p /\ ~ In p live
    /\ (forall b, In b live -> b + blockSize a <= p \/ p + blockSize a <= b)
    /\ (forall x, p <= x < p + blockSize a -> m' x = ALLOCATED)
    /\ (forall b x, In b live -> b <= x < b + blockSize a -> m' x = m x).
Proof.
  intros I Hfresh.
  destruct (Allocate_inv newp file line a m pages free live I Hfresh)
    as (p & a' & m' & free' & E & I' & Ed & _ & _ & _ & _ & _ & Hall & _ & _ & _
        & Fr & _).
  exists p, a', m', (if freeList a =? 0 then newp :: pages else pages), free'.
  pose proof I as [G _ _ _ _ _ _ _ _]. pose proof I' as [_ _ _ _ N' _ _ _ _].
  destruct (geometry_pos a G) as (Hpad & Hbs & Hla & Hia & Hhs & Hics & Hlo & Hps).
  unfold dims in Ed. injection Ed as E1 E2 E3 E4 E5 E6 E7 E8.
  assert (Hnl : ~ In p live).
  { intros Hin. apply NoDup_app_remove_l in N'. apply NoDup_cons_iff in N'. tauto. }
  assert (Hap : forall b, In b live ->
            b + blockSize a + padBytes (settings a)
            <= p - padBytes (settings a) - headerSize a
            \/ p + blockSize a + padBytes (settings a)
               <= b - padBytes (settings a) - headerSize a).
  { intros b Hb.
    destruct (heap_inv_apart a' m' _ _ _ free' (p :: live) b p I'
                (or_intror (or_intror Hb)) (or_intror (in_eq p live))
                ltac:(intros ->; tauto)) as [H | H];
      rewrite ?E1, ?E2, ?E3 in H; [now left | now right]. }
  split; [exact E | split; [exact I'|]].
  split.
  { destruct (heap_inv_block_range a' m' _ _ _ free' (p :: live) p I'
                (or_intror (in_eq p live))) as [H _].
    rewrite E1, E2 in H. lia. }
  split; [exact Hnl|]. split.
  { intros b Hb. specialize (Hap b Hb). lia. }
  split; [exact Hall|].
  intros b x Hb Hx. apply Fr.
  - intros E0. destruct (Hfresh E0) as (_ & _ & Hq).
    apply (block_not_in_new_page a m pages free live newp b x I (or_intror Hb) Hq).
    lia.
  - specialize (Hap b Hb). lia.
Qed.

(** The first allocation from a new allocator of 8-byte elements. *)
Lemma Allocate_fresh_block_witness :
  let a0 := ObjectAllocator_ctor 8 None default_settings in
  exists p a1 m1 pages1 free1,
    Allocate 4096 0 1 a0 (fun _ => 0) = (p, a1, m1)
    /\ pool_inv a1 m1 pages1 free1 [p] /\ 0 < p
    /\ (forall x, p <= x < p + blockSize a0 -> m1 x = ALLOCATED).
Proof.
  intros a0.
  assert (G : geometry a0) by (apply ctor_geometry; cbn; lia).
  destruct (Allocate_fresh_block 4096 0 1 a0 (fun _ => 0) [] [] []
              (ctor_inv 8 None default_settings (fun _ => 0) G))
    as (p & a1 & m1 & pages1 & free1 & E1 & I1 & Hp & _ & _ & Hall & _).
  { intros _. cbn. repeat split; try lia; intros q []. }
  exists p, a1, m1, pages1, free1. auto.
Defined.

(** [Free] of a block in use returns it to the free list and leaves the
    contents of every other block in use alone; the freed block carries the
    FREED signature after its link word. *)
Theorem Free_keeps_other_blocks (cstr : Z -> string) (exceptions : bool)
    (fuel : nat) (b file line : Z) (a : Pool) (m : mem)
    (pages free live1 live2 : list Z) :
  pool_inv a m pages free (live1 ++ b :: live2) ->
  (List.length pages < fuel)%nat ->
  exists a' m',
    ObjectAllocator.Free cstr exceptions fuel b file line a m
    = Some (Returned 0, a', m')
    /\ pool_inv a' m' pages (b :: free) (live1 ++ live2)
    /\ (forall c x, In c (live1 ++ live2) -> c <= x < c + blockSize a -> m' x = m x)
    /\ (forall x, b + ptrSize <= x < b + blockSize a -> m' x = FREED).
Proof.
  intros I Hfuel.
  destruct (Free_live cstr exceptions fuel b file line a m pages free live1 live2
              I Hfuel) as (m' & E & I' & Fr & _ & Hfreed).
  do 2 eexists. split; [exact E|].
  split; [apply (pool_inv_intro a); [reflexivity | exact I']|].
  split; [|exact Hfreed].
  intros c x Hc Hx. apply Fr.
  pose proof I as [G _ _ _ N _ _ _ _].
  destruct (geometry_pos a G) as (Hpad & Hbs & Hla & Hia & Hhs & Hics & Hlo & Hps).
  assert (Hne : c <> b).
  { intros ->. apply NoDup_app_remove_l in N. apply NoDup_remove_2 in N. tauto. }
  assert (Hc' : In c (live1 ++ b :: live2))
    by (rewrite in_app_iff in *; cbn [In]; tauto).
  destruct (heap_inv_apart a m _ _ pages free _ c b I (or_intror Hc')
              (or_intror (in_elt b live1 live2)) Hne); lia.
Qed.

(** Two blocks are allocated and the second one is freed: the first one
    keeps its contents. *)
Lemma Free_keeps_other_blocks_witness :
  let cs := fun _ : Z => EmptyString in
  let a0 := ObjectAllocator_ctor 8 None
              {| blocksPerPage := 2; padBytes := 2; alignment := 4 |} in
  exists p a1 m1 q a2 m2 a3 m3,
    Allocate 4096 0 1 a0 (fun _ => 0) = (p, a1, m1)
    /\ Allocate 0 0 2 a1 m1 = (q, a2, m2)
    /\ ObjectAllocator.Free cs false 3 q 0 3 a2 m2 = Some (Returned 0, a3, m3)
    /\ (forall x, p <= x < p + blockSize a2 -> m3 x = m2 x).
Proof.
  intros cs a0.
  assert (G : geometry a0) by (apply ctor_geometry; cbn; lia).
  destruct (Allocate_inv 4096 0 1 a0 (fun _ => 0) [] [] []
              (ctor_inv 8 None {| blocksPerPage := 2; padBytes := 2; alignment := 4 |}
                 (fun _ => 0) G))
    as (p & a1 & m1 & free1 & E1 & I1 & _).
  { intros _. cbn. repeat split; try lia; intros q []. }
  change (freeList a0 =? 0) with true in I1. cbv iota in I1.
  assert (Hfl : freeList a1 <> 0).
  { unfold Allocate in E1. change (freeList a0 =? 0) with true in E1. cbv iota in E1.
    injection E1 as _ <- _. vm_compute. discriminate. }
  destruct (Allocate_inv 0 0 2 a1 m1 [4096] free1 [p] I1)
    as (q & a2 & m2 & free2 & E2 & I2 & _).
  { intros E0. contradiction. }
  destruct (Z.eqb_spec (freeList a1) 0) as [E0 | _]; [contradiction|].
  destruct (Free_keeps_other_blocks cs false 3 q 0 3 a2 m2 [4096] free2 [] [p] I2)
    as (a3 & m3 & E3 & _ & Hk & _).
  { cbn. lia. }
  exists p, a1, m1, q, a2, m2, a3, m3.
  repeat split; try assumption.
  intros x Hx. apply (Hk p x); [now left | exact Hx].
Defined.

(** The free list is a stack: the block just freed is the one the next
    [Allocate] returns, no page is created, and the free list is again what
    it was before the block was freed. *)
Theorem Free_Allocate_same (cstr : Z -> string) (exceptions : bool)
    (fuel : nat) (b file line newp file2 line2 : Z) (a : Pool) (m : mem)
    (pages free live1 live2 : list Z) :
  pool_inv a m pages free (live1 ++ b :: live2) ->
  (List.length pages < fuel)%nat ->
  exists a1 m1 a2 m2,
    ObjectAllocator.Free cstr exceptions fuel b file line a m
    = Some (Returned 0, a1, m1)
    /\ Allocate newp file2 line2 a1 m1 = (b, a2, m2)
    /\ freeList a2 = freeList a /\ pageList a2 = pageList a
    /\ pool_inv a2 m2 pages free (b :: live1 ++ live2).
Proof.
  intros I Hfuel.
  destruct (Free_live cstr exceptions fuel b file line a m pages free live1 live2
              I Hfuel) as (m1 & E & I1 & _).
  set (a1 := set_stats (set_freeList a b) _) in E.
  assert (P1 : pool_inv a1 m1 pages (b :: free) (live1 ++ live2))
    by (apply (pool_inv_intro a); [reflexivity | exact I1]).
  destruct (Allocate_pop newp file2 line2 a1 m1 pages free (live1 ++ live2) b P1)
    as (m2 & E2 & I2 & _).
  exists a1, m1. do 2 eexists. split; [exact E | split; [exact E2|]].
  assert (Efl : load32 m1 b = freeList a).
  { pose proof I as [_ _ _ F _ _ _ _ _]. pose proof I2 as [_ _ _ F2 _ _ _ _ _].
    exact (list_rep_fun _ _ _ _ free F2 F). }
  split; [exact Efl | split; [reflexivity|]].
  apply (pool_inv_intro a1); [reflexivity|]. exact I2.
Qed.

(** A block is allocated, freed and allocated again. *)
Lemma Free_Allocate_same_witness :
  let cs := fun _ : Z => EmptyString in
  let a0 := ObjectAllocator_ctor 8 None
              {| blocksPerPage := 2; padBytes := 2; alignment := 4 |} in
  exists p a1 m1 a2 m2 a3 m3,
    Allocate 4096 0 1 a0 (fun _ => 0) = (p, a1, m1)
    /\ ObjectAllocator.Free cs false 3 p 0 2 a1 m1 = Some (Returned 0, a2, m2)
    /\ Allocate 0 0 3 a2 m2 = (p, a3, m3).
Proof.
  intros cs a0.
  assert (G : geometry a0) by (apply ctor_geometry; cbn; lia).
  destruct (Allocate_inv 4096 0 1 a0 (fun _ => 0) [] [] []
              (ctor_inv 8 None {| blocksPerPage := 2; padBytes := 2; alignment := 4 |}
                 (fun _ => 0) G))
    as (p & a1 & m1 & free1 & E1 & I1 & _).
  { intros _. cbn. repeat split; try lia; intros q []. }
  change (freeList a0 =? 0) with true in I1. cbv iota in I1.
  destruct (Free_Allocate_same cs false 3 p 0 2 0 0 3 a1 m1 [4096] free1 [] [] I1)
    as (a2 & m2 & a3 & m3 & E2 & E3 & _).
  { cbn. lia. }
  exists p, a1, m1, a2, m2, a3, m3. auto.
Defined.

(** [Free] does not check that the address belongs to the allocator: an
    address outside every page passes the walk over the pages, is
    overwritten with the FREED signature and put on the free list, and the
    next [Allocate] hands it out. *)
Theorem Free_foreign_address (cstr : Z -> string) (exceptions : bool)
    (fuel : nat) (del file line newp file2 line2 : Z) (a : Pool) (m : mem)
    (pages free live : list Z) :
  pool_inv a m pages free live ->
  0 < del < 2 ^ 32 ->
  (forall pg, In pg pages -> del < pg \/ pg + pageSize a <= del) ->
  (List.length pages < fuel)%nat ->
  exists a' m',
    ObjectAllocator.Free cstr exceptions fuel del file line a m
    = Some (Returned 0, a', m')
    /\ freeList a' = del
    /\ blocksInUse (stats a') = wrap (blocksInUse (stats a) - 1)
    /\ (forall x, del + ptrSize <= x < del + blockSize a -> m' x = FREED)
    /\ fst (fst (Allocate newp file2 line2 a' m')) = del.
Proof.
  intros [G P Sp F N B Pd L Fz] Hd Hout Hfuel.
  destruct (geometry_pos a G) as (Hpad & Hbs & Hla & Hia & Hhs & Hics & Hlo & Hps).
  pose proof (Free_walk_spec cstr a m del file line pages fuel (pageList a) P Hfuel)
    as W.
  rewrite (first_page_none a del pages Sp) in W by (try assumption; lia).
  rewrite (Free_valid cstr exceptions fuel del file line a m W).
  do 2 eexists. split; [reflexivity|]. cbn [freeList set_stats set_freeList stats
    blocksInUse]. split; [reflexivity | split; [reflexivity|]]. split.
  - intros x Hx. unfold ptrSize in *. rewrite store32_out by lia.
    rewrite memset_out by lia. rewrite memset_in by lia. reflexivity.
  - assert (Hz : (del =? 0) = false) by (apply Z.eqb_neq; lia).
    unfold Allocate, Pop. cbn [freeList set_stats set_freeList]. rewrite Hz.
    cbn [freeList set_stats set_freeList]. rewrite Hz. reflexivity.
Qed.

(** The address 65536 is freed on an allocator whose only page is at 4096. *)
Lemma Free_foreign_address_witness :
  let cs := fun _ : Z => EmptyString in
  let a0 := ObjectAllocator_ctor 8 None
              {| blocksPerPage := 2; padBytes := 2; alignment := 4 |} in
  exists p a1 m1 a2 m2,
    Allocate 4096 0 1 a0 (fun _ => 0) = (p, a1, m1)
    /\ ObjectAllocator.Free cs false 3 65536 0 2 a1 m1 = Some (Returned 0, a2, m2)
    /\ fst (fst (Allocate 0 0 3 a2 m2)) = 65536.
Proof.
  intros cs a0.
  assert (G : geometry a0) by (apply ctor_geometry; cbn; lia).
  destruct (Allocate_inv 4096 0 1 a0 (fun _ => 0) [] [] []
              (ctor_inv 8 None {| blocksPerPage := 2; padBytes := 2; alignment := 4 |}
                 (fun _ => 0) G))
    as (p & a1 & m1 & free1 & E1 & I1 & Ed & _).
  { intros _. cbn. repeat split; try lia; intros q []. }
  change (freeList a0 =? 0) with true in I1. cbv iota in I1.
  assert (Eps : pageSize a1 = 54).
  { unfold dims in Ed. injection Ed as _ _ _ Eq _ _ _ _. rewrite Eq. reflexivity. }
  destruct (Free_foreign_address cs false 3 65536 0 2 0 0 3 a1 m1 [4096] free1 [p] I1)
    as (a2 & m2 & E2 & _ & _ & _ & E3).
  - lia.
  - intros pg [<- | []]. rewrite Eps. lia.
  - cbn. lia.
  - exists p, a1, m1, a2, m2. auto.
Defined.



(** Inside a page, from the first block on, [Free] accepts the start of a
    block and nothing else: every other address of the page (a pointer into
    the middle of a block, into a header or into the pad bytes) is rejected
    as misaligned, with the ALIGN code or the exception, the log line names
    the caller, and the memory, the lists and the statistics are left as
    they were. *)
Theorem Free_rejects_non_block (cstr : Z -> string) (exceptions : bool)
    (fuel : nat) (del file line : Z) (a : Pool) (m : mem)
    (pages free live : list Z) (pg : Z) :
  pool_inv a m pages free live ->
  In pg pages ->
  pg + left_offset a <= del < pg + pageSize a ->
  ~ is_block a pg del ->
  (List.length pages < fuel)%nat ->
  ObjectAllocator.Free cstr exceptions fuel del file line a m
  = Some (failure cstr exceptions "Invalid alignment on free." file line ALIGN,
          log a ("Invalid alignment on free from #" ++ dec line ++ " in file "
                 ++ cstr file ++ endl),
          m).
Proof.
  intros [G P Sp F N B Pd L Fz] Hpg Hd Hnb Hfuel.
  destruct (geometry_pos a G) as (Hpad & Hbs & Hla & Hia & Hhs & Hics & Hlo & Hps).
  destruct (pages_sep_in a pages pg Sp Hpg) as [Z1 Z2].
  pose proof (Free_walk_spec cstr a m del file line pages fuel (pageList a) P Hfuel)
    as W.
  rewrite (first_page_sep a del pg pages Sp Hpg) in W by lia.
  change (2 ^ 32) with 4294967296 in *.
  assert (Ed : wrap (wrap del - wrap pg) = del - pg).
  { rewrite (wrap_small del), (wrap_small pg), wrap_small;
      change (2 ^ 32) with 4294967296; lia. }
  assert (Ew : wrap (del - pg - left_offset a) = del - pg - left_offset a)
    by (apply wrap_small; change (2 ^ 32) with 4294967296; lia).
  assert (Hm : (del - pg - left_offset a) mod interChunkSize a <> 0).
  { intros Hm. apply Hnb.
    exists ((del - pg - left_offset a) / interChunkSize a).
    pose proof (Z.div_mod (del - pg - left_offset a) (interChunkSize a)
                  ltac:(lia)) as Hq.
    rewrite Hm, Z.add_0_r in Hq.
    assert (0 <= (del - pg - left_offset a) / interChunkSize a)
      by (apply Z.div_pos; lia).
    pose proof (geo_ps a G) as Hsz. unfold ptrSize in Hsz.
    split; [split; [assumption|] | unfold block_at; lia].
    apply Z.div_lt_upper_bound; [lia|]. nia. }
  unfold Free_validate in W. rewrite (left_offset_wrap a G), Ed, Ew in W.
  apply Z.eqb_neq in Hm. rewrite Hm in W. cbn [negb] in W.
  rewrite (Free_invalid cstr exceptions fuel del file line a m _ _ _ W).
  reflexivity.
Qed.

(** The address one byte into an allocated block is rejected. *)
Lemma Free_rejects_non_block_witness :
  let cs := fun _ : Z => EmptyString in
  let a0 := ObjectAllocator_ctor 8 None
              {| blocksPerPage := 2; padBytes := 2; alignment := 4 |} in
  exists p a1 m1,
    Allocate 4096 0 1 a0 (fun _ => 0) = (p, a1, m1)
    /\ ObjectAllocator.Free cs false 3 (p + 1) 0 2 a1 m1
       = Some (Returned ALIGN,
               log a1 ("Invalid alignment on free from #" ++ dec 2 ++ " in file "
                       ++ cs 0 ++ endl),
               m1).
Proof.
  intros cs a0.
  assert (G : geometry a0) by (apply ctor_geometry; cbn; lia).
  destruct (Allocate_inv 4096 0 1 a0 (fun _ => 0) [] [] []
              (ctor_inv 8 None {| blocksPerPage := 2; padBytes := 2; alignment := 4 |}
                 (fun _ => 0) G))
    as (p & a1 & m1 & free1 & E1 & I1 & Ed & _).
  { intros _. cbn. repeat split; try lia; intros q []. }
  change (freeList a0 =? 0) with true in I1. cbv iota in I1.
  pose proof (f_equal (fun t => fst (fst t)) E1) as Ep. vm_compute in Ep.
  unfold dims in Ed. injection Ed as E2 E3 E4 E5 E6 E7 E8 E9.
  assert (Elo : left_offset a1 = 20)
    by (unfold left_offset; rewrite E2, E6, E3; reflexivity).
  assert (Eics : interChunkSize a1 = 24) by (rewrite E9; reflexivity).
  assert (Ebpp : blocksPerPage (settings a1) = 2) by (rewrite E3; reflexivity).
  assert (Eps : pageSize a1 = 54) by (rewrite E5; reflexivity).
  exists p, a1, m1. split; [exact E1|].
  apply (Free_rejects_non_block cs false 3 (p + 1) 0 2 a1 m1 [4096] free1 [p] 4096 I1).
  - left. reflexivity.
  - rewrite Elo, Eps. lia.
  - intros (i & Hi & E). unfold block_at in E. rewrite Elo, Eics in E.
    rewrite Ebpp in Hi. lia.
  - cbn [List.length]. lia.
Defined.

Module AlignFacts.

(** Reduction modulo 2^32 is invisible modulo a divisor of 2^32. *)
Lemma wrap_mod (al y : Z) : 0 < al -> (al | 2 ^ 32) -> wrap y mod al = y mod al.
Proof.
  intros Hal Hd. unfold wrap. now apply Z.mod_mod_divide.
Qed.

(** The alignment bytes the constructor computes fill up to a multiple of
    the alignment. *)
Lemma align_fill (al x : Z) :
  0 < al -> (al | 2 ^ 32) -> (x + wrap (al - wrap x) mod al) mod al = 0.
Proof.
  intros Hal Hd.
  rewrite Z.add_mod by lia. rewrite Z.mod_mod by lia.
  rewrite (wrap_mod al (al - wrap x) Hal Hd).
  rewrite <- Z.add_mod by lia.
  replace (x + (al - wrap x)) with ((x - wrap x) + 1 * al) by lia.
  rewrite Z.mod_add by lia. apply Z.mod_divide; [lia|].
  apply (Z.divide_trans _ (2 ^ 32)); [exact Hd|].
  exists (x / 2 ^ 32). unfold wrap. pose proof (Z.div_mod x (2 ^ 32)). lia.
Qed.

Lemma dims_fields (a b : Pool) :
  dims a = dims b ->
  headerSize a = headerSize b /\ settings a = settings b
  /\ blockSize a = blockSize b /\ leftAlign a = leftAlign b
  /\ interAlign a = interAlign b.
Proof. unfold dims. intros E. injection E as E1 E2 E3 E4 E5 E6 E7 E8. auto. Qed.

Lemma pages_sep_NoDup (a : Pool) (l : list Z) :
  0 < pageSize a -> pages_sep a l -> NoDup l.
Proof.
  intros Hps. induction l as [|p l IH]; intros Sp; [constructor|].
  cbn [pages_sep] in Sp. destruct Sp as (_ & _ & Hq & Sp).
  constructor; [|now apply IH]. intros Hin. specialize (Hq p Hin). lia.
Qed.

Lemma delete_pages_spec (m : mem) (l : list Z) : forall (fuel : nat) (p : Z),
  list_rep m p l -> (List.length l < fuel)%nat ->
  delete_pages fuel m p = Some (l, 0).
Proof.
  induction l as [|q l IH]; intros [|fuel] p R Hfuel; cbn [List.length] in Hfuel;
    try lia; cbn [list_rep] in R; cbn [delete_pages].
  - subst p. reflexivity.
  - destruct R as (-> & Hq & R). unfold Pop.
    destruct (Z.eqb_spec q 0) as [E | _]; [contradiction|].
    rewrite (IH fuel (load32 m q) R) by lia. reflexivity.
Qed.

End AlignFacts.
Import AlignFacts.

(** The constructor pads the page so that blocks are aligned: for an
    alignment that divides 2^32 (a power of two up to 2^32), every block
    [Allocate] returns lies at a multiple of the alignment from the start of
    its page. *)
Theorem Allocate_aligned (sizeofT : Z) (l : option string)
    (s : ObjectAllocatorSettings) (newp file line : Z) (a : Pool) (m : mem)
    (pages free live : list Z) :
  dims a = dims (ObjectAllocator_ctor sizeofT l s) ->
  1 < alignment s -> (alignment s | 2 ^ 32) ->
  pool_inv a m pages free live ->
  (freeList a = 0 ->
   0 < newp /\ newp + pageSize a <= 2 ^ 32
   /\ forall q, In q pages -> q + pageSize a <= newp \/ newp + pageSize a <= q) ->
  exists p a' m' pg,
    Allocate newp file line a m = (p, a', m')
    /\ In pg (if freeList a =? 0 then newp :: pages else pages)
    /\ pg <= p < pg + pageSize a
    /\ (p - pg) mod alignment s = 0.
Proof.
  intros Ed Hal Hdiv I Hfresh.
  destruct (Allocate_inv newp file line a m pages free live I Hfresh)
    as (p & a' & m' & free' & E & _ & _ & _ & _ & _ & _ & (pg & Hpg & Bp) & _).
  exists p, a', m', pg. split; [exact E | split; [exact Hpg|]].
  pose proof I as [G _ _ _ _ _ _ _ _].
  destruct (geometry_pos a G) as (Hpad & Hbs & Hla & Hia & Hhs & Hics & Hlo & Hps).
  destruct (block_extent a G pg p Bp) as [X Y].
  split; [unfold ptrSize in *; lia|].
  apply dims_fields in Ed. destruct Ed as (E1 & E2 & E3 & E5 & E6).
  unfold ObjectAllocator_ctor in E1, E2, E3, E5, E6.
  cbn [headerSize settings blockSize leftAlign interAlign] in E1, E2, E3, E5, E6.
  destruct (Z.ltb_spec 1 (alignment s)) as [_ | H]; [|lia].
  destruct Bp as (i & Hi & ->). unfold block_at.
  replace (pg + left_offset a + i * interChunkSize a - pg)
    with (left_offset a + i * interChunkSize a) by lia.
  assert (H1 : left_offset a mod alignment s = 0).
  { rewrite Hlo, E5, E1, E2.
    set (x := ptrSize + sizeof_DebugHeader + padBytes s).
    replace (4 + wrap (alignment s - wrap x) mod alignment s
             + sizeof_DebugHeader + padBytes s)
      with (x + wrap (alignment s - wrap x) mod alignment s)
      by (unfold x, ptrSize; lia).
    apply align_fill; [lia | exact Hdiv]. }
  assert (H2 : interChunkSize a mod alignment s = 0).
  { rewrite Hics, E6, E1, E2, E3.
    set (x := (if sizeofT <? ptrSize then ptrSize else sizeofT)
              + sizeof_DebugHeader + 2 * padBytes s).
    replace ((if sizeofT <? ptrSize then ptrSize else sizeofT) + 2 * padBytes s
             + wrap (alignment s - wrap x) mod alignment s + sizeof_DebugHeader)
      with (x + wrap (alignment s - wrap x) mod alignment s)
      by (unfold x; lia).
    apply align_fill; [lia | exact Hdiv]. }
  rewrite Z.add_mod, Z.mul_mod, H1, H2 by lia.
  rewrite Z.mul_0_r. reflexivity.
Qed.

(** A new allocator of 6-byte elements with an alignment of 16. *)
Lemma Allocate_aligned_witness :
  let s := {| blocksPerPage := 4; padBytes := 3; alignment := 16 |} in
  exists p a' m' pg,
    Allocate 4096 0 1 (ObjectAllocator_ctor 6 None s) (fun _ => 0) = (p, a', m')
    /\ In pg [4096] /\ (p - pg) mod 16 = 0.
Proof.
  intros s.
  assert (G : geometry (ObjectAllocator_ctor 6 None s))
    by (apply ctor_geometry; cbn; lia).
  destruct (Allocate_aligned 6 None s 4096 0 1 (ObjectAllocator_ctor 6 None s)
              (fun _ => 0) [] [] [] eq_refl)
    as (p & a' & m' & pg & E & Hin & _ & Hm).
  - cbn. lia.
  - exists (2 ^ 28). reflexivity.
  - exact (ctor_inv 6 None s (fun _ => 0) G).
  - intros _. cbn. repeat split; try lia; intros q [].
  - exists p, a', m', pg. auto.
Defined.

(** The destructor dumps the blocks still in use to the log stream, if
    there is one, and gives every page of the allocator to [delete[]]
    exactly once, newest first; the page list is empty afterwards. *)
Theorem dtor_deletes_every_page (cstr : Z -> string) (fuel : nat) (a : Pool)
    (m : mem) (pages free live : list Z) :
  pool_inv a m pages free live ->
  (List.length pages < fuel)%nat ->
  exists a',
    ObjectAllocator_dtor cstr fuel a m = Some (a', pages)
    /\ NoDup pages
    /\ pageList a' = 0
    /\ logStream a'
       = match logStream a with
         | Some out => Some (out ++ pages_entries cstr a m pages)%string
         | None => None
         end.
Proof.
  intros [G P Sp F N B Pd L Fz] Hfuel.
  destruct (geometry_pos a G) as (Hpad & Hbs & Hla & Hia & Hhs & Hics & Hlo & Hps).
  unfold ObjectAllocator_dtor.
  destruct (logStream a) as [out|] eqn:El.
  - rewrite (DumpFacts.DumpMemoryInUse_spec cstr a m pages fuel out P Hfuel).
    cbn [pageList set_logStream].
    rewrite (delete_pages_spec m pages fuel (pageList a) P Hfuel).
    eexists. split; [reflexivity|].
    split; [apply (pages_sep_NoDup a); [lia | exact Sp]|].
    split; reflexivity.
  - rewrite (delete_pages_spec m pages fuel (pageList a) P Hfuel).
    eexists. split; [reflexivity|].
    split; [apply (pages_sep_NoDup a); [lia | exact Sp]|].
    split; [reflexivity|]. cbn [logStream set_pageList]. exact El.
Qed.

(** An allocator that created one page is destroyed. *)
Lemma dtor_deletes_every_page_witness :
  let cs := fun _ : Z => EmptyString in
  let a0 := ObjectAllocator_ctor 8 None default_settings in
  exists p a1 m1 a2,
    Allocate 4096 0 1 a0 (fun _ => 0) = (p, a1, m1)
    /\ ObjectAllocator_dtor cs 2 a1 m1 = Some (a2, [4096]).
Proof.
  intros cs a0.
  assert (G : geometry a0) by (apply ctor_geometry; cbn; lia).
  destruct (Allocate_inv 4096 0 1 a0 (fun _ => 0) [] [] []
              (ctor_inv 8 None default_settings (fun _ => 0) G))
    as (p & a1 & m1 & free1 & E1 & I1 & _).
  { intros _. cbn. repeat split; try lia; intros q []. }
  change (freeList a0 =? 0) with true in I1. cbv iota in I1.
  destruct (dtor_deletes_every_page cs 2 a1 m1 [4096] free1 [p] I1) as (a2 & E2 & _).
  { cbn. lia. }
  exists p, a1, m1, a2. auto.
Defined.

(** * The release build *)

(** Without MEMORYMANAGER_DEBUG, [Free(nullptr)] does nothing, and a freed
    block is the next one [Allocate] returns: the allocator is then in the
    state it had before the block was freed, and only the link word of the
    block has been written. *)
Theorem Release_Free_Allocate (newp p : Z) (a : Release.Pool) (m : mem) :
  p <> 0 -> 0 <= Release.freeList a < 2 ^ 32 ->
  Release.Free 0 a m = (a, m)
  /\ Release.Allocate newp (fst (Release.Free p a m)) (snd (Release.Free p a m))
     = (p, a, store32 m p (Release.freeList a)).
Proof.
  intros Hp Hfl. split; [reflexivity|].
  assert (Hz : (p =? 0) = false) by (apply Z.eqb_neq; exact Hp).
  unfold Release.Free. rewrite Hz.
  cbv beta iota zeta delta [negb Push fst snd Release.Allocate Release.freeList
                            Release.set_freeList].
  rewrite Hz. cbv beta iota zeta delta [Pop]. rewrite Hz.
  rewrite load32_store32 by (destruct a; exact Hfl). destruct a. reflexivity.
Qed.

(** A block of a new release allocator. *)
Lemma Release_Free_Allocate_witness :
  let a := Release.ObjectAllocator_ctor 8 Release.default_settings in
  Release.Allocate 0 (fst (Release.Free 4096 a (fun _ => 0)))
    (snd (Release.Free 4096 a (fun _ => 0)))
  = (4096, a, store32 (fun _ => 0) 4096 0).
Proof.
  intros a.
  refine (proj2 (Release_Free_Allocate 0 4096 a (fun _ => 0) _ _)).
  - lia.
  - cbn. lia.
Defined.

(** Without MEMORYMANAGER_DEBUG nothing guards against a double free: once a
    block has been freed twice, [Allocate] returns it and leaves the
    allocator and the memory as they are, so every later [Allocate] returns
    the same block again. *)
Theorem Release_double_free (newp p : Z) (a : Release.Pool) (m : mem) :
  p <> 0 -> 0 <= p < 2 ^ 32 ->
  let st1 := Release.Free p a m in
  let st2 := Release.Free p (fst st1) (snd st1) in
  Release.Allocate newp (fst st2) (snd st2) = (p, fst st2, snd st2).
Proof.
  intros Hp Hr.
  assert (Hz : (p =? 0) = false) by (apply Z.eqb_neq; exact Hp).
  unfold Release.Free. rewrite Hz.
  cbv beta iota zeta delta [negb Push fst snd Release.Allocate Release.freeList
                            Release.set_freeList].
  rewrite Hz. cbv beta iota zeta delta [Pop]. rewrite Hz.
  rewrite load32_store32 by exact Hr. reflexivity.
Qed.

(** The block at 4096 is freed twice. *)
Lemma Release_double_free_witness :
  let a := Release.ObjectAllocator_ctor 8 Release.default_settings in
  let st1 := Release.Free 4096 a (fun _ => 0) in
  let st2 := Release.Free 4096 (fst st1) (snd st1) in
  Release.Allocate 0 (fst st2) (snd st2) = (4096, fst st2, snd st2).
Proof.
  intros a. apply (Release_double_free 0 4096 a (fun _ => 0)); lia.
Defined.

Module ReleaseFacts.
Import ObjectAllocator ReleaseLayout.

(** The loop of [CreatePage] in the release build links each block to the
    one before it and writes nothing else. *)
Lemma Release_loop_spec (a : Release.Pool) :
  rgeometry a ->
  forall (n : nat) (m : mem) (p fl : Z),
  exists m',
    Release.CreatePage_loop a n (m, p, fl)
    = (m', p + Z.of_nat n * rchunk a,
       if (n =? 0)%nat then fl else p + (Z.of_nat n - 1) * rchunk a)
    /\ (forall i, 0 <= i < Z.of_nat n ->
          load32 m' (p + i * rchunk a)
          = wrap (if i =? 0 then fl else p + (i - 1) * rchunk a))
    /\ (forall x,
          (forall i, 0 <= i < Z.of_nat n ->
             x < p + i * rchunk a \/ p + i * rchunk a + ptrSize <= x) ->
          m' x = m x).
Proof.
  intros [Hpad Hbs Hla Hia Hbpp Hps]. unfold ptrSize in *.
  assert (Hc : 4 <= rchunk a) by (unfold rchunk; lia).
  induction n as [|k IH]; intros m p fl.
  - exists m. split; [cbn; f_equal; f_equal; lia|]. split; [intros i Hi; lia|].
    reflexivity.
  - set (m1 := memset (store32 m p fl)
                 (p + Release.blockSize a + padBytes (Release.settings a)
                  + Release.interAlign a) 0 Release.headerSize).
    assert (Es : Release.CreatePage_step a (m, p, fl) = (m1, p + rchunk a, p)).
    { unfold Release.CreatePage_step, Push, Release.headerSize, m1, rchunk.
      f_equal. f_equal. lia. }
    assert (Hm1 : forall x, m1 x = store32 m p fl x).
    { intros x. unfold m1, Release.headerSize. apply memset_out. lia. }
    destruct (IH m1 (p + rchunk a) p) as (m' & E & Hl & Hf).
    exists m'. cbn [Release.CreatePage_loop]. rewrite Es, E.
    split; [|split].
    + change (S k =? 0)%nat with false. cbv iota.
      f_equal; [f_equal; lia|]. destruct k as [|k']; cbn [Nat.eqb]; lia.
    + intros i Hi. destruct (Z.eq_dec i 0) as [-> | Hi0].
      * change (0 =? 0) with true. cbv iota.
        replace (p + 0 * rchunk a) with p by lia.
        rewrite <- (load32_store32_wrap m p fl).
        apply load32_ext. intros x Hx. rewrite Hf, Hm1; [reflexivity|].
        intros j Hj. left. nia.
      * replace (p + i * rchunk a) with (p + rchunk a + (i - 1) * rchunk a) by lia.
        rewrite Hl by lia. f_equal.
        destruct (Z.eqb_spec i 0) as [|_]; [contradiction|].
        destruct (Z.eqb_spec (i - 1) 0) as [E0 | E0]; [rewrite E0; lia | lia].
    + intros x Hx. rewrite Hf, Hm1.
      * apply store32_out. specialize (Hx 0 ltac:(lia)). lia.
      * intros i Hi. specialize (Hx (i + 1) ltac:(lia)).
        replace (p + (i + 1) * rchunk a) with (p + rchunk a + i * rchunk a) in Hx
          by lia.
        exact Hx.
Qed.

End ReleaseFacts.

Import ReleaseLayout.

(** In the release build [CreatePage] writes nothing but links: the first
    four bytes of the new page link it to the older pages, and the first
    four bytes of each block link it to the block below it, the lowest one to
    the old free list.  The blocks lie one chunk apart, the last one ends
    with its pad bytes exactly at the end of the page, every other byte keeps
    its value, and an [Allocate] that had to create the page returns the
    topmost block and leaves the one below it at the head of the free
    list. *)
Theorem Release_CreatePage_layout (newp : Z) (a : Release.Pool) (m : mem) :
  rgeometry a ->
  0 < newp -> newp + Release.pageSize a <= 2 ^ 32 ->
  0 <= Release.pageList a < 2 ^ 32 -> 0 <= Release.freeList a < 2 ^ 32 ->
  let a' := fst (Release.CreatePage newp a m) in
  let m' := snd (Release.CreatePage newp a m) in
  let n := blocksPerPage (Release.settings a) in
  Release.pageList a' = newp
  /\ load32 m' newp = Release.pageList a
  /\ Release.freeList a' = rblock_at a newp (n - 1)
  /\ (forall i, 0 <= i < n ->
        load32 m' (rblock_at a newp i)
        = if i =? 0 then Release.freeList a else rblock_at a newp (i - 1))
  /\ rblock_at a newp (n - 1) + Release.blockSize a
     + padBytes (Release.settings a)
     = newp + Release.pageSize a
  /\ (forall x,
        x < newp \/ newp + ptrSize <= x ->
        (forall i, 0 <= i < n ->
           x < rblock_at a newp i \/ rblock_at a newp i + ptrSize <= x) ->
        m' x = m x)
  /\ (Release.freeList a = 0 ->
      Release.Allocate newp a m
      = (rblock_at a newp (n - 1),
         Release.set_freeList a'
           (if n =? 1 then 0 else rblock_at a newp (n - 2)),
         m')).
Proof.
  intros G Hn0 Hn1 Hpl Hfl a' m' n. subst a' m'.
  pose proof G as [Hpad Hbs Hla Hia Hbpp Hps]. unfold ptrSize in *.
  assert (Hc : 4 <= rchunk a) by (unfold rchunk; lia).
  change (2 ^ 32) with 4294967296 in *.
  fold n in Hbpp, Hps.
  assert (Hw : wrap (n - 1) = n - 1)
    by (apply wrap_small; change (2 ^ 32) with 4294967296; lia).
  set (m0 := memset (store32 m newp (Release.pageList a))
               (newp + 4 + Release.leftAlign a) 0 Release.headerSize).
  assert (Hm0 : forall x, m0 x = store32 m newp (Release.pageList a) x).
  { intros x. unfold m0, Release.headerSize. apply memset_out. lia. }
  destruct (ReleaseFacts.Release_loop_spec a G (Z.to_nat (n - 1)) m0
              (rblock_at a newp 0) (Release.freeList a)) as (m1 & E & Hl & Hf).
  rewrite Z2Nat.id in E, Hl, Hf by lia.
  assert (Eb : forall i, rblock_at a newp 0 + i * rchunk a = rblock_at a newp i)
    by (intros i; unfold rblock_at; lia).
  rewrite Eb in E.
  set (top := rblock_at a newp (n - 1)) in *.
  set (fl1 := if (Z.to_nat (n - 1) =? 0)%nat then Release.freeList a
              else rblock_at a newp 0 + (n - 1 - 1) * rchunk a) in *.
  set (m2 := store32 m1 top fl1).
  assert (EC : Release.CreatePage newp a m
               = (Release.set_freeList (Release.set_pageList a newp) top, m2)).
  { unfold Release.CreatePage, Push.
    replace (newp + ptrSize + Release.leftAlign a + Release.headerSize
             + padBytes (Release.settings a)) with (rblock_at a newp 0)
      by (unfold rblock_at, Release.headerSize, ptrSize; lia).
    fold n. rewrite Hw.
    change (memset (store32 m newp (Release.pageList a))
              (newp + ptrSize + Release.leftAlign a) 0 Release.headerSize)
      with m0.
    rewrite E. reflexivity. }
  assert (Efl : fl1 = if n =? 1 then Release.freeList a
                      else rblock_at a newp (n - 2)).
  { unfold fl1. destruct (Z.eqb_spec n 1) as [E1 | E1].
    - rewrite E1. reflexivity.
    - destruct (Nat.eqb_spec (Z.to_nat (n - 1)) 0) as [E0 | E0]; [lia|].
      rewrite Eb. f_equal. lia. }
  assert (Htop : forall i, 0 <= i < n ->
                  newp + 4 <= rblock_at a newp i
                  /\ rblock_at a newp i + 4 <= newp + Release.pageSize a).
  { intros i Hi. unfold rblock_at, ptrSize. rewrite Hps. unfold rchunk in *. nia. }
  assert (Ht : newp + 4 <= top /\ top + 4 <= newp + Release.pageSize a)
    by (apply Htop; lia).
  assert (Hfl1 : 0 <= fl1 < 4294967296).
  { rewrite Efl. destruct (n =? 1) eqn:E1; [exact Hfl|].
    apply Z.eqb_neq in E1. destruct (Htop (n - 2) ltac:(lia)). lia. }
  rewrite EC. cbn [fst snd].
  split; [reflexivity|]. split.
  { unfold m2. rewrite load32_store32_other by lia.
    transitivity (wrap (Release.pageList a));
      [|apply wrap_small; change (2 ^ 32) with 4294967296; lia].
    rewrite <- (load32_store32_wrap m newp (Release.pageList a)).
    apply load32_ext. intros x Hx. rewrite Hf, Hm0; [reflexivity|].
    intros i Hi. rewrite Eb. destruct (Htop i ltac:(lia)). unfold ptrSize. lia. }
  split; [reflexivity|]. split.
  { intros i Hi. destruct (Z.eq_dec i (n - 1)) as [-> | Hne].
    - fold top. unfold m2. rewrite load32_store32
        by (change (2 ^ 32) with 4294967296; lia).
      rewrite Efl. destruct (Z.eqb_spec n 1) as [E1 | E1].
      + rewrite E1. reflexivity.
      + destruct (Z.eqb_spec (n - 1) 0); [lia|]. f_equal. lia.
    - unfold m2. rewrite load32_store32_other
        by (unfold top, rblock_at; nia).
      rewrite <- Eb, Hl by lia. rewrite Eb.
      destruct (i =? 0) eqn:Ei.
      + apply wrap_small. change (2 ^ 32) with 4294967296. lia.
      + apply Z.eqb_neq in Ei. apply wrap_small.
        destruct (Htop (i - 1) ltac:(lia)).
        change (2 ^ 32) with 4294967296. lia. }
  split.
  { unfold top, rblock_at, ptrSize. rewrite Hps. fold n. unfold rchunk. lia. }
  split.
  { intros x Hx Hb. unfold m2. rewrite store32_out
      by (exact (Hb (n - 1) ltac:(lia))).
    rewrite Hf, Hm0.
    - apply store32_out. lia.
    - intros i Hi. rewrite Eb. apply Hb. lia. }
  intros Hz.
  assert (Hz0 : (Release.freeList a =? 0) = true) by (apply Z.eqb_eq; exact Hz).
  assert (Ht0 : (top =? 0) = false)
    by (apply Z.eqb_neq; lia).
  unfold Release.Allocate. rewrite Hz0, EC.
  cbv beta iota zeta delta [Pop Release.freeList Release.set_freeList].
  rewrite Ht0. unfold m2 at 1. rewrite load32_store32
    by (change (2 ^ 32) with 4294967296; lia).
  rewrite Efl, Hz. destruct (n =? 1); reflexivity.
Qed.

(** A page of two 8-byte blocks at address 4096. *)
Lemma Release_CreatePage_layout_witness :
  let a := Release.ObjectAllocator_ctor 8
             {| blocksPerPage := 2; padBytes := 2; alignment := 4 |} in
  let m := fun _ : Z => 0 in
  fst (fst (Release.Allocate 4096 a m)) = rblock_at a 4096 1
  /\ rblock_at a 4096 1 + 8 + 2 = 4096 + Release.pageSize a
  /\ load32 (snd (Release.CreatePage 4096 a m)) (rblock_at a 4096 1)
     = rblock_at a 4096 0.
Proof.
  intros a m.
  destruct (Release_CreatePage_layout 4096 a m)
    as (_ & _ & _ & Hl & Hfit & _ & Ha).
  - constructor; vm_compute;
      first [reflexivity | intro H; discriminate H
            | split; [intro H; discriminate H | reflexivity]].
  - lia.
  - vm_compute. intro H. discriminate H.
  - vm_compute. split; [intro H; discriminate H | reflexivity].
  - vm_compute. split; [intro H; discriminate H | reflexivity].
  - split; [rewrite Ha by reflexivity; reflexivity|].
    split; [exact Hfit | exact (Hl 1 ltac:(cbn; lia))].
Defined.

(** * Further properties of handles and pointers *)

Module PointerMore.



Lemma IsNull_storage (h : Z) (w : World) :
  IsNull h w = Some (Returned (storage_of w h =? 0), w).
Proof. reflexivity. Qed.






End PointerMore.
Import PointerMore.




Module AllocateFacts.

(** [CreateHandle] leaves the allocators of the program alone. *)
Lemma CreateHandle_allocators (newp allocator memory file line : Z) (w : World)
    (r : result Z) (w1 : World) :
  CreateHandle newp allocator memory file line w = Some (r, w1) ->
  allocators w1 = allocators w.
Proof.
  unfold CreateHandle, bind, HandleAllocator_Allocate, Handle_ctor, put32, ret.
  destruct (Allocate newp file line (HandleAllocator w) (heap w)) as [[p a] m].
  intros E. injection E as _ <-. reflexivity.
Qed.

Lemma allocator_write_refCount (w : World) (h k v : Z) :
  k + 8 <= h + off_refCount \/ h + sizeof_Handle <= k + 4 ->
  allocator_of (set_heap w (store32 (heap w) (h + off_refCount) v)) k
  = allocator_of w k.
Proof.
  intros H. unfold allocator_of, off_allocator, off_refCount, sizeof_Handle in *.
  cbn [heap set_heap]. apply load32_store32_other. lia.
Qed.

(** [PointerAllocate] in a state of a pointer program. *)
Lemma PointerAllocate_spec (cstr : Z -> string) (exceptions : bool)
    (Null MemoryHandle_cpp : Z) (user : Z -> Prop) (fuel : nat)
    (newp allocator memory file line : Z) (w : World)
    (ps pages free live : list Z) :
  pinv Null user w ps pages free live ->
  admissible Null user (OpAllocate newp allocator memory file line) w ps ->
  exists h wc pages' free',
    CreateHandle newp allocator memory file line w = Some (Returned h, wc)
    /\ exec cstr exceptions Null MemoryHandle_cpp fuel
         (OpAllocate newp allocator memory file line) ps w
       = Some (Returned (h :: ps), incremented wc h)
    /\ h <> Null /\ ~ In h live
    /\ storage_of (incremented wc h) h = memory
    /\ allocator_of (incremented wc h) h = allocator
    /\ refCount_of (incremented wc h) h = 1
    /\ allocators (incremented wc h) = allocators w
    /\ pinv Null user (incremented wc h) (h :: ps) pages' free' (h :: live)
    /\ (counted Null w ps live ->
        counted Null (incremented wc h) (h :: ps) (h :: live)).
Proof.
  intros J Ha.
  destruct (Create_inv Null user newp allocator memory file line w ps pages free live
              J Ha) as (h & wc & pages' & free' & EC & _ & E1 & Est & J1 & K1).
  pose proof J as [C _ _ _]. pose proof Ha as (Hfresh & Hu & Hal & Hmem & _).
  destruct (CreateHandle_step Null user newp allocator memory file line w pages free
              live C Hfresh Hu Hal Hmem)
    as (h' & wc' & _ & _ & EC' & _ & Hnl & Hnn & _ & _ & _ & _ & Eal).
  rewrite EC in EC'. injection EC' as <- <-.
  exists h, wc, pages', free'. split; [exact EC|]. split.
  { cbn [exec]. unfold PointerAllocate, Pointer_of_handle, bind, ret.
    rewrite EC. reflexivity. }
  split; [exact Hnn | split; [exact Hnl | split; [exact Est|]]].
  split.
  { rewrite <- Eal. unfold incremented. apply allocator_write_refCount.
    unfold off_refCount. lia. }
  split; [exact E1|]. split; [|split; [exact J1 | exact K1]].
  exact (CreateHandle_allocators _ _ _ _ _ _ _ _ EC).
Qed.

End AllocateFacts.
Import AllocateFacts.

(** What [PointerAllocate] is given is what the pointer yields: the new
    pointer is not null, dereferencing it returns the storage without a log
    line, its handle names the allocator, is not the null handle and counts
    one reference; as long as no operation raised, no other pointer
    references that handle. *)
Theorem PointerAllocate_Get (cstr : Z -> string) (exceptions : bool)
    (Null MemoryHandle_cpp : Z) (user : Z -> Prop) (w : World) (ps : list Z)
    (fuel : nat) (newp allocator memory file line : Z) :
  reach cstr exceptions Null MemoryHandle_cpp user w ps ->
  admissible Null user (OpAllocate newp allocator memory file line) w ps ->
  memory <> 0 ->
  exists h w',
    exec cstr exceptions Null MemoryHandle_cpp fuel
      (OpAllocate newp allocator memory file line) ps w
    = Some (Returned (h :: ps), w')
    /\ h <> Null
    /\ Pointer_arrow cstr exceptions h w' = Some (Returned memory, w')
    /\ Pointer_bool h w' = Some (Returned true, w')
    /\ GetAllocator h w' = Some (Returned allocator, w')
    /\ GetRefCount h w' = Some (Returned 1, w')
    /\ (returned cstr exceptions Null MemoryHandle_cpp user w ps -> ~ In h ps).
Proof.
  intros R Ha Hm.
  destruct (reach_pointer_inv cstr exceptions Null MemoryHandle_cpp user w ps R)
    as (pages & free & live & J).
  destruct (PointerAllocate_spec cstr exceptions Null MemoryHandle_cpp user fuel
              newp allocator memory file line w ps pages free live J Ha)
    as (h & wc & pages' & free' & EC & EX & Hnn & _ & Est & Eal & Erc & _).
  exists h, (incremented wc h). split; [exact EX | split; [exact Hnn|]].
  assert (Hz : (memory =? 0) = false) by (apply Z.eqb_neq; exact Hm).
  split; [|split; [|split; [|split]]].
  - unfold Pointer_arrow, Get, bind, get32.
    change (load32 (heap (incremented wc h)) (h + off_memory))
      with (storage_of (incremented wc h) h).
    rewrite Est, Hz. reflexivity.
  - unfold Pointer_bool, bind. rewrite IsNull_storage, Est, Hz. reflexivity.
  - unfold GetAllocator, get32.
    change (load32 (heap (incremented wc h)) (h + off_allocator))
      with (allocator_of (incremented wc h) h).
    now rewrite Eal.
  - unfold GetRefCount, bind, get32, ret.
    change (signed (load32 (heap (incremented wc h)) (h + off_refCount)))
      with (refCount_of (incremented wc h) h).
    now rewrite Erc.
  - intros Rt.
    destruct (returned_counted_inv cstr exceptions Null MemoryHandle_cpp user w ps Rt)
      as (pages2 & free2 & live2 & J2 & [Kp Kl]).
    destruct (PointerAllocate_spec cstr exceptions Null MemoryHandle_cpp user fuel
                newp allocator memory file line w ps pages2 free2 live2 J2 Ha)
      as (h2 & wc2 & _ & _ & EC2 & _ & _ & Hnl & _).
    rewrite EC in EC2. injection EC2 as <- <-.
    intros Hin. destruct (Kp h Hin); [congruence | tauto].
Qed.

(** The first [MM_PALLOC] of a program. *)
Lemma PointerAllocate_Get_witness :
  let cs := fun _ : Z => EmptyString in
  let user := fun x : Z => 8192 <= x < 12288 in
  let pool := ObjectAllocator_ctor 8 None default_settings in
  let al := fun k : Z => if k =? 4096 then Some pool else None in
  let w0 := init_world 64 (fun _ => 0) al in
  exists h w',
    exec cs true 64 0 0 (OpAllocate 100000 4096 9000 0 7) [] w0
    = Some (Returned [h], w')
    /\ Pointer_arrow cs true h w' = Some (Returned 9000, w').
Proof.
  intros cs user pool al w0.
  assert (Hal : forall k, al k <> None -> k mod 4 = 0).
  { intros k. unfold al. destruct (Z.eqb_spec k 4096) as [-> | _]; [reflexivity|].
    intros H. now contradict H. }
  assert (Hn : forall x, 64 <= x < 64 + sizeof_Handle -> ~ user x).
  { intros x Hx. unfold user, sizeof_Handle in *. lia. }
  assert (Eps : pageSize (HandleAllocator w0) = 28678) by reflexivity.
  assert (Ha : admissible 64 user (OpAllocate 100000 4096 9000 0 7) w0 []).
  { cbn [admissible]. rewrite Eps. split; [intros _; repeat split; try lia|].
    - unfold user. lia.
    - unfold sizeof_Handle. lia.
    - intros pages q Hp Hq. apply list_rep_null in Hp. subst pages. destruct Hq.
    - split; [|cbn; lia]. exists pool. split; [reflexivity|].
      intros x. unfold Free_writes, user. cbn. lia. }
  destruct (PointerAllocate_Get cs true 64 0 user w0 [] 0%nat 100000 4096 9000 0 7
              (reach_init cs true 64 0 user _ al Hal Hn) Ha ltac:(lia))
    as (h & w' & E & _ & EG & _).
  exists h, w'. auto.
Defined.


(** ** The handles in use *)

Module InUseFacts.

Lemma length_same (l l' : list Z) :
  NoDup l -> NoDup l' -> (forall x, In x l <-> In x l') ->
  List.length l = List.length l'.
Proof. intros N N' H. apply Permutation_length. now apply NoDup_Permutation. Qed.

Lemma In_remove_nth_other (i : nat) (ps : list Z) (h p : Z) :
  nth_error ps i = Some h -> In p ps -> p <> h -> In p (remove_nth i ps).
Proof.
  intros E Hin Hne. apply refs_In. rewrite (refs_remove_nth i ps h p E).
  destruct (Z.eq_dec h p); [congruence|]. now apply refs_In.
Qed.

Lemma In_replace_nth (i : nat) (ps : list Z) (h x p : Z) :
  nth_error ps i = Some h ->
  In p (replace_nth i x ps) <-> p = x \/ In p (remove_nth i ps).
Proof.
  intros E. split; intros H.
  - apply refs_In in H. rewrite (refs_replace_nth i ps h x p E) in H.
    apply refs_In in H. destruct H as [<- | H]; auto.
  - apply refs_In. rewrite (refs_replace_nth i ps h x p E). apply refs_In.
    destruct H as [-> | H]; [now left | now right].
Qed.

Lemma stats_log (a : Pool) (s : string) : stats (log a s) = stats a.
Proof. exact (proj2 (proj2 (proj2 (dims_log a s)))). Qed.

(** [Handle::Free] does not change the counters of the handle allocator. *)
Lemma HFree_stats (cstr : Z -> string) (exceptions : bool) (fuel : nat)
    (h file line : Z) (w : World) (r : result unit) (w' : World) :
  Handle.Free cstr exceptions fuel h file line w = Some (r, w') ->
  stats (HandleAllocator w') = stats (HandleAllocator w).
Proof.
  unfold Handle.Free, bind, get32. cbv beta iota.
  destruct (load32 (heap w) (h + off_memory) =? 0).
  - unfold handle_header, hlog, when, throw, ret.
    destruct exceptions; intros E; injection E as _ <-; apply stats_log.
  - destruct (allocator_Free cstr exceptions fuel _ _ file line w)
      as [[[c|e] w1]|] eqn:EA; [| |discriminate].
    + assert (H1 : HandleAllocator w1 = HandleAllocator w).
      { unfold allocator_Free in EA. destruct (allocators w _); [|discriminate].
        destruct (ObjectAllocator.Free cstr exceptions fuel _ file line _ _)
          as [[[r0 a0] m0]|]; [|discriminate].
        injection EA as _ <-. reflexivity. }
      unfold when, handle_header, hlog, throw, ret, put32.
      destruct (c =? 0); cbn [negb].
      * intros E. injection E as _ <-. cbn [HandleAllocator set_heap]. now rewrite H1.
      * destruct exceptions; intros E; injection E as _ <-;
          cbn [HandleAllocator set_heap set_HandleAllocator];
          now rewrite stats_log, H1.
    + intros E. injection E as _ <-.
      unfold allocator_Free in EA. destruct (allocators w _); [|discriminate].
      destruct (ObjectAllocator.Free cstr exceptions fuel _ file line _ _)
        as [[[r0 a0] m0]|]; [|discriminate].
      injection EA as _ <-. reflexivity.
Qed.

Section InUse.

Variable cstr : Z -> string.
Variable exceptions : bool.
Variable Null : Z.
Variable MemoryHandle_cpp : Z.
Variable user : Z -> Prop.

(** The handles are the blocks the pointers reference. *)
Lemma live_set (w : World) (ps pages free live : list Z) :
  pinv Null user w ps pages free live -> counted Null w ps live ->
  NoDup live /\ forall h, In h live <-> In h ps /\ h <> Null.
Proof.
  clear cstr exceptions MemoryHandle_cpp.
  intros [C _ _ _] [Kp Kl]. split.
  - pose proof C as [I _ _ _ _ _ _ _]. pose proof I as [_ _ _ _ N _ _ _ _].
    now apply NoDup_app_remove_l in N.
  - intros h. split.
    + intros Hl. split; [apply refs_In; now apply Kl|].
      intros ->. exact (null_not_block Null user w pages free live Null C
                          (or_intror Hl) eq_refl).
    + intros [Hin Hne]. destruct (Kp h Hin); [contradiction | assumption].
Qed.

(** Releasing a handle decrements [blocksInUse]. *)
Lemma release_live_stats (fuel : nat) (h file line : Z) (w : World)
    (pages free live1 live2 : list Z) (r : result Z) (w' : World) :
  hcore Null user w pages free (live1 ++ h :: live2) ->
  HandleAllocator_Free cstr exceptions fuel h file line w = Some (r, w') ->
  blocksInUse (stats (HandleAllocator w'))
  = wrap (blocksInUse (stats (HandleAllocator w)) - 1).
Proof.
  intros C E. pose proof C as [I _ _ _ _ _ _ _].
  destruct (Free_live cstr exceptions (Nat.max fuel (S (List.length pages))) h file
              line _ _ pages free live1 live2 I ltac:(lia)) as (m' & E0 & _).
  apply (HandleAllocator_Free_mono cstr exceptions fuel
           (Nat.max fuel (S (List.length pages)))) in E; [|lia].
  unfold HandleAllocator_Free in E. rewrite E0 in E. injection E as _ <-.
  reflexivity.
Qed.

(** [CreateHandle] increments it. *)
Lemma CreateHandle_stats (newp allocator memory file line : Z) (w : World)
    (pages free live : list Z) (r : result Z) (w1 : World) :
  hcore Null user w pages free live ->
  (freeList (HandleAllocator w) = 0 ->
   0 < newp /\ newp + pageSize (HandleAllocator w) <= 2 ^ 32
   /\ (forall x, newp <= x < newp + pageSize (HandleAllocator w) ->
         ~ user x /\ ~ (Null <= x < Null + sizeof_Handle))
   /\ (forall pages q,
         list_rep (heap w) (pageList (HandleAllocator w)) pages -> In q pages ->
         q + pageSize (HandleAllocator w) <= newp
         \/ newp + pageSize (HandleAllocator w) <= q)) ->
  CreateHandle newp allocator memory file line w = Some (r, w1) ->
  blocksInUse (stats (HandleAllocator w1))
  = wrap (blocksInUse (stats (HandleAllocator w)) + 1).
Proof.
  clear cstr exceptions MemoryHandle_cpp.
  intros C Hfresh. pose proof C as [I _ _ _ _ _ _ _].
  pose proof I as [_ P _ _ _ _ _ _ _].
  destruct (Allocate_inv newp file line (HandleAllocator w) (heap w) pages free live I)
    as (p & a' & m' & free' & E & _ & _ & Hb & _).
  { intros E0. destruct (Hfresh E0) as (H1 & H2 & _ & H4).
    split; [exact H1 | split; [exact H2|]]. intros q Hq. exact (H4 pages q P Hq). }
  unfold CreateHandle, bind, HandleAllocator_Allocate, Handle_ctor, put32, ret.
  rewrite E. intros EC. injection EC as _ <-. exact Hb.
Qed.

(** [RemoveRef] on the handle of a pointer, when nothing ever raised: the
    handle is released exactly when this was its last pointer. *)
Lemma RemoveRef_counted_stats (fuel : nat) (i : nat) (h file line : Z) (w : World)
    (ps pages free live : list Z) (u : unit) (w' : World) :
  pinv Null user w ps pages free live -> counted Null w ps live ->
  nth_error ps i = Some h ->
  Handle.RemoveRef cstr exceptions MemoryHandle_cpp fuel h file line w
  = Some (Returned u, w') ->
  ((In h (remove_nth i ps) \/ h = Null)
   /\ stats (HandleAllocator w') = stats (HandleAllocator w))
  \/ (~ In h (remove_nth i ps) /\ h <> Null
      /\ blocksInUse (stats (HandleAllocator w'))
         = wrap (blocksInUse (stats (HandleAllocator w)) - 1)).
Proof.
  intros [C Hn Hb Hp] [Kp Kl] Ei E.
  assert (Hin : In h ps) by (eapply nth_error_In; eassumption).
  pose proof (refs_bound ps h) as Hbd. pose proof (refs_nonneg ps Null).
  pose proof (refs_remove_nth i ps h h Ei) as Er.
  destruct (Z.eq_dec h h) as [_ | Hne]; [|congruence].
  destruct (decremented_spec Null user w pages free live h C (Hp h Hin))
    as (C1 & Erc & Epred & _).
  destruct (RemoveRef_paths cstr exceptions MemoryHandle_cpp fuel h file line w)
    as (P1 & _ & _ & P4 & P5).
  rewrite <- Erc in P1, P4, P5.
  assert (Hkeep : 0 < refCount_of (decremented w h) h ->
            stats (HandleAllocator w') = stats (HandleAllocator w)).
  { intros Hpos. rewrite (P1 Hpos) in E. injection E as _ <-. reflexivity. }
  destruct (Kp h Hin) as [E0 | Hl].
  - left. split; [now right|]. apply Hkeep. subst h.
    apply refs_In in Hin. rewrite Epred; lia.
  - destruct (Kl h Hl) as [Eh Hpos].
    assert (Ed : refCount_of (decremented w h) h = refs (remove_nth i ps) h)
      by (rewrite Epred; lia).
    destruct (Z_lt_le_dec 0 (refs (remove_nth i ps) h)) as [Hmore | Hlast].
    + left. split; [left; now apply refs_In|]. apply Hkeep. lia.
    + right. pose proof (refs_nonneg (remove_nth i ps) h).
      split; [intros Hc; apply refs_In in Hc; lia|].
      split; [intros ->; exact (null_not_block Null user w pages free live Null C
                                   (or_intror Hl) eq_refl)|].
      assert (E0 : refCount_of (decremented w h) h = 0) by lia.
      assert (ER : (HandleAllocator_Free cstr exceptions fuel h MemoryHandle_cpp 88
                    ;;; ret tt) (decremented w h) = Some (Returned u, w')).
      { destruct (Z.eq_dec (storage_of (decremented w h) h) 0) as [Hs | Hs].
        - now rewrite <- (P5 E0 (or_intror Hs)).
        - assert (Hex : exceptions = true \/ exceptions = false)
            by (destruct exceptions; auto).
          destruct Hex as [Hex | Hex].
          + rewrite (P4 E0 Hex Hs) in E. discriminate.
          + now rewrite <- (P5 E0 (or_introl Hex)). }
      apply bind_inv in ER as [(x & w2 & EF & ER) | (e & _ & ER)]; [|discriminate].
      injection ER as _ <-.
      destruct (in_split h live Hl) as (l1 & l2 & ->).
      exact (release_live_stats fuel h _ _ (decremented w h) pages free l1 l2 _ w2
               C1 EF).
Qed.

(** The step [RemoveRef] makes, seen from a list [ps'] that holds the
    handles of the pointers left. *)
Lemma remove_step (fuel : nat) (i : nat) (h file line : Z) (w : World)
    (ps pages free live : list Z) (u : unit) (w1 w' : World) (ps' : list Z) :
  pinv Null user w ps pages free live -> counted Null w ps live ->
  nth_error ps i = Some h ->
  Handle.RemoveRef cstr exceptions MemoryHandle_cpp fuel h file line w
  = Some (Returned u, w1) ->
  (forall p, p <> Null -> (In p ps' <-> In p (remove_nth i ps))) ->
  stats (HandleAllocator w') = stats (HandleAllocator w1) ->
  in_use_step Null w ps w' ps'.
Proof.
  intros J K Ei E Hset Hst.
  assert (Hin : In h ps) by (eapply nth_error_In; eassumption).
  destruct (RemoveRef_counted_stats fuel i h file line w ps pages free live u w1
              J K Ei E) as [[Hh Es] | (Hh & Hne & Es)].
  - left. split; [|now rewrite Hst, Es].
    intros p Hp. rewrite (Hset p Hp). split; [apply In_remove_nth|].
    intros Hpin. destruct (Z.eq_dec p h) as [-> | Hph].
    + destruct Hh; [assumption | contradiction].
    + now apply (In_remove_nth_other i ps h).
  - right; left. exists h. split; [exact Hin | split; [exact Hne|]].
    split; [|now rewrite Hst, Es].
    intros p Hp. rewrite (Hset p Hp). split.
    + intros Hpin. split; [now apply In_remove_nth in Hpin|]. intros ->. tauto.
    + intros [Hpin Hph]. now apply (In_remove_nth_other i ps h).
Qed.

Lemma rebind_step (fuel : nat) (i : nat) (h rhs file line : Z) (w : World)
    (ps pages free live : list Z) (x : Z) (w' : World) :
  pinv Null user w ps pages free live -> counted Null w ps live ->
  nth_error ps i = Some h ->
  rhs = Null \/ In rhs (remove_nth i ps) ->
  (Handle.RemoveRef cstr exceptions MemoryHandle_cpp fuel h file line ;;;
   AddRef rhs ;;; ret rhs) w = Some (Returned x, w') ->
  x = rhs /\ in_use_step Null w ps w' (replace_nth i rhs ps).
Proof.
  intros J K Ei Hrhs E.
  apply bind_inv in E as [(u & w1 & ER & E) | (e & _ & E)]; [|discriminate].
  unfold bind, ret in E. rewrite AddRef_eq in E. injection E as <- <-.
  split; [reflexivity|].
  apply (remove_step fuel i h file line w ps pages free live u w1 _ _ J K Ei ER);
    [|reflexivity].
  intros p Hp. rewrite (In_replace_nth i ps h rhs p Ei). split; [|tauto].
  intros [-> | Hpin]; [|exact Hpin]. destruct Hrhs; [contradiction | assumption].
Qed.

(** Every operation that returns makes such a step. *)
Lemma exec_step (fuel : nat) (o : op) (w : World) (ps pages free live : list Z)
    (ps' : list Z) (w' : World) :
  pinv Null user w ps pages free live -> counted Null w ps live ->
  admissible Null user o w ps ->
  exec cstr exceptions Null MemoryHandle_cpp fuel o ps w = Some (Returned ps', w') ->
  in_use_step Null w ps w' ps'.
Proof.
  intros J K Ha E.
  assert (Same : forall h, h = Null \/ In h ps ->
            in_use_step Null w ps (incremented w h) (h :: ps)).
  { intros h Hh. left. split; [|reflexivity]. intros p Hp. cbn [In].
    split; [|tauto]. intros [<- | Hin]; [|exact Hin].
    destruct Hh; [contradiction | assumption]. }
  destruct o as [newp al memory file line | | i | i | i j | i j | i | i file line];
    cbn [exec] in E.
  - destruct (PointerAllocate_spec cstr exceptions Null MemoryHandle_cpp user fuel
                newp al memory file line w ps pages free live J Ha)
      as (h & wc & pages' & free' & EC & EX & Hnn & Hnl & _).
    cbn [exec] in EX. rewrite EX in E. injection E as <- <-.
    right; right. exists h. destruct K as [Kp Kl].
    split; [intros Hin; destruct (Kp h Hin); tauto|].
    split; [exact Hnn|]. split.
    + intros p Hp. cbn [In]. split; intros [H | H]; auto.
    + pose proof J as [C _ _ _]. destruct Ha as (Hfresh & _).
      exact (CreateHandle_stats newp al memory file line w pages free live _ wc
               C Hfresh EC).
  - unfold Pointer_null, bind, ret in E. rewrite AddRef_eq in E. injection E as <- <-.
    apply Same. now left.
  - destruct (nth_error ps i) as [rhs|] eqn:Ei; [|discriminate].
    unfold Pointer_copy, bind, ret in E. rewrite AddRef_eq in E. injection E as <- <-.
    apply Same. right. eapply nth_error_In; eassumption.
  - destruct (nth_error ps i) as [h|] eqn:Ei; [|discriminate].
    unfold Pointer_dtor in E.
    apply bind_inv in E as [(u & w1 & ER & E) | (e & _ & E)]; [|discriminate].
    injection E as <- <-.
    apply (remove_step fuel i h 0 0 w ps pages free live u w1 _ _ J K Ei ER);
      [tauto | reflexivity].
  - destruct (nth_error ps i) as [h|] eqn:Ei; [|discriminate].
    destruct (nth_error ps j) as [rhs|] eqn:Ej; [|discriminate].
    apply bind_inv in E as [(x & w1 & ER & E) | (e & _ & E)]; [|discriminate].
    injection E as <- <-. unfold Pointer_assign in ER.
    destruct (Nat.eqb_spec i j) as [Eij | Hij].
    + injection ER as <- <-. rewrite (replace_nth_same i ps h Ei).
      left. split; [tauto | reflexivity].
    + destruct (rebind_step fuel i h rhs 0 0 w ps pages free live x w1 J K Ei
                  (or_intror (In_remove_other i j ps rhs Hij Ej)) ER) as [-> H].
      exact H.
  - destruct (nth_error ps i) as [h|] eqn:Ei; [|discriminate].
    destruct (nth_error ps j) as [rhs|] eqn:Ej; [|discriminate].
    destruct (Nat.eqb_spec i j) as [Eij | Hij]; [discriminate|].
    apply bind_inv in E as [(x & w1 & ER & E) | (e & _ & E)]; [|discriminate].
    injection E as <- <-. unfold Pointer_assign_conv in ER.
    destruct (rebind_step fuel i h rhs 0 0 w ps pages free live x w1 J K Ei
                (or_intror (In_remove_other i j ps rhs Hij Ej)) ER) as [-> H].
    exact H.
  - destruct (nth_error ps i) as [h|] eqn:Ei; [|discriminate].
    apply bind_inv in E as [(x & w1 & ER & E) | (e & _ & E)]; [|discriminate].
    injection E as <- <-. unfold Pointer_assign_null in ER.
    destruct (rebind_step fuel i h Null 0 0 w ps pages free live x w1 J K Ei
                (or_introl eq_refl) ER) as [-> H].
    exact H.
  - destruct (nth_error ps i) as [h|] eqn:Ei; [|discriminate].
    apply bind_inv in E as [(x & w1 & ER & E) | (e & _ & E)]; [|discriminate].
    injection E as <- <-. unfold Pointer_Free in ER.
    apply bind_inv in ER as [(u & w0 & EF & ER) | (e & _ & ER)]; [|discriminate].
    destruct (HFree_inv cstr exceptions Null user fuel h file line w ps pages free
                live _ w0 J (nth_error_In ps i Ei) EF) as (J0 & K0).
    pose proof (HFree_stats cstr exceptions fuel h file line w _ w0 EF) as Es.
    destruct (rebind_step fuel i h Null file line w0 ps pages free live x w1 J0
                (K0 K) Ei (or_introl eq_refl) ER) as [-> H].
    unfold in_use_step in *. rewrite Es in H. exact H.
Qed.

(** Such a step keeps [blocksInUse] equal to the number of handles. *)
Lemma in_use_step_length (w w' : World) (ps ps' : list Z)
    (pages free live pages' free' live' : list Z) :
  pinv Null user w ps pages free live -> counted Null w ps live ->
  pinv Null user w' ps' pages' free' live' -> counted Null w' ps' live' ->
  in_use_step Null w ps w' ps' ->
  blocksInUse (stats (HandleAllocator w)) = wrap (Z.of_nat (List.length live)) ->
  blocksInUse (stats (HandleAllocator w')) = wrap (Z.of_nat (List.length live')).
Proof.
  clear cstr exceptions MemoryHandle_cpp.
  intros J K J' K' D T.
  destruct (live_set w ps pages free live J K) as [N S1].
  destruct (live_set w' ps' pages' free' live' J' K') as [N' S2].
  destruct D as [[Hset Es] | [(h & Hin & Hne & Hset & Es) | (h & Hin & Hne & Hset & Es)]].
  - rewrite Es, T. do 2 f_equal. apply length_same; try assumption.
    intros x. rewrite S1, S2. split; intros [H1 H2]; (split; [|exact H2]);
      now apply (Hset x H2).
  - assert (El : List.length live = S (List.length live')).
    { change (S (List.length live')) with (List.length (h :: live')).
      apply length_same; [exact N | constructor; [|exact N']|].
      - intros Hc. apply S2 in Hc. destruct Hc as [Hc _].
        apply (Hset h Hne) in Hc. tauto.
      - intros x. cbn [In]. rewrite S1, S2. split.
        + intros [H1 H2]. destruct (Z.eq_dec h x); [now left|].
          right. split; [|exact H2]. apply (Hset x H2). split; [exact H1 | congruence].
        + intros [<- | [H1 H2]]; [tauto|]. split; [|exact H2].
          now apply (Hset x H2) in H1. }
    rewrite Es, T, El, wrap_sub_l. f_equal. lia.
  - assert (El : List.length live' = S (List.length live)).
    { change (S (List.length live)) with (List.length (h :: live)).
      apply length_same; [exact N' | constructor; [|exact N]|].
      - intros Hc. apply S1 in Hc. tauto.
      - intros x. cbn [In]. rewrite S1, S2. split.
        + intros [H1 H2]. apply (Hset x H2) in H1. destruct H1 as [-> | H1]; tauto.
        + intros [<- | [H1 H2]].
          * split; [|exact Hne]. apply (Hset h Hne). now left.
          * split; [|exact H2]. apply (Hset x H2). now right. }
    rewrite Es, T, El, wrap_add_l. f_equal. lia.
Qed.

(** [in_use_inv] holds as long as no operation raised. *)
Lemma returned_in_use (w : World) (ps : list Z) :
  returned cstr exceptions Null MemoryHandle_cpp user w ps -> in_use_inv Null user w ps.
Proof.
  induction 1 as [m al Hal Hn | w ps fuel o ps' w' _ IH Ha E].
  - exists [], [], []. destruct (init_inv Null user m al Hal Hn) as [J K].
    split; [exact J | split; [exact K | reflexivity]].
  - destruct IH as (pages & free & live & J & K & T).
    destruct (exec_inv cstr exceptions Null MemoryHandle_cpp user fuel o w ps pages
                free live _ w' J Ha E) as (pages' & free' & live' & J' & K').
    exists pages', free', live'. split; [exact J' | split; [exact (K' K)|]].
    apply (in_use_step_length w w' ps ps' pages free live pages' free' live' J K J'
             (K' K)); [|exact T].
    exact (exec_step fuel o w ps pages free live ps' w' J K Ha E).
Qed.

End InUse.

End InUseFacts.
Import InUseFacts.

(** No handle leaks and none is released early.  As long as no operation
    raised, the blocks of the handle allocator in use are exactly the
    handles, other than the null handle, that some pointer references, each
    once, and [GetNumberOfAllocatedHandles] returns their number. *)
Theorem handles_in_use (cstr : Z -> string) (exceptions : bool)
    (Null MemoryHandle_cpp : Z) (user : Z -> Prop) (w : World) (ps : list Z) :
  returned cstr exceptions Null MemoryHandle_cpp user w ps ->
  exists live,
    NoDup live
    /\ (forall h, In h live <-> In h ps /\ h <> Null)
    /\ (exists pages free, pool_inv (HandleAllocator w) (heap w) pages free live)
    /\ GetNumberOfAllocatedHandles w
       = Some (Returned (Z.of_nat (List.length live)), w).
Proof.
  intros R.
  destruct (returned_in_use cstr exceptions Null MemoryHandle_cpp user w ps R)
    as (pages & free & live & J & K & T).
  destruct (live_set Null user w ps pages free live J K) as [N Hset].
  exists live. split; [exact N | split; [exact Hset|]].
  pose proof J as [C _ Hb _]. split.
  - exists pages, free. exact (hc_pool Null user w pages free live C).
  - unfold GetNumberOfAllocatedHandles. rewrite T, signed_wrap.
    rewrite signed_small; [reflexivity|].
    assert (Hle : (List.length live <= List.length ps)%nat).
    { apply NoDup_incl_length; [exact N|]. intros x Hx. now apply Hset in Hx. }
    lia.
Qed.

(** After the first [MM_PALLOC] of a program one handle is allocated. *)
Lemma handles_in_use_witness :
  let cs := fun _ : Z => EmptyString in
  let user := fun x : Z => 8192 <= x < 12288 in
  let pool := ObjectAllocator_ctor 8 None default_settings in
  let al := fun k : Z => if k =? 4096 then Some pool else None in
  exists h w,
    returned cs true 64 0 user w [h]
    /\ GetNumberOfAllocatedHandles w = Some (Returned 1, w).
Proof.
  intros cs user pool al. set (w0 := init_world 64 (fun _ => 0) al).
  assert (Hal : forall k, al k <> None -> k mod 4 = 0).
  { intros k. unfold al. destruct (Z.eqb_spec k 4096) as [-> | _]; [reflexivity|].
    intros H. now contradict H. }
  assert (Hn : forall x, 64 <= x < 64 + sizeof_Handle -> ~ user x).
  { intros x Hx. unfold user, sizeof_Handle in *. lia. }
  destruct (init_inv 64 user (fun _ => 0) al Hal Hn) as [J0 K0].
  assert (Eps : pageSize (HandleAllocator w0) = 28678) by reflexivity.
  assert (Ha : admissible 64 user (OpAllocate 100000 4096 9000 0 7) w0 []).
  { cbn [admissible]. rewrite Eps. split; [intros _; repeat split; try lia|].
    - unfold user. lia.
    - unfold sizeof_Handle. lia.
    - intros pages q Hp Hq. apply list_rep_null in Hp. subst pages. destruct Hq.
    - split; [|cbn; lia]. exists pool. split; [reflexivity|].
      intros x. unfold Free_writes, user. cbn. lia. }
  destruct (PointerAllocate_spec cs true 64 0 user 0%nat 100000 4096 9000 0 7 w0
              [] [] [] [] J0 Ha)
    as (h & wc & pages' & free' & EC & X1 & Hnn & _).
  pose proof (returned_step cs true 64 0 user w0 [] 0%nat _ _ (incremented wc h)
                (returned_init cs true 64 0 user _ al Hal Hn) Ha X1) as R1.
  exists h, (incremented wc h). split; [exact R1|].
  destruct (handles_in_use cs true 64 0 user (incremented wc h) [h] R1)
    as (live & N & Hset & _ & E).
  rewrite E. do 3 f_equal.
  change 1 with (Z.of_nat (List.length [h])). f_equal.
  apply length_same; [exact N | repeat constructor; intros [] |].
  intros x. rewrite Hset. cbn [In]. split; [tauto|].
  intros [<- | []]. split; [now left | exact Hnn].
Defined.

(** ** What an operation leaves alone *)

Module StableFacts.

Section Stable.

Variable cstr : Z -> string.
Variable exceptions : bool.
Variable Null : Z.
Variable MemoryHandle_cpp : Z.
Variable user : Z -> Prop.

(** The [refCount] member of a handle is apart from the other members of
    every handle. *)
Lemma refCount_apart (w : World) (pages free live : list Z) (k h x : Z) :
  hcore Null user w pages free live ->
  k = Null \/ In k free \/ In k live -> h = Null \/ In h free \/ In h live ->
  h <= x < h + off_refCount ->
  x < k + off_refCount \/ k + off_refCount + 4 <= x.
Proof.
  clear cstr exceptions MemoryHandle_cpp.
  intros C Hk Hh Hx. pose proof C as [I Hbs _ _ _ _ _ _].
  pose proof I as [G _ _ _ _ _ _ _ _].
  destruct (geometry_pos _ G) as (Hpad & _ & _ & _ & Hhs & _).
  unfold off_refCount, sizeof_Handle in *.
  destruct (Z.eq_dec k h) as [-> | Hne]; [lia|].
  destruct Hh as [-> | Hh].
  - destruct Hk as [-> | Hk]; [congruence|].
    destruct (hcore_apart Null user w pages free live Null k C (or_introl eq_refl)
                Hk ltac:(congruence)); unfold sizeof_Handle in *; lia.
  - destruct (hcore_apart Null user w pages free live k h C Hk Hh Hne);
      unfold sizeof_Handle in *; lia.
Qed.

(** The storage member of a handle is apart from every other handle. *)
Lemma storage_apart (w : World) (pages free live : list Z) (k h x : Z) :
  hcore Null user w pages free live ->
  In k free \/ In k live -> h = Null \/ In h free \/ In h live -> h <> k ->
  h <= x < h + sizeof_Handle ->
  x < k + off_memory \/ k + off_memory + 4 <= x.
Proof.
  clear cstr exceptions MemoryHandle_cpp.
  intros C Hk Hh Hne Hx. pose proof C as [I Hbs _ _ _ _ _ _].
  pose proof I as [G _ _ _ _ _ _ _ _].
  destruct (geometry_pos _ G) as (Hpad & _ & _ & _ & Hhs & _).
  unfold off_memory, sizeof_Handle in *.
  destruct (hcore_apart Null user w pages free live h k C Hh Hk Hne);
    unfold sizeof_Handle in *; lia.
Qed.

(** [RemoveRef] on the handle of a pointer, when nothing ever raised,
    leaves the storage and allocator members of the handles that are still
    referenced, and of the null handle, as they were. *)
Lemma RemoveRef_keeps (fuel : nat) (i : nat) (k file line : Z) (w : World)
    (ps pages free live : list Z) (u : unit) (w' : World) (h x : Z) :
  pinv Null user w ps pages free live -> counted Null w ps live ->
  nth_error ps i = Some k ->
  Handle.RemoveRef cstr exceptions MemoryHandle_cpp fuel k file line w
  = Some (Returned u, w') ->
  h = Null \/ In h (remove_nth i ps) ->
  h <= x < h + off_refCount ->
  heap w' x = heap w x.
Proof.
  intros [C Hn Hb Hp] [Kp Kl] Ei E Hh Hx.
  assert (Hin : In k ps) by (eapply nth_error_In; eassumption).
  assert (Hhv : h = Null \/ In h free \/ In h live).
  { destruct Hh as [-> | Hh]; [now left|]. apply In_remove_nth in Hh.
    destruct (Kp h Hh); [now left | now right; right]. }
  pose proof (refs_bound ps k) as Hbd. pose proof (refs_nonneg ps Null).
  pose proof (refs_remove_nth i ps k k Ei) as Er.
  destruct (Z.eq_dec k k) as [_ | Hne]; [|congruence].
  destruct (decremented_spec Null user w pages free live k C (Hp k Hin))
    as (C1 & Erc & Epred & _).
  destruct (RemoveRef_paths cstr exceptions MemoryHandle_cpp fuel k file line w)
    as (P1 & _ & _ & P4 & P5).
  rewrite <- Erc in P1, P4, P5.
  assert (Hd : heap (decremented w k) x = heap w x).
  { unfold decremented. cbn [heap set_heap]. apply store32_out.
    exact (refCount_apart w pages free live k h x C (Hp k Hin) Hhv Hx). }
  assert (Hkeep : 0 < refCount_of (decremented w k) k -> heap w' x = heap w x).
  { intros Hpos. rewrite (P1 Hpos) in E. injection E as _ <-. exact Hd. }
  destruct (Kp k Hin) as [E0 | Hl].
  - apply Hkeep. subst k. apply refs_In in Hin. rewrite Epred; lia.
  - destruct (Kl k Hl) as [Ek Hpos].
    assert (Ed : refCount_of (decremented w k) k = refs (remove_nth i ps) k)
      by (rewrite Epred; lia).
    destruct (Z_lt_le_dec 0 (refs (remove_nth i ps) k)) as [Hmore | Hlast].
    + apply Hkeep. lia.
    + pose proof (refs_nonneg (remove_nth i ps) k).
      assert (E0 : refCount_of (decremented w k) k = 0) by lia.
      assert (ER : (HandleAllocator_Free cstr exceptions fuel k MemoryHandle_cpp 88
                    ;;; ret tt) (decremented w k) = Some (Returned u, w')).
      { destruct (Z.eq_dec (storage_of (decremented w k) k) 0) as [Hs | Hs].
        - now rewrite <- (P5 E0 (or_intror Hs)).
        - assert (Hex : exceptions = true \/ exceptions = false)
            by (destruct exceptions; auto).
          destruct Hex as [Hex | Hex].
          + rewrite (P4 E0 Hex Hs) in E. discriminate.
          + now rewrite <- (P5 E0 (or_introl Hex)). }
      apply bind_inv in ER as [(y & w2 & EF & ER) | (e & _ & ER)]; [|discriminate].
      injection ER as _ <-.
      assert (Hne : h <> k).
      { destruct Hh as [-> | Hh].
        - exact (null_not_block Null user w pages free live k C (or_intror Hl)).
        - intros ->. apply refs_In in Hh. lia. }
      destruct (in_split k live Hl) as (l1 & l2 & ->).
      destruct (release_live_any cstr exceptions Null user fuel k _ _ (decremented w k)
                  pages free l1 l2 _ w2 C1 EF) as (_ & _ & Fr).
      rewrite (Fr h x Hne); [exact Hd | | unfold off_refCount, sizeof_Handle in *; lia].
      destruct Hhv as [-> | [Hf | Hl']]; [now left | now right; left|].
      right; right. apply in_app_or in Hl'. apply in_or_app.
      destruct Hl' as [Hl' | [Hl' | Hl']]; [now left | congruence | now right].
Qed.

(** The same for [RemoveRef] followed by [AddRef]. *)
Lemma rebind_keeps (fuel : nat) (i : nat) (k rhs file line : Z) (w : World)
    (ps pages free live : list Z) (y : Z) (w' : World) (h x : Z) :
  pinv Null user w ps pages free live -> counted Null w ps live ->
  nth_error ps i = Some k ->
  rhs = Null \/ In rhs ps ->
  (Handle.RemoveRef cstr exceptions MemoryHandle_cpp fuel k file line ;;;
   AddRef rhs ;;; ret rhs) w = Some (Returned y, w') ->
  h = Null \/ In h (remove_nth i ps) ->
  h <= x < h + off_refCount ->
  heap w' x = heap w x.
Proof.
  intros J K Ei Hrhs E Hh Hx.
  apply bind_inv in E as [(u & w1 & ER & E) | (e & _ & E)]; [|discriminate].
  unfold bind, ret in E. rewrite AddRef_eq in E. injection E as _ <-.
  pose proof J as [C _ _ Hp]. pose proof K as [Kp _].
  unfold incremented. cbn [heap set_heap]. rewrite store32_out.
  - exact (RemoveRef_keeps fuel i k file line w ps pages free live u w1 h x J K Ei ER
             Hh Hx).
  - apply (refCount_apart w pages free live rhs h x C); [| |exact Hx].
    + destruct Hrhs as [-> | Hr]; [now left | exact (Hp rhs Hr)].
    + destruct Hh as [-> | Hh]; [now left|]. apply In_remove_nth in Hh.
      exact (Hp h Hh).
Qed.

(** [Handle::Free] leaves the other handles alone. *)
Lemma HFree_keeps (fuel : nat) (k file line : Z) (w : World)
    (pages free live : list Z) (r : result unit) (w' : World) (h x : Z) :
  hcore Null user w pages free live ->
  k = Null \/ In k free \/ In k live ->
  Handle.Free cstr exceptions fuel k file line w = Some (r, w') ->
  h = Null \/ In h free \/ In h live -> h <> k ->
  h <= x < h + sizeof_Handle ->
  heap w' x = heap w x.
Proof.
  intros C Hk E Hh Hne Hx. unfold Handle.Free, bind, get32 in E. cbv beta in E.
  fold (storage_of w k) in E.
  destruct (Z.eqb_spec (storage_of w k) 0) as [Hs | Hs].
  - unfold handle_header, hlog, when, throw, ret in E.
    destruct exceptions; injection E as _ <-; reflexivity.
  - change (load32 (heap w) (k + off_allocator)) with (allocator_of w k) in E.
    destruct (allocator_Free cstr exceptions fuel (allocator_of w k) (storage_of w k)
                file line w) as [[r1 w1]|] eqn:EA; [|discriminate].
    assert (Hl : In k live).
    { destruct Hk as [-> | [Hf | Hl]]; [| |exact Hl].
      - exfalso. apply Hs. exact (hc_null_storage Null user w pages free live C).
      - exfalso. unfold allocator_Free in EA.
        rewrite (hc_free Null user w pages free live C k Hf) in EA. discriminate. }
    destruct (hc_live Null user w pages free live C k Hl) as [H0 | Hu]; [contradiction|].
    destruct (allocator_Free_core cstr exceptions Null user fuel _ _ file line w pages
                free live r1 w1 C Hu EA) as (C1 & EH & Fr).
    pose proof (Fr h x Hh Hx) as F1.
    pose proof (storage_apart w pages free live k h x C (or_intror Hl) Hh Hne Hx)
      as Hap.
    destruct r1 as [code | e]; [|injection E as _ <-; exact F1].
    unfold when, handle_header, hlog, throw, ret, put32 in E.
    destruct (code =? 0); cbn [negb] in E.
    + injection E as _ <-. cbn [heap set_heap]. rewrite store32_out by exact Hap.
      exact F1.
    + destruct exceptions; injection E as _ <-.
      * exact F1.
      * cbn [heap set_heap logged set_HandleAllocator].
        rewrite store32_out by exact Hap. exact F1.
Qed.

(** [CreateHandle] leaves the handles there are alone. *)
Lemma CreateHandle_keeps (newp allocator memory file line : Z) (w : World)
    (pages free live : list Z) (r : result Z) (w1 : World) (h x : Z) :
  hcore Null user w pages free live ->
  (freeList (HandleAllocator w) = 0 ->
   0 < newp /\ newp + pageSize (HandleAllocator w) <= 2 ^ 32
   /\ (forall x, newp <= x < newp + pageSize (HandleAllocator w) ->
         ~ user x /\ ~ (Null <= x < Null + sizeof_Handle))
   /\ (forall pages q,
         list_rep (heap w) (pageList (HandleAllocator w)) pages -> In q pages ->
         q + pageSize (HandleAllocator w) <= newp
         \/ newp + pageSize (HandleAllocator w) <= q)) ->
  CreateHandle newp allocator memory file line w = Some (r, w1) ->
  h = Null \/ In h live ->
  h <= x < h + sizeof_Handle ->
  heap w1 x = heap w x.
Proof.
  clear cstr exceptions MemoryHandle_cpp.
  intros C Hfresh EC Hh Hx.
  pose proof C as [I Hbs Hpg Hn Hns Hl Hf Ha]. pose proof I as [G P Sp F N B Pd L Fz].
  destruct (geometry_pos _ G) as (Hpad & Hbs' & Hla & Hia & Hhs & Hics & Hlo & Hps).
  set (a := HandleAllocator w) in *.
  assert (Hfr' : freeList a = 0 ->
            0 < newp /\ newp + pageSize a <= 2 ^ 32
            /\ forall q, In q pages -> q + pageSize a <= newp \/ newp + pageSize a <= q).
  { intros E0. destruct (Hfresh E0) as (H1 & H2 & _ & H4).
    split; [exact H1 | split; [exact H2|]]. intros q Hq. exact (H4 pages q P Hq). }
  destruct (Allocate_inv newp file line a (heap w) pages free live I Hfr')
    as (p & a' & m' & free' & EA & I' & Ed & _ & _ & _ & _ & (pg & Hpgin & Hblk)
        & _ & _ & _ & _ & Fr & _).
  set (pages' := if freeList a =? 0 then newp :: pages else pages) in *.
  unfold dims in Ed. injection Ed as E1 E2 E3 E4 E5 E6 E7 E8.
  destruct (block_extent a G pg p Hblk) as [X Y].
  pose proof I' as [G' P' Sp' F' N' B' Pd' L' Fz'].
  unfold CreateHandle, bind, HandleAllocator_Allocate, Handle_ctor, put32, ret in EC.
  fold a in EC. rewrite EA in EC. injection EC as _ <-.
  cbn [heap set_heap set_HandleAllocator].
  assert (Hpl : ~ In p live).
  { intros Hin. apply NoDup_app_remove_l in N'. apply NoDup_cons_iff in N'. tauto. }
  assert (Hout : x < p - padBytes (settings a) - headerSize a
                 \/ p + blockSize a <= x).
  { destruct Hh as [-> | Hh].
    - assert (Hpg' : forall y, pg <= y < pg + pageSize a ->
                ~ (Null <= y < Null + sizeof_Handle)).
      { intros y Hy. subst pages'.
        destruct (Z.eqb_spec (freeList a) 0) as [E0 | E0].
        - destruct Hpgin as [<- | Hq'].
          + destruct (Hfresh E0) as (_ & _ & H3 & _). exact (proj2 (H3 y Hy)).
          + exact (proj2 (Hpg pg y Hq' Hy)).
        - exact (proj2 (Hpg pg y Hpgin Hy)). }
      destruct (Z_lt_le_dec x pg); [unfold ptrSize in *; lia|].
      destruct (Z_lt_le_dec x (pg + pageSize a)); [|lia].
      exfalso. exact (Hpg' x ltac:(lia) Hx).
    - assert (Hne : h <> p) by (intros ->; tauto).
      destruct (heap_inv_apart a' m' _ _ pages' free' (p :: live) h p I'
                  (or_intror (or_intror Hh)) (or_intror (in_eq p live)) Hne)
        as [H | H];
        rewrite ?E1, ?E2, ?E3 in H; unfold sizeof_Handle in *; lia. }
  unfold off_memory, off_allocator, off_refCount, sizeof_Handle in *.
  rewrite !store32_out by lia. apply Fr; [|lia].
  intros E0. destruct Hh as [-> | Hh].
  - destruct (Hfresh E0) as (_ & _ & H3 & _).
    destruct (Z_lt_le_dec x newp); [now left|].
    destruct (Z_lt_le_dec x (newp + pageSize a)); [|now right].
    exfalso. exact (proj2 (H3 x ltac:(lia)) Hx).
  - destruct (B h (or_intror Hh)) as (q & Hq & Bq).
    destruct (block_extent a G q h Bq) as [X1 Y1].
    destruct (Hfr' E0) as (_ & _ & H4). specialize (H4 q Hq).
    unfold ptrSize in *. lia.
Qed.

(** An operation that returns leaves the storage and allocator members of
    every handle alone that a pointer references before and after it,
    unless it is a [Free] through a pointer to this handle. *)
Lemma exec_keeps (fuel : nat) (o : op) (w : World) (ps pages free live : list Z)
    (ps' : list Z) (w' : World) (h x : Z) :
  pinv Null user w ps pages free live -> counted Null w ps live ->
  admissible Null user o w ps ->
  exec cstr exceptions Null MemoryHandle_cpp fuel o ps w = Some (Returned ps', w') ->
  In h ps -> In h ps' ->
  (forall i file line, o = OpFree i file line -> nth_error ps i <> Some h) ->
  h <= x < h + off_refCount ->
  heap w' x = heap w x.
Proof.
  intros J K Ha E Hin Hin' Hfree Hx.
  pose proof J as [C _ _ Hp]. pose proof K as [Kp _].
  assert (Hhv : h = Null \/ In h free \/ In h live) by exact (Hp h Hin).
  assert (Add : forall k, k = Null \/ In k ps ->
            heap (incremented w k) x = heap w x).
  { intros k Hk. unfold incremented. cbn [heap set_heap]. apply store32_out.
    apply (refCount_apart w pages free live k h x C); [|exact Hhv | exact Hx].
    destruct Hk as [-> | Hk]; [now left | exact (Hp k Hk)]. }
  assert (Hrep : forall i k rhs, nth_error ps i = Some k ->
            rhs = Null \/ In rhs (remove_nth i ps) ->
            In h (replace_nth i rhs ps) -> h = Null \/ In h (remove_nth i ps)).
  { intros i k rhs Ei Hr Hi. apply (In_replace_nth i ps k rhs h Ei) in Hi.
    destruct Hi as [-> | Hi]; [exact Hr | now right]. }
  destruct o as [newp al memory file line | | i | i | i j | i j | i | i file line];
    cbn [exec] in E.
  - destruct (PointerAllocate_spec cstr exceptions Null MemoryHandle_cpp user fuel
                newp al memory file line w ps pages free live J Ha)
      as (h0 & wc & pages' & free' & EC & EX & Hnn & Hnl & _).
    cbn [exec] in EX. rewrite EX in E. injection E as _ <-.
    destruct Ha as (Hfresh & Hu & Hal & Hmem & _).
    assert (Hh' : h = Null \/ In h live) by exact (Kp h Hin).
    unfold incremented. cbn [heap set_heap]. rewrite store32_out.
    + apply (CreateHandle_keeps newp al memory file line w pages free live _ wc h x
               C Hfresh EC Hh'). unfold off_refCount, sizeof_Handle in *. lia.
    + destruct (CreateHandle_step Null user newp al memory file line w pages free live
                  C Hfresh Hu Hal Hmem)
        as (h1 & w1 & pages1 & free1 & EC1 & C1 & _).
      rewrite EC in EC1. injection EC1 as <- <-.
      apply (refCount_apart wc pages1 free1 (h0 :: live) h0 h x C1);
        [right; right; now left | | exact Hx].
      destruct Hh' as [-> | Hl]; [now left | right; right; now right].
  - unfold Pointer_null, bind, ret in E. rewrite AddRef_eq in E. injection E as _ <-.
    apply Add. now left.
  - destruct (nth_error ps i) as [rhs|] eqn:Ei; [|discriminate].
    unfold Pointer_copy, bind, ret in E. rewrite AddRef_eq in E. injection E as _ <-.
    apply Add. right. eapply nth_error_In; eassumption.
  - destruct (nth_error ps i) as [k|] eqn:Ei; [|discriminate].
    unfold Pointer_dtor in E.
    apply bind_inv in E as [(u & w1 & ER & E) | (e & _ & E)]; [|discriminate].
    injection E as <- <-.
    exact (RemoveRef_keeps fuel i k 0 0 w ps pages free live u w1 h x J K Ei ER
             (or_intror Hin') Hx).
  - destruct (nth_error ps i) as [k|] eqn:Ei; [|discriminate].
    destruct (nth_error ps j) as [rhs|] eqn:Ej; [|discriminate].
    apply bind_inv in E as [(y & w1 & ER & E) | (e & _ & E)]; [|discriminate].
    injection E as <- <-. unfold Pointer_assign in ER.
    destruct (Nat.eqb_spec i j) as [Eij | Hij].
    + injection ER as _ <-. reflexivity.
    + apply (rebind_keeps fuel i k rhs 0 0 w ps pages free live y w1 h x J K Ei
               (or_intror (nth_error_In ps j Ej)) ER); [|exact Hx].
      assert (Ey : y = rhs).
      { apply bind_inv in ER as [(u & w2 & _ & ER) | (e & _ & ER)]; [|discriminate].
        unfold bind, ret in ER. rewrite AddRef_eq in ER. now injection ER as <- _. }
      subst y.
      exact (Hrep i k rhs Ei (or_intror (In_remove_other i j ps rhs Hij Ej)) Hin').
  - destruct (nth_error ps i) as [k|] eqn:Ei; [|discriminate].
    destruct (nth_error ps j) as [rhs|] eqn:Ej; [|discriminate].
    destruct (Nat.eqb_spec i j) as [Eij | Hij]; [discriminate|].
    apply bind_inv in E as [(y & w1 & ER & E) | (e & _ & E)]; [|discriminate].
    injection E as <- <-. unfold Pointer_assign_conv in ER.
    apply (rebind_keeps fuel i k rhs 0 0 w ps pages free live y w1 h x J K Ei
             (or_intror (nth_error_In ps j Ej)) ER); [|exact Hx].
    assert (Ey : y = rhs).
    { apply bind_inv in ER as [(u & w2 & _ & ER) | (e & _ & ER)]; [|discriminate].
      unfold bind, ret in ER. rewrite AddRef_eq in ER. now injection ER as <- _. }
    subst y.
    exact (Hrep i k rhs Ei (or_intror (In_remove_other i j ps rhs Hij Ej)) Hin').
  - destruct (nth_error ps i) as [k|] eqn:Ei; [|discriminate].
    apply bind_inv in E as [(y & w1 & ER & E) | (e & _ & E)]; [|discriminate].
    injection E as <- <-. unfold Pointer_assign_null in ER.
    apply (rebind_keeps fuel i k Null 0 0 w ps pages free live y w1 h x J K Ei
             (or_introl eq_refl) ER); [|exact Hx].
    assert (Ey : y = Null).
    { apply bind_inv in ER as [(u & w2 & _ & ER) | (e & _ & ER)]; [|discriminate].
      unfold bind, ret in ER. rewrite AddRef_eq in ER. now injection ER as <- _. }
    subst y. exact (Hrep i k Null Ei (or_introl eq_refl) Hin').
  - destruct (nth_error ps i) as [k|] eqn:Ei; [|discriminate].
    apply bind_inv in E as [(y & w1 & ER & E) | (e & _ & E)]; [|discriminate].
    injection E as <- <-. unfold Pointer_Free in ER.
    apply bind_inv in ER as [(u & w0 & EF & ER) | (e & _ & ER)]; [|discriminate].
    assert (Hne : h <> k).
    { intros ->. exact (Hfree i file line eq_refl Ei). }
    destruct (HFree_inv cstr exceptions Null user fuel k file line w ps pages free
                live _ w0 J (nth_error_In ps i Ei) EF) as (J0 & K0).
    assert (Ey : y = Null).
    { apply bind_inv in ER as [(u' & w2 & _ & ER) | (e & _ & ER)]; [|discriminate].
      unfold bind, ret in ER. rewrite AddRef_eq in ER. now injection ER as <- _. }
    subst y.
    rewrite (rebind_keeps fuel i k Null file line w0 ps pages free live Null w1 h x
               J0 (K0 K) Ei (or_introl eq_refl) ER
               (Hrep i k Null Ei (or_introl eq_refl) Hin') Hx).
    apply (HFree_keeps fuel k file line w pages free live _ w0 h x C
             (Hp k (nth_error_In ps i Ei)) EF Hhv Hne).
    unfold off_refCount, sizeof_Handle in *. lia.
Qed.

End Stable.

End StableFacts.
Import StableFacts.

(** Operations on other pointers do not disturb a pointer.  As long as no
    operation raised, an operation that returns leaves the storage and the
    allocator of every handle as they were that a pointer references before
    and after the operation, unless the operation is a [Free] through a
    pointer to this handle: if the pointer could be dereferenced before, it
    can be afterwards, and yields the same storage. *)
Theorem storage_stable (cstr : Z -> string) (exceptions : bool)
    (Null MemoryHandle_cpp : Z) (user : Z -> Prop) (fuel : nat) (o : op)
    (w w' : World) (ps ps' : list Z) (h : Z) :
  returned cstr exceptions Null MemoryHandle_cpp user w ps ->
  admissible Null user o w ps ->
  exec cstr exceptions Null MemoryHandle_cpp fuel o ps w = Some (Returned ps', w') ->
  In h ps -> In h ps' ->
  (forall i file line, o = OpFree i file line -> nth_error ps i <> Some h) ->
  storage_of w' h = storage_of w h
  /\ allocator_of w' h = allocator_of w h
  /\ (storage_of w h <> 0 ->
      Pointer_arrow cstr exceptions h w' = Some (Returned (storage_of w h), w')).
Proof.
  intros R Ha E Hin Hin' Hfree.
  destruct (returned_counted_inv cstr exceptions Null MemoryHandle_cpp user w ps R)
    as (pages & free & live & J & K).
  assert (Fr : forall x, h <= x < h + off_refCount -> heap w' x = heap w x).
  { intros x Hx.
    exact (exec_keeps cstr exceptions Null MemoryHandle_cpp user fuel o w ps pages
             free live ps' w' h x J K Ha E Hin Hin' Hfree Hx). }
  assert (Es : storage_of w' h = storage_of w h).
  { unfold storage_of, off_memory. apply load32_ext. intros x Hx. apply Fr.
    unfold off_refCount. lia. }
  assert (Eal : allocator_of w' h = allocator_of w h).
  { unfold allocator_of, off_allocator. apply load32_ext. intros x Hx. apply Fr.
    unfold off_refCount. lia. }
  split; [exact Es | split; [exact Eal|]]. intros Hs.
  assert (Hz : (storage_of w h =? 0) = false) by (apply Z.eqb_neq; exact Hs).
  unfold Pointer_arrow, Get, bind, get32.
  change (load32 (heap w') (h + off_memory)) with (storage_of w' h).
  rewrite Es, Hz. reflexivity.
Qed.

(** A null pointer is made after the first [MM_PALLOC] of a program; the
    pointer allocated still yields its storage. *)
Lemma storage_stable_witness :
  let cs := fun _ : Z => EmptyString in
  let user := fun x : Z => 8192 <= x < 12288 in
  let pool := ObjectAllocator_ctor 8 None default_settings in
  let al := fun k : Z => if k =? 4096 then Some pool else None in
  exists h w w',
    returned cs true 64 0 user w [h]
    /\ exec cs true 64 0 0 OpNull [h] w = Some (Returned [64; h], w')
    /\ Pointer_arrow cs true h w' = Some (Returned 9000, w').
Proof.
  intros cs user pool al. set (w0 := init_world 64 (fun _ => 0) al).
  assert (Hal : forall k, al k <> None -> k mod 4 = 0).
  { intros k. unfold al. destruct (Z.eqb_spec k 4096) as [-> | _]; [reflexivity|].
    intros H. now contradict H. }
  assert (Hn : forall x, 64 <= x < 64 + sizeof_Handle -> ~ user x).
  { intros x Hx. unfold user, sizeof_Handle in *. lia. }
  destruct (init_inv 64 user (fun _ => 0) al Hal Hn) as [J0 K0].
  assert (Eps : pageSize (HandleAllocator w0) = 28678) by reflexivity.
  assert (Ha : admissible 64 user (OpAllocate 100000 4096 9000 0 7) w0 []).
  { cbn [admissible]. rewrite Eps. split; [intros _; repeat split; try lia|].
    - unfold user. lia.
    - unfold sizeof_Handle. lia.
    - intros pages q Hp Hq. apply list_rep_null in Hp. subst pages. destruct Hq.
    - split; [|cbn; lia]. exists pool. split; [reflexivity|].
      intros x. unfold Free_writes, user. cbn. lia. }
  destruct (PointerAllocate_spec cs true 64 0 user 0%nat 100000 4096 9000 0 7 w0
              [] [] [] [] J0 Ha)
    as (h & wc & pages' & free' & EC & X1 & Hnn & _ & Est & _).
  pose proof (returned_step cs true 64 0 user w0 [] 0%nat _ _ (incremented wc h)
                (returned_init cs true 64 0 user _ al Hal Hn) Ha X1) as R1.
  set (w1 := incremented wc h) in *.
  assert (X2 : exec cs true 64 0 0 OpNull [h] w1
               = Some (Returned [64; h], incremented w1 64)).
  { cbn [exec]. unfold Pointer_null, bind, ret. rewrite AddRef_eq. reflexivity. }
  exists h, w1, (incremented w1 64). split; [exact R1 | split; [exact X2|]].
  destruct (storage_stable cs true 64 0 user 0%nat OpNull w1 (incremented w1 64)
              [h] [64; h] h R1) as (_ & _ & HG).
  - cbn. lia.
  - exact X2.
  - now left.
  - right. now left.
  - intros i file line Ho. discriminate Ho.
  - rewrite Est in HG. apply HG. lia.
Defined.
